(** * CreateAndBindRequirement: module-structure traversal, numbering and binding

    A shallow embedding of the three script variants

      - [CreateAndBindRequirement.For_Gemini.py]          (module [Orig])
      - [CreateAndBindRequirement.For_GeminiReturnV2.py]  (module [V2])
      - [CreateAndBindRequirement.For_GeminiReturnV4.py]  (module [V4])

    Python integers are [Z], Python strings are [string], Python lists are
    [list] in Python order (index 0 first, [l[-1]] last), dictionaries keyed
    by URL are [gmap string _], and a raised exception is a value of [exn]. *)

From Stdlib Require Import ZArith String List DecimalString Lia.
From stdpp Require Import gmap strings list.

Open Scope string_scope.
Open Scope list_scope.
Open Scope Z_scope.

(** ** Exceptions and results *)

(** The exception classes the scripts raise or provoke.  The argument is the
    datum interpolated into the message, not the message text. *)
Inductive exn : Type :=
| KeyError (key : string)          (* d[key] on a dict without that key *)
| IndexError                       (* l[0], l[-1] or l.pop() on an empty list *)
| PyException (msg : string)       (* raise Exception( msg ) *)
| ValueError (xpath : string)      (* V4: no insertion point for xpath *)
| ConnectionError (status : Z)     (* V2, V4: unexpected HTTP status *)
| TypeError                        (* element > int, len( None ) *)
| XMLSyntaxError.                  (* ET.fromstring on a text that does not parse *)

Inductive result (A : Type) : Type :=
| OK (a : A)
| Err (e : exn).
Arguments OK {A} a.
Arguments Err {A} e.

Definition bind {A B} (r : result A) (k : A -> result B) : result B :=
  match r with
  | OK a => k a
  | Err e => Err e
  end.

Notation "'do' x <- r ; k" := (bind r (fun x => k))
  (at level 10, x name, r at level 100, k at level 200).

(** [d[key]] on an optional field of a record that models a dict. *)
Definition getitem {A} (key : string) (field : option A) : result A :=
  match field with
  | Some a => OK a
  | None => Err (KeyError key)
  end.

(** [l[-1]] *)
Definition py_last {A} (l : list A) : result A :=
  match last l with
  | Some a => OK a
  | None => Err IndexError
  end.

(** [l[0]] *)
Definition py_first {A} (l : list A) : result A :=
  match l with
  | a :: _ => OK a
  | [] => Err IndexError
  end.

(** [l.pop()] : the list without its last element *)
Definition py_pop {A} (l : list A) : result (list A) :=
  match l with
  | [] => Err IndexError
  | _ => OK (removelast l)
  end.

(** [l[-1] = x] *)
Definition set_last {A} (x : A) (l : list A) : result (list A) :=
  match l with
  | [] => Err IndexError
  | _ => OK (removelast l ++ [x])
  end.

(** [f"{n}"] for an int [n] *)
Definition fmt_int (n : Z) : string := NilZero.string_of_int (Z.to_int n).

(** ** Section numbers: [getsectionnumber] (For_Gemini.py, lines 122-130) *)

Module Numbering.

(** One entry of [headinglevel]: the two-element list [[hn, tn]]. *)
Definition counters : Type := (Z * Z)%type.

Definition getsectionnumber (headinglevel : list counters) : string :=
  let hs :=
    fold_left
      (fun hs '(hn, tn) =>
         if negb (tn =? 0)
         then hs ++ [fmt_int hn +:+ "-" +:+ fmt_int tn]
         else hs ++ [fmt_int hn])
      headinglevel [] in
  String.concat "." hs.

(** The rendering in the words of the design: per level the heading count,
    with a dash and the sub-count when the sub-count is not zero. *)
Definition render_level (c : counters) : string :=
  fmt_int (fst c) +:+ (if snd c =? 0 then "" else "-" +:+ fmt_int (snd c)).

Definition render_levels (headinglevel : list counters) : string :=
  String.concat "." (map render_level headinglevel).

End Numbering.

(** ** Generators

    A Python generator is modelled by the finite list of items it yields and
    the way it stops.  The consumer sees the items in order, so an exception
    raised inside the generator reaches the consumer only after every item
    yielded before it has been handled. *)

Inductive gen_end : Type :=
| Exhausted                (* the generator returned *)
| Raises (e : exn)         (* the generator raised e *)
| NoFuel.                  (* the model ran out of fuel *)

Definition gen (A : Type) : Type := (list A * gen_end)%type.

Definition gen_nil {A} : gen A := ([], Exhausted).
Definition yield {A} (a : A) : gen A := ([a], Exhausted).
Definition gen_raise {A} (e : exn) : gen A := ([], Raises e).

(** [g1] followed by [g2]; [g2] is reached only when [g1] returns. *)
Definition gen_seq {A} (g1 g2 : gen A) : gen A :=
  match snd g1 with
  | Exhausted => (fst g1 ++ fst g2, snd g2)
  | _ => g1
  end.

Definition gen_concat {A} (gs : list (gen A)) : gen A :=
  fold_right gen_seq gen_nil gs.

(** ** Element trees (lxml) *)

Module Xml.

#[local] Set Warnings "-register-all".

Inductive element : Type :=
| Element (tag : string) (attrib : list (string * string))
          (text : option string) (children : list element).

Definition tag (el : element) : string :=
  let 'Element t _ _ _ := el in t.
Definition attrib (el : element) : list (string * string) :=
  let 'Element _ a _ _ := el in a.
Definition text (el : element) : option string :=
  let 'Element _ _ x _ := el in x.
(** [list(el)] *)
Definition children (el : element) : list element :=
  let 'Element _ _ _ cs := el in cs.

(** [el.get(name)] *)
Fixpoint get_attrib (name : string) (a : list (string * string)) : option string :=
  match a with
  | [] => None
  | (k, v) :: rest => if String.eqb k name then Some v else get_attrib name rest
  end.

(** Induction over element trees that reaches the children. *)
Fixpoint element_ind' (P : element -> Prop)
    (step : forall t a x cs, Forall P cs -> P (Element t a x cs))
    (el : element) : P el :=
  match el with
  | Element t a x cs =>
      step t a x cs
        ((fix all (l : list element) : Forall P l :=
            match l with
            | [] => @List.Forall_nil _ P
            | c :: l' =>
                @List.Forall_cons _ P c l' (element_ind' P step c) (all l')
            end) cs)
  end.

(** [el.tag in tags] *)
Definition tag_in (t : string) (tags : list string) : bool :=
  existsb (String.eqb t) tags.

(** A position in a document: the child indices from the context element
    down to the node.  lxml elements are objects with identity; the position
    stands for that identity. *)
Definition pos : Type := list nat.

Fixpoint subtree (el : element) (p : pos) : option element :=
  match p with
  | [] => Some el
  | i :: p' =>
      match children el !! i with
      | Some c => subtree c p'
      | None => None
      end
  end.

(** [xml.findall(path)] for a path of child steps [t1/t2/.../tn], as
    [rdfxml.xml_find_elements] evaluates it: every step selects, for each
    context node in order, its children with the given tag.  The matches
    come in document order. *)
Fixpoint findall (path : list string) (ctx : element) : list pos :=
  match path with
  | [] => [[]]
  | t :: path' =>
      flat_map
        (fun ic : nat * element =>
           if String.eqb (tag (snd ic)) t
           then map (cons (fst ic)) (findall path' (snd ic))
           else [])
        (imap pair (children ctx))
  end.

(** [node.append(new)] on the node at position [p] of [doc]: the document
    after the in-place update.  A position that [doc] does not have changes
    nothing. *)
Fixpoint append_at (p : pos) (new : element) (doc : element) : element :=
  let 'Element t a x cs := doc in
  match p with
  | [] => Element t a x (cs ++ [new])
  | i :: p' => Element t a x (alter (append_at p' new) i cs)
  end.

End Xml.

(** ** Flat-list (JSON) structure records *)

Module Json.

(** One record of the JSON module structure: a dict.  A field is [None] when
    the dict has no such key. *)
Record binding : Type := Binding {
  uri : option string;
  type : option string;
  isStructureRoot : option bool;
  isHeading : option bool;
  component : option string;
  module : option string;
  boundArtifact : option string;
  childBindings : option (list string)
}.

(** [d["childBindings"] = cs] *)
Definition set_childBindings (cs : list string) (d : binding) : binding :=
  {| uri := uri d; type := type d; isStructureRoot := isStructureRoot d;
     isHeading := isHeading d; component := component d; module := module d;
     boundArtifact := boundArtifact d; childBindings := Some cs |}.

End Json.

(** ** The client library seen from the scripts

    Every call of the elmclient component that reaches the server is an
    event; the script continues with the reply.  A program is the tree of
    calls it can make. *)

Module Http.

Inductive call : Type :=
| GetRdfXml (url : option string)
    (* execute_get_rdf_xml( url, ... ), with or without return_etag *)
| GetJson (url : option string)
    (* execute_get_json( url, ... ) *)
| PutRdfXml (url : option string) (data : Xml.element) (if_match : string)
    (* execute_post_rdf_xml( url, data=, put=True, headers={'If-Match':..} )
       and execute_put_rdf_xml( url, data=, headers={'If-Match':..} ) *)
| PutJson (url : option string) (data : list Json.binding) (if_match : string)
    (* execute_post_json( url, data=, put=True, headers={'If-Match':..} ) *)
| WaitForTracker (location : string).
    (* wait_for_tracker( location, interval=1.0, ... ) *)

(** What comes back: the parsed body in the form the call asked for, the
    ETag and Location headers and the status code. *)
Record reply : Type := Reply {
  xml : Xml.element;
  json : list Json.binding;
  etag : string;
  status_code : Z;
  location : option string
}.

Inductive prog (A : Type) : Type :=
| Ret (a : A)
| Raise (e : exn)
| Exit (code : Z)                          (* sys.exit( code ) *)
| Call (c : call) (k : reply -> prog A).
Arguments Ret {A} a.
Arguments Raise {A} e.
Arguments Exit {A} code.
Arguments Call {A} c k.

Fixpoint pbind {A B} (p : prog A) (f : A -> prog B) : prog B :=
  match p with
  | Ret a => f a
  | Raise e => Raise e
  | Exit c => Exit c
  | Call c k => Call c (fun r => pbind (k r) f)
  end.

Definition lift {A} (r : result A) : prog A :=
  match r with
  | OK a => Ret a
  | Err e => Raise e
  end.

(** How a run ends. *)
Inductive outcome (A : Type) : Type :=
| Returned (a : A)
| Raised (e : exn)
| Exited (code : Z)
| Starved.                  (* the script of replies ran out *)
Arguments Returned {A} a.
Arguments Raised {A} e.
Arguments Exited {A} code.
Arguments Starved {A}.

(** Run a program against the replies of the server, given in order; the
    result is how the run ends and the calls made, in order. *)
Fixpoint run {A} (p : prog A) (replies : list reply) : outcome A * list call :=
  match p with
  | Ret a => (Returned a, [])
  | Raise e => (Raised e, [])
  | Exit c => (Exited c, [])
  | Call c k =>
      match replies with
      | [] => (Starved, [c])
      | r :: replies' =>
          let '(o, cs) := run (k r) replies' in (o, c :: cs)
      end
  end.

End Http.

Notation "'let*' x := p 'in' k" := (Http.pbind p (fun x => k))
  (at level 10, x name, p at level 100, k at level 200).
Notation "'call!' c ; x => k" := (Http.Call c (fun x => k))
  (at level 10, x name, c at level 100, k at level 200).

(** ** elmclient.rdfxml, as far as the scripts use it

    Tags are written with their prefix, as in the scripts' XPath strings. *)

Module Rdfxml.
Import Xml.

Definition Binding_tag : string := "rm_modules:Binding".
Definition childBindings_tag : string := "rm_modules:childBindings".
Definition isHeading_tag : string := "rm_modules:isHeading".
Definition boundArtifact_tag : string := "rm_modules:boundArtifact".
Definition structure_tag : string := "rm_modules:structure".

(** [xml_find_elements( xml, 't1/t2/...' )]: the matching nodes of [xml], by
    position, in document order. *)
Definition xml_find_elements (xml : element) (path : list string) : list pos :=
  findall path xml.

(** The elements below [el], in document order ([el.iter()] without [el]). *)
Fixpoint descendants (el : element) : list element :=
  flat_map (fun c => c :: descendants c) (children el).

(** First match of ['.//t'] and of ['./t']. *)
Definition find_descendant (el : element) (t : string) : option element :=
  head (filter (fun e => String.eqb (tag e) t = true) (descendants el)).
Definition find_child (el : element) (t : string) : option element :=
  head (filter (fun e => String.eqb (tag e) t = true) (children el)).

(** What [xmlrdf_get_resource_uri] reads from the element it has found:
    the rdf:resource attribute, and the text of the element when it has no
    such attribute. *)
Definition resource_of (e : element) : option string :=
  match get_attrib "rdf:resource" (attrib e) with
  | Some uri => Some uri
  | None => text e
  end.

(** [xmlrdf_get_resource_uri( xml, './/t' )]: [None] without a match. *)
Definition xmlrdf_get_resource_uri_desc (xml : element) (t : string) : option string :=
  match find_descendant xml t with
  | Some e => resource_of e
  | None => None
  end.
(** [xmlrdf_get_resource_uri( el, './t' )] *)
Definition xmlrdf_get_resource_uri (el : element) (t : string) : option string :=
  match find_child el t with
  | Some e => resource_of e
  | None => None
  end.
(** [xmlrdf_get_resource_text( el, './t' )] *)
Definition xmlrdf_get_resource_text (el : element) (t : string) : option string :=
  match find_child el t with
  | Some e => text e
  | None => None
  end.

End Rdfxml.

(** ** Outline state shared by the two numbering loops *)

Module Outline.
Import Numbering.

(** One printed line: [print( f"{id}{'    '*level}" ); print( h ); print( f"  {summary}" )] *)
Record line : Type := Line {
  line_id : string;
  line_level : Z;
  line_section : string;
  line_summary : string
}.

Record state : Type := State {
  level : Z;
  headinglevel : list counters;
  printed : list line
}.

Definition initial : state :=
  {| level := 0; headinglevel := []; printed := [] |}.

(** [level += 1; headinglevel.append([0,0])] *)
Definition enter (st : state) : state :=
  {| level := level st + 1;
     headinglevel := headinglevel st ++ [(0, 0)];
     printed := printed st |}.

(** [level -= 1; headinglevel.pop()] *)
Definition leave (st : state) : result state :=
  do hl <- py_pop (headinglevel st);
  OK {| level := level st - 1; headinglevel := hl; printed := printed st |}.

(** The counter update of a visited binding:
    [headinglevel[-1][0] += 1; headinglevel[-1][1] = 0] for a heading,
    [headinglevel[-1][1] += 1] otherwise. *)
Definition bump (isheading : bool) (hl : list counters) : result (list counters) :=
  if isheading then
    do top <- py_last hl;
    do hl1 <- set_last (fst top + 1, snd top) hl;
    do top1 <- py_last hl1;
    set_last (fst top1, 0) hl1
  else
    do top <- py_last hl;
    set_last (fst top, snd top + 1) hl.

(** The rest of the visit: count, then print the line with its section. *)
Definition report (isheading : bool) (id summary : string) (st : state) : result state :=
  do hl <- bump isheading (headinglevel st);
  let h := getsectionnumber hl in
  OK {| level := level st;
        headinglevel := hl;
        printed := printed st ++
          [{| line_id := id; line_level := level st;
              line_section := h; line_summary := summary |}] |}.

(** [for x in items: body], stopping at the first exception. *)
Fixpoint for_each {A} (body : state -> A -> result state)
    (items : list A) (st : state) : result state :=
  match items with
  | [] => OK st
  | x :: items' => do st' <- body st x; for_each body items' st'
  end.

(** A loop over a generator: the body's exception ends the run at once, the
    generator's own end counts when every item has been handled. *)
Inductive finish : Type :=
| Completed (st : state)
| Failed (e : exn)
| Unfinished.

Definition for_gen {A} (body : state -> A -> result state)
    (g : gen A) (st : state) : finish :=
  match for_each body (fst g) st with
  | Err e => Failed e
  | OK st' =>
      match snd g with
      | Exhausted => Completed st'
      | Raises e => Failed e
      | NoFuel => Unfinished
      end
  end.

Definition sections (f : finish) : list string :=
  match f with
  | Completed st => map line_section (printed st)
  | _ => []
  end.

End Outline.

(** ** Pieces the three variants share *)

Module Common.
Import Xml Rdfxml Http.

(** The hard-coded insertion paths. *)
Definition two_level_path : list string :=
  [Binding_tag; childBindings_tag; Binding_tag; childBindings_tag].
Definition one_level_path : list string :=
  [Binding_tag; childBindings_tag].

(** The XPath text of a path of child steps. *)
Definition xpath_text (path : list string) : string := String.concat "/" path.

Definition rdf_nil : string := "http://www.w3.org/1999/02/22-rdf-syntax-ns#nil".

(** The binding with its four property children: the element an XML
    parser builds from [new_binding_text] below when the three URLs are
    plain text (no quote, ampersand or angle bracket in them).  White space
    between the tags is not represented. *)
Definition new_binding_element (about comp_u artifact_u module_u : string) : element :=
  Element Binding_tag [("rdf:about", about)] None
    [ Element "oslc_config:component" [("rdf:resource", comp_u)] None [];
      Element boundArtifact_tag [("rdf:resource", artifact_u)] None [];
      Element "rm_modules:module" [("rdf:resource", module_u)] None [];
      Element childBindings_tag [("rdf:resource", rdf_nil)] None [] ].

(** The placeholder URL of the new binding in For_Gemini.py. *)
Definition tempbinding_u : string :=
  "https://clmwb.com:9444/rdm/resources/_4sscEb43EeeD0-df1VhHuw/structure#1".

(** [status_code not in [200, 201, 202]] *)
Definition rejected (status : Z) : bool :=
  negb ((status =? 200) || (status =? 201) || (status =? 202)).

(** [if response.status_code == 202 and location: wait_for_tracker(...)],
    then [rest]. *)
Definition wait_if_pending {A} (response : reply) (rest : prog A) : prog A :=
  match location response with
  | Some loc =>
      if (status_code response =? 202) && negb (String.eqb loc "")
      then Call (WaitForTracker loc) (fun _ => rest)
      else rest
  | None => rest
  end.

(** *** Creation payloads *)

Definition dq : string := String (Ascii.ascii_of_nat 34) EmptyString.
Definition nl : string := String (Ascii.ascii_of_nat 10) EmptyString.

(** [name="value"] *)
Definition attr (name value : string) : string :=
  name +:+ "=" +:+ dq +:+ value +:+ dq.

(** [<rdf:type rdf:resource="uri"/>] *)
Definition rdf_type (uri : string) : string :=
  "<rdf:type " +:+ attr "rdf:resource" uri +:+ "/>".

Definition requirement_type : string := "http://open-services.net/ns/rm#Requirement".
Definition heading_type : string :=
  "https://hep.continental.com/ns/automotive/rm/ty/heading".
Definition text_type : string := "http://jazz.net/ns/rm#Text".

(** The part of every payload after the type markers: description, primary
    text mirroring the title, title, shape and parent folder. *)
Definition payload_body (description title shape_u folder_u : string) : string :=
  "<dc:description " +:+ attr "rdf:parseType" "Literal" +:+ ">"
    +:+ description +:+ "</dc:description>" +:+ nl +:+
  "<jazz_rm:primaryText " +:+ attr "rdf:parseType" "Literal" +:+ ">" +:+ nl +:+
  "<div " +:+ attr "xmlns" "http://www.w3.org/1999/xhtml" +:+ "><p><span>"
    +:+ title +:+ "</span></p></div>" +:+ nl +:+
  "</jazz_rm:primaryText>" +:+ nl +:+
  "<dc:title " +:+ attr "rdf:parseType" "Literal" +:+ ">"
    +:+ title +:+ "</dc:title>" +:+ nl +:+
  "<oslc:instanceShape " +:+ attr "rdf:resource" shape_u +:+ "/>" +:+ nl +:+
  "<nav:parent " +:+ attr "rdf:resource" folder_u +:+ "/>" +:+ nl +:+
  "</rdf:Description>" +:+ nl +:+
  "</rdf:RDF>".

(** The opening of a payload: the root with its namespace declarations and
    the description element up to the first type marker. *)
Definition payload_open (namespaces : list (string * string)) : string :=
  "<rdf:RDF " +:+
  String.concat " " (map (fun ns => attr ("xmlns:" +:+ fst ns) (snd ns)) namespaces)
  +:+ ">" +:+ nl +:+
  "<rdf:Description " +:+ attr "rdf:about" "" +:+ ">" +:+ nl.

(** *** The text of the new binding

    The f-string given to [ET.fromstring] (V4 lines 154-163, V2 lines
    177-186, For_Gemini.py lines 480-489).  The three URLs are spliced in as
    they are, so whether the text parses, and to which element, depends on
    them.  [RDF_DEFAULT_PREFIX] is the table of that name in
    elmclient.rdfxml; indentation is not represented. *)

(** [<tag rdf:resource="uri"/>] and the end of the line *)
Definition resource_line (tag uri : string) : string :=
  "<" +:+ tag +:+ " " +:+ attr "rdf:resource" uri +:+ "/>" +:+ nl.

(** The start tag with its namespace declarations. *)
Definition binding_open (RDF_DEFAULT_PREFIX : string -> string) (about : string)
    : string :=
  "<rm_modules:Binding" +:+ nl +:+
  "xmlns:rdf='" +:+ RDF_DEFAULT_PREFIX "rdf" +:+ "'" +:+ nl +:+
  "xmlns:oslc_config='" +:+ RDF_DEFAULT_PREFIX "oslc_config" +:+ "'" +:+ nl +:+
  "xmlns:rm_modules='" +:+ RDF_DEFAULT_PREFIX "rm_modules" +:+ "'" +:+ nl +:+
  attr "rdf:about" about +:+ ">" +:+ nl.

Definition new_binding_text (RDF_DEFAULT_PREFIX : string -> string)
    (about comp_u artifact_u module_u : string) : string :=
  binding_open RDF_DEFAULT_PREFIX about +:+
  resource_line "oslc_config:component" comp_u +:+
  resource_line boundArtifact_tag artifact_u +:+
  resource_line "rm_modules:module" module_u +:+
  resource_line childBindings_tag rdf_nil +:+
  "</rm_modules:Binding>".

(** [ET.fromstring( text )] with the parser [fromstring]: the element, or
    XMLSyntaxError. *)
Definition parse (fromstring : string -> option element) (text : string)
    : result element :=
  match fromstring text with
  | Some el => OK el
  | None => Err XMLSyntaxError
  end.

(** [needle in text] *)
Definition contains (needle text : string) : bool :=
  match String.index 0 needle text with
  | Some _ => true
  | None => false
  end.

(** A payload embeds the extra heading markers when both extra rdf:type
    elements occur in it. *)
Definition embeds_heading_markers (payload : string) : bool :=
  contains (rdf_type heading_type) payload && contains (rdf_type text_type) payload.

End Common.

(** ** CreateAndBindRequirement.For_Gemini.py *)

Module Orig.
Import Xml Rdfxml Numbering Outline Http Common.

(** *** The two tree walkers (lines 135-192) *)

(** The [tags] argument: [None], a list, or a single tag. *)
Inductive tags_arg : Type :=
| TagsNone
| TagsList (l : list string)
| TagsOne (t : string).

(** [tags = [] if tags is None else tags if type(tags) == list else [tags]] *)
Definition norm_tags (tags : tags_arg) : list string :=
  match tags with
  | TagsNone => []
  | TagsList l => l
  | TagsOne t => [t]
  end.

(** [events = events or ["start","end"]] *)
Definition norm_events (events : option (list string)) : list string :=
  match events with
  | None => ["start"; "end"]
  | Some [] => ["start"; "end"]
  | Some l => l
  end.

(** [( not tags or el.tag in tags ) and ev in events] *)
Definition wanted (tags events : list string) (ev : string) (el : element) : bool :=
  (match tags with [] => true | _ => tag_in (tag el) tags end)
  && tag_in ev events.

Definition walk_event : Type := (string * element)%type.

(** [iterwalk]: one stack entry is [[elnow, children]], [children] being
    [None] until the start of [elnow] has been handled.  The stack is kept
    with its top, Python's [stack[-1]], at the head. *)
Definition stack_entry : Type := (element * option (list element))%type.

Fixpoint iterwalk_iterator (fuel : nat) (tags events : list string)
    (stack : list stack_entry) : gen walk_event :=
  match fuel with
  | O => ([], NoFuel)
  | S fuel' =>
      match stack with
      | [] => gen_nil
      | (elnow, None) :: below =>
          gen_seq
            (if wanted tags events "start" elnow
             then yield ("start", elnow) else gen_nil)
            (iterwalk_iterator fuel' tags events
               ((elnow, Some (children elnow)) :: below))
      | (elnow, Some (thischild :: rest)) :: below =>
          iterwalk_iterator fuel' tags events
            ((thischild, None) :: (elnow, Some rest) :: below)
      | (elnow, Some []) :: below =>
          gen_seq
            (if (1 <? length stack)%nat && wanted tags events "end" elnow
             then yield ("end", elnow) else gen_nil)
            (iterwalk_iterator fuel' tags events below)
      end
  end.

Definition iterwalk (fuel : nat) (root : element)
    (events : option (list string)) (tags : tags_arg) : gen walk_event :=
  let stack := [(root, Some (children root))] in
  iterwalk_iterator fuel (norm_tags tags) (norm_events events) stack.

(** [iterwalk1]: the recursive walker. *)
Fixpoint recursiveiterator (tags events : list string)
    (el : element) (suppressyield : bool) : list walk_event :=
  let 'Element _ _ _ cs := el in
  (if negb suppressyield && wanted tags events "start" el
   then [("start", el)] else [])
  ++ flat_map (fun child => recursiveiterator tags events child false) cs
  ++ (if negb suppressyield && wanted tags events "end" el
      then [("end", el)] else []).

Definition iterwalk1 (root : element)
    (events : option (list string)) (tags : tags_arg) : gen walk_event :=
  (recursiveiterator (norm_tags tags) (norm_events events) root true, Exhausted).

(** Fuel that lets [iterwalk] finish on a tree: one step to open an
    element, one per child to push it, one to close. *)
Fixpoint walk_steps (el : element) : nat :=
  let 'Element _ _ _ cs := el in
  S (S (list_sum (map (fun c => S (walk_steps c)) cs))).

(** *** The walker of the flat-list structure (lines 630-649) *)

Inductive jevent : Type := start | startChildren | endChildren | end_.

Definition jwalk_event : Type := (jevent * Json.binding)%type.

Section JsonWalk.
Variable entries : gmap string Json.binding.

(** [entries[uri]] *)
Definition entry (uri : string) : result Json.binding :=
  match entries !! uri with
  | Some el => OK el
  | None => Err (KeyError uri)
  end.

Fixpoint jrecursiveiterator (fuel : nat) (uri : string)
    (suppressyield : bool) : gen jwalk_event :=
  match fuel with
  | O => ([], NoFuel)
  | S fuel' =>
      match entry uri with
      | Err e => gen_raise e
      | OK el =>
          gen_seq (if suppressyield then gen_nil else yield (start, el))
         (gen_seq (yield (startChildren, el))
         (gen_seq
            match getitem "childBindings" (Json.childBindings el) with
            | Err e => gen_raise e
            | OK cs =>
                gen_concat
                  (map (fun child => jrecursiveiterator fuel' child false) cs)
            end
         (gen_seq (yield (endChildren, el))
                  (if suppressyield then gen_nil else yield (end_, el)))))
      end
  end.

Definition json_structure_walk (fuel : nat) (rooturi : string) : gen jwalk_event :=
  jrecursiveiterator fuel rooturi true.
End JsonWalk.

(** *** The outline of a module (lines 621-694 and 507-560) *)

Section Outline.
(** [c.app.baseurl], and the title and identifier the server returns for
    an artifact URL ([summary], [id]). *)
Variable baseurl : string.
Variable artifact : string -> string * string.

(** Lines 622-624: [entries[s["uri"]] = s] for every record. *)
Definition scan (modstructure_j : list Json.binding)
    : result (gmap string Json.binding) :=
  fold_left
    (fun acc s =>
       do entries <- acc;
       do u <- getitem "uri" (Json.uri s);
       OK (<[u := s]> entries))
    modstructure_j (OK ∅).

(** The loop body of lines 658-694. *)
Definition jvisit (st : state) (ev : jwalk_event) : result state :=
  let '(event, el) := ev in
  let st1 := match event with startChildren => enter st | _ => st end in
  do st2 <- match event with endChildren => leave st1 | _ => OK st1 end;
  do isheading <- getitem "isHeading" (Json.isHeading el);
  match event with
  | start =>
      do ba_u <- getitem "uri" (Json.uri el);
      if String.prefix baseurl ba_u then
        let '(summary, id) := artifact ba_u in
        report isheading id summary st2
      else
        Err (PyException ("Unexpected: No or invalid artifact URI " +:+ ba_u))
  | _ => OK st2
  end.

(** Lines 621-694: the walk of the JSON structure. *)
Definition outline_json (fuel : nat) (structure_u : string)
    (modstructure_j : list Json.binding) : finish :=
  match scan modstructure_j with
  | Err e => Failed e
  | OK entries =>
      match entry entries structure_u with       (* modroot *)
      | Err e => Failed e
      | OK _ =>
          for_gen jvisit (json_structure_walk entries fuel structure_u) initial
      end
  end.

(** The loop body of lines 518-560. *)
Definition xvisit (st : state) (ev : walk_event) : result state :=
  let '(event, el) := ev in
  do st2 <-
    (if String.eqb (tag el) childBindings_tag then
       let st1 := if String.eqb event "start" then enter st else st in
       if String.eqb event "end" then leave st1 else OK st1
     else OK st);
  if String.eqb (tag el) Binding_tag then
    let isheading :=
      match xmlrdf_get_resource_text el isHeading_tag with
      | Some t => String.eqb t "true"
      | None => false
      end in
    if String.eqb event "start" then
      match xmlrdf_get_resource_uri el boundArtifact_tag with
      | Some ba_u =>
          if negb (String.eqb ba_u "") && String.prefix baseurl ba_u then
            let '(summary, id) := artifact ba_u in
            report isheading id summary st2
          else Err (PyException ("Unexpected: No or invalid artifact URI " +:+ ba_u))
      | None => Err (PyException "Unexpected: No or invalid artifact URI None")
      end
    else OK st2
  else OK st2.

(** Lines 507-560: the walk of the RDF-XML structure from its root
    binding [modroot_x]. *)
Definition outline_xml (modroot_x : element) : finish :=
  for_gen xvisit
    (iterwalk1 modroot_x (Some ["start"; "end"])
       (TagsList [childBindings_tag; Binding_tag]))
    initial.
End Outline.

(** *** Creating the artifact: the payload (lines 285-338) *)

Definition namespaces : list (string * string) :=
  [ ("rdf", "http://www.w3.org/1999/02/22-rdf-syntax-ns#");
    ("dc", "http://purl.org/dc/terms/");
    ("public_rm_10", "http://www.ibm.com/xmlns/rm/public/1.0/");
    ("jazz_rm", "http://jazz.net/ns/rm#");
    ("calm", "http://jazz.net/xmlns/prod/jazz/calm/1.0/");
    ("rm", "http://www.ibm.com/xmlns/rdm/rdf/");
    ("acp", "http://jazz.net/ns/acp#");
    ("rm_property", "https://grarrc.ibm.com:9443/rm/types/");
    ("oslc", "http://open-services.net/ns/core#");
    ("nav", "http://jazz.net/ns/rm/navigation#");
    ("oslc_rm", "http://open-services.net/ns/rm#") ].

(** [thexml_t]: [argv1] is the artifact type, [argv2] its text. *)
Definition thexml_t (argv1 argv2 theshape_u folderuri : string) : string :=
  if String.eqb "Requirement" argv1 then
    (* "Requirement" assumed *)
    payload_open namespaces +:+
    rdf_type requirement_type +:+ nl +:+
    payload_body "Holgi was here" argv2 theshape_u folderuri
  else
    (* "Heading" assumed *)
    payload_open namespaces +:+
    rdf_type requirement_type +:+ nl +:+
    rdf_type heading_type +:+ nl +:+
    rdf_type text_type +:+ nl +:+
    payload_body "Holgi was here" argv2 theshape_u folderuri.

(** *** Binding the artifact, JSON form (lines 562-620)

    [theid_text] is the identifier of the new artifact, [structure_u] the
    URL of the structure, [toinsert_u] the URL of the artifact.  The program
    returns the structure it fetched when there is nothing to insert, and
    the script goes on to the outline. *)

Definition newbinding (comp_u themodule_u toinsert_u : string) : Json.binding :=
  {| Json.uri := Some tempbinding_u;
     Json.component := Some comp_u;
     Json.type := Some "dng_module:Binding";
     Json.module := Some themodule_u;
     Json.boundArtifact := Some toinsert_u;
     Json.childBindings := Some [];
     Json.isStructureRoot := None;
     Json.isHeading := None |}.

(** [modstructure_j[0]["childBindings"].append( u )] *)
Definition append_to_first (u : string) (modstructure_j : list Json.binding)
    : result (list Json.binding) :=
  do first <- py_first modstructure_j;
  do cs <- getitem "childBindings" (Json.childBindings first);
  OK (Json.set_childBindings (cs ++ [u]) first :: tail modstructure_j).

Definition update_json (theid_text : string) (structure_u : option string)
    (comp_u themodule_u toinsert_u : string) : prog (list Json.binding) :=
  call! GetJson structure_u; r0 =>
  let modstructure_j := json r0 in
  if (0 <? String.length theid_text)%nat then
    let* first := lift (py_first modstructure_j) in
    let* isroot := lift (getitem "isStructureRoot" (Json.isStructureRoot first)) in
    if negb isroot then
      Raise (PyException "Root not at start of structure!")
    else
      (* get the etag *)
      call! GetRdfXml structure_u; r1 =>
      let etag := etag r1 in
      let* modstructure_j1 := lift (append_to_first tempbinding_u modstructure_j) in
      let modstructure_j2 :=
        modstructure_j1 ++ [newbinding comp_u themodule_u toinsert_u] in
      (* PUT the new structure and wait for it to be saved *)
      call! PutJson structure_u modstructure_j2 etag; response =>
      let after : prog (list Json.binding) :=
        (* get the structure again after the update *)
        call! GetJson structure_u; r3 => Exit 0 in
      match location response with
      | Some loc =>
          if status_code response =? 202
          then call! WaitForTracker loc; r2 => after
          else after
      | None => after
      end
  else Ret modstructure_j.

(** *** Binding the artifact, RDF-XML form (lines 452-505)

    The branch for [format == "RDFXML"].  [theid] is the identifier element
    of line 364; [fromstring] is [ET.fromstring] and [RDF_DEFAULT_PREFIX]
    the table of elmclient.rdfxml.  The program returns the structure the
    outline of lines 507-560 goes on with. *)

(** [theid>0] (line 454): Python 3 does not order an element and an int. *)
Definition element_gt (theid : element) (n : Z) : result bool := Err TypeError.

Definition update_rdfxml (fromstring : string -> option element)
    (RDF_DEFAULT_PREFIX : string -> string) (theid : element)
    (structure_u : option string) (comp_u themodule_u toinsert_u : string)
    : prog element :=
  call! GetRdfXml structure_u; r0 =>
  let modstructure_x := xml r0 in
  let* guard := lift (element_gt theid 0) in
  if guard then
    (* get the etag *)
    call! GetRdfXml structure_u; r1 =>
    let etag := etag r1 in
    (* insert a reference to it in a hardcoded location *)
    let* firsthead_x :=
      lift (py_first (xml_find_elements modstructure_x two_level_path)) in
    let* newbinding :=
      lift (parse fromstring
              (new_binding_text RDF_DEFAULT_PREFIX tempbinding_u comp_u toinsert_u
                 themodule_u +:+ nl)) in
    let modstructure_x1 := append_at firsthead_x newbinding modstructure_x in
    call! PutRdfXml structure_u modstructure_x1 etag; response =>
    let after : prog element :=
      call! GetRdfXml structure_u; r3 => Ret (xml r3) in
    match location response with
    | Some loc =>
        if status_code response =? 202
        then call! WaitForTracker loc; r2 => after
        else after
    | None => after
    end
  else Ret modstructure_x.

End Orig.

(** ** CreateAndBindRequirement.For_GeminiReturnV2.py *)

Module V2.
Import Xml Rdfxml Http Common.

Definition namespaces : list (string * string) :=
  [ ("rdf", "http://www.w3.org/1999/02/22-rdf-syntax-ns#");
    ("dc", "http://purl.org/dc/terms/");
    ("jazz_rm", "http://jazz.net/ns/rm#");
    ("oslc", "http://open-services.net/ns/core#");
    ("nav", "http://jazz.net/ns/rm/navigation#") ].

(** [xml_payload] of [create_artifact_in_folder] (lines 100-117). *)
Definition xml_payload (artifact_type artifact_title the_shape_u folderuri : string)
    : string :=
  payload_open namespaces +:+
  rdf_type requirement_type +:+ nl +:+
  (if String.eqb artifact_type "Heading"
   then rdf_type heading_type +:+ " " +:+ rdf_type text_type
   else EmptyString) +:+ nl +:+
  payload_body "Erstellt durch Python-Skript" artifact_title the_shape_u folderuri.

(** The lookup of the slot (line 175). *)
Definition first_child_bindings (modstructure_x : element) : result pos :=
  py_first (xml_find_elements modstructure_x one_level_path).

(** [bind_artifact_to_module_structure] (lines 162-205);
    [project_uri] is [component.project_uri], [fromstring] is
    [ET.fromstring] and [RDF_DEFAULT_PREFIX] the table of elmclient.rdfxml. *)
Definition bind_artifact_to_module_structure
    (fromstring : string -> option element) (RDF_DEFAULT_PREFIX : string -> string)
    (project_uri module_uri artifact_to_bind_uri : string) : prog unit :=
  call! GetRdfXml (Some module_uri); r0 =>
  let mod_x := xml r0 in
  let structure_u := xmlrdf_get_resource_uri_desc mod_x structure_tag in
  call! GetRdfXml structure_u; r1 =>
  let modstructure_x := xml r1 in
  let etag := etag r1 in
  let* slot := lift (first_child_bindings modstructure_x) in
  let* new_binding_xml :=
    lift (parse fromstring
            (new_binding_text RDF_DEFAULT_PREFIX EmptyString project_uri
               artifact_to_bind_uri module_uri)) in
  let modstructure_x1 := append_at slot new_binding_xml modstructure_x in
  call! PutRdfXml structure_u modstructure_x1 etag; response =>
  if rejected (status_code response) then
    Raise (ConnectionError (status_code response))
  else
    wait_if_pending response (Ret tt).

End V2.

(** ** CreateAndBindRequirement.For_GeminiReturnV4.py *)

Module V4.
Import Xml Rdfxml Http Common.

Definition namespaces : list (string * string) :=
  [ ("rdf", "http://www.w3.org/1999/02/22-rdf-syntax-ns#");
    ("dc", "http://purl.org/dc/terms/");
    ("jazz_rm", "http://jazz.net/ns/rm#");
    ("oslc", "http://open-services.net/ns/core#");
    ("nav", "http://jazz.net/ns/rm/navigation#");
    ("oslc_rm", "http://open-services.net/ns/rm#") ].

(** [xml_payload] of [create_artifact_in_folder] (lines 72-86); the
    artifact type does not occur in it. *)
Definition xml_payload (artifact_type artifact_title shape_uri folderuri : string)
    : string :=
  payload_open namespaces +:+
  rdf_type requirement_type +:+ nl +:+
  payload_body "Erstellt durch Python-Skript" artifact_title shape_uri folderuri.

Definition insertion_point_xpath : list string := two_level_path.

(** The lookup of the slot (lines 146-151). *)
Definition find_insertion_point (structure_xml : element) : result pos :=
  let insertion_point := xml_find_elements structure_xml insertion_point_xpath in
  match insertion_point with
  | [] => Err (ValueError (xpath_text insertion_point_xpath))
  | slot :: _ => OK slot            (* insertion_point[0] *)
  end.

(** [bind_artifact_to_module] (lines 135-183); [fromstring] is
    [ET.fromstring] and [RDF_DEFAULT_PREFIX] the table of elmclient.rdfxml. *)
Definition bind_artifact_to_module
    (fromstring : string -> option element) (RDF_DEFAULT_PREFIX : string -> string)
    (project_uri module_uri artifact_to_bind_uri : string) : prog unit :=
  call! GetRdfXml (Some module_uri); r0 =>
  let mod_xml := xml r0 in
  let structure_uri := xmlrdf_get_resource_uri_desc mod_xml structure_tag in
  call! GetRdfXml structure_uri; r1 =>
  let structure_xml := xml r1 in
  let etag := etag r1 in
  let* slot := lift (find_insertion_point structure_xml) in
  let* new_binding_xml :=
    lift (parse fromstring
            (new_binding_text RDF_DEFAULT_PREFIX EmptyString project_uri
               artifact_to_bind_uri module_uri)) in
  let structure_xml1 := append_at slot new_binding_xml structure_xml in
  call! PutRdfXml structure_uri structure_xml1 etag; response =>
  if rejected (status_code response) then
    Raise (ConnectionError (status_code response))
  else
    wait_if_pending response (Ret tt).

End V4.

(** ** Notions the statements and proofs use *)

(** *** What [iterwalk] still has to do *)

Module Pending.
Import Xml Orig.

Section Filters.
Variables tags events : list string.

(** The events of the subtree at [c], as [iterwalk1] yields them. *)
Definition subtree_events (c : element) : list walk_event :=
  recursiveiterator tags events c false.

Definition opening (el : element) : list walk_event :=
  if wanted tags events "start" el then [("start", el)] else [].
Definition closing (el : element) : list walk_event :=
  if wanted tags events "end" el then [("end", el)] else [].

(** What a stack of [iterwalk] still has to yield. *)
Fixpoint pending (stack : list stack_entry) : list walk_event :=
  match stack with
  | [] => []
  | (el, ch) :: below =>
      match ch with
      | None => opening el ++ flat_map subtree_events (children el)
      | Some cs => flat_map subtree_events cs
      end
      ++ (match below with [] => [] | _ => closing el end)
      ++ pending below
  end.
End Filters.

(** The loop iterations a stack still needs. *)
Definition children_steps (cs : list element) : nat :=
  S (list_sum (map (fun c => S (walk_steps c)) cs)).

Fixpoint pending_steps (stack : list stack_entry) : nat :=
  match stack with
  | [] => 0
  | (el, None) :: below => walk_steps el + pending_steps below
  | (el, Some cs) :: below => children_steps cs + pending_steps below
  end.

End Pending.

(** *** The depth of the counter stack along a walk *)

Module Nesting.
Import Outline.

(** What one walk event does to the counter stack. *)
Inductive effect : Type := Push | Pop | Visit | Skip.

(** The depth after one event, [None] when the event finds the stack empty. *)
Definition nesting_step (d : nat) (e : effect) : option nat :=
  match e, d with
  | Push, _ => Some (S d)
  | Pop, O => None
  | Pop, S d' => Some d'
  | Visit, O => None
  | Visit, S _ => Some d
  | Skip, _ => Some d
  end.

Fixpoint nesting (d : nat) (es : list effect) : option nat :=
  match es with
  | [] => Some d
  | e :: es' =>
      match nesting_step d e with
      | Some d' => nesting d' es'
      | None => None
      end
  end.

(** The loop over [evs] never finds the counter stack empty: every visit
    happens on a non-empty stack, no step of the loop raises IndexError,
    and when the loop completes the stack is empty again and [level] is 0. *)
Definition never_empty_stack {A} (body : state -> A -> result state)
    (is_visit : A -> bool) (evs : list A) : Prop :=
  (forall pre ev post st,
      evs = pre ++ ev :: post -> is_visit ev = true ->
      for_each body pre initial = OK st -> headinglevel st <> [])
  /\ for_each body evs initial <> Err IndexError
  /\ (forall st, for_each body evs initial = OK st ->
                 headinglevel st = [] /\ level st = 0).

(** The loop body follows the effect [eff] assigns to each event. *)
Definition follows {A} (body : state -> A -> result state) (eff : A -> effect) : Prop :=
  forall st ev d',
    nesting_step (length (headinglevel st)) (eff ev) = Some d' ->
    match body st ev with
    | OK st' =>
        length (headinglevel st') = d'
        /\ level st' - level st = Z.of_nat d' - Z.of_nat (length (headinglevel st))
    | Err e => e <> IndexError
    end.

End Nesting.

Module JsonShape.
Import Orig Nesting.

Definition jeffect (ev : jwalk_event) : effect :=
  match fst ev with
  | start => Visit
  | startChildren => Push
  | endChildren => Pop
  | end_ => Skip
  end.

Definition is_start (ev : jwalk_event) : bool :=
  match fst ev with start => true | _ => false end.

(** A table of records is a well-formed structure when every record has
    its list of children, every child is in the table, and [rank] falls
    along every child reference (so no record is its own descendant). *)
Definition well_formed (entries : gmap string Json.binding)
    (rank : string -> nat) : bool :=
  forallb
    (fun uel : string * Json.binding =>
       match Json.childBindings (snd uel) with
       | Some cs =>
           forallb
             (fun c => bool_decide (is_Some (entries !! c))
                       && (rank c <? rank (fst uel))%nat)
             cs
       | None => false
       end)
    (map_to_list entries).

(** The events of a subtree leave the depth as they found it. *)
Definition keeps_depth (evs : list jwalk_event) : Prop :=
  forall d, nesting (S d) (map jeffect evs) = Some (S d).

End JsonShape.

Module XmlShape.
Import Xml Rdfxml Orig Nesting.

Definition xeffect (ev : walk_event) : effect :=
  let '(event, el) := ev in
  if String.eqb (tag el) childBindings_tag then
    if String.eqb event "start" then Push
    else if String.eqb event "end" then Pop else Skip
  else if String.eqb (tag el) Binding_tag then
    if String.eqb event "start" then Visit else Skip
  else Skip.

Definition is_binding_start (ev : walk_event) : bool :=
  String.eqb (tag (snd ev)) Binding_tag && String.eqb (fst ev) "start".

(** Below the root binding every binding lies inside a children container. *)
Fixpoint bindings_in_containers (el : element) : bool :=
  let 'Element _ _ _ cs := el in
  forallb
    (fun c =>
       if String.eqb (tag c) Binding_tag then false
       else if String.eqb (tag c) childBindings_tag then true
       else bindings_in_containers c)
    cs.

Definition structure_tags : list string := [childBindings_tag; Binding_tag].
Definition both_events : list string := ["start"; "end"].

Definition xsubtree (c : element) : list walk_event :=
  recursiveiterator structure_tags both_events c false.

End XmlShape.

(** *** Slots and their children *)

Module Slots.
Import Xml.

(** The children sequence of the node at [p], and of the first record. *)
Definition slot_children (doc : element) (p : pos) : option (list element) :=
  children <$> subtree doc p.
Definition root_children (modstructure_j : list Json.binding) : option (list string) :=
  head modstructure_j ≫= Json.childBindings.

(** The is-structure-root flag of the first record. *)
Definition root_flag (modstructure_j : list Json.binding) : option bool :=
  head modstructure_j ≫= Json.isStructureRoot.

(** [p] is reached from [ctx] by child steps through the tags of [path]. *)
Inductive reaches : list string -> element -> pos -> Prop :=
| reaches_here ctx : reaches [] ctx []
| reaches_step t path ctx i c p :
    children ctx !! i = Some c -> tag c = t -> reaches path c p ->
    reaches (t :: path) ctx (i :: p).

End Slots.

(** ** Sample modules *)

Module Sample.
Import Xml Rdfxml Common.

Definition baseurl : string := "https://jazz.example/rm".

Definition url (name : string) : string := baseurl +:+ "/resources/" +:+ name.

(** The title and identifier of every artifact of the sample server. *)
Definition artifact (u : string) : string * string := ("Title", "42").

Definition structure_u : string := url "MD_1/structure".

(** A record of the flat-list form. *)
Definition record (u : string) (root heading : bool) (cs : list string) : Json.binding :=
  {| Json.uri := Some u;
     Json.type := Some "dng_module:Binding";
     Json.isStructureRoot := Some root;
     Json.isHeading := Some heading;
     Json.component := Some (url "component");
     Json.module := Some (url "MD_1");
     Json.boundArtifact := Some (u +:+ "/artifact");
     Json.childBindings := Some cs |}.

(** Root with five children: heading, text, heading, text, text. *)
Definition flat_module : list Json.binding :=
  [ record structure_u true false [url "a"; url "b"; url "c"; url "d"; url "e"];
    record (url "a") false true [];
    record (url "b") false false [];
    record (url "c") false true [];
    record (url "d") false false [];
    record (url "e") false false [] ].

(** Root, a heading, a heading inside it, a text inside that. *)
Definition nested_module : list Json.binding :=
  [ record structure_u true false [url "h1"];
    record (url "h1") false true [url "h2"];
    record (url "h2") false true [url "leaf"];
    record (url "leaf") false false [] ].


(** The table of a list of records, as lines 622-624 build it. *)
Definition table (modstructure_j : list Json.binding) : gmap string Json.binding :=
  match Orig.scan modstructure_j with
  | OK entries => entries
  | Err _ => ∅
  end.

(** Heights in [nested_module]. *)
Definition rank (u : string) : nat :=
  if String.eqb u structure_u then 3
  else if String.eqb u (url "h1") then 2
  else if String.eqb u (url "h2") then 1
  else 0.

(** A structure whose first record is not the flagged root. *)
Definition unflagged_module : list Json.binding :=
  [ record (url "a") false true [];
    record structure_u true false [url "a"] ].

(** A structure whose flag sits on the wrong record: the first record is
    the heading and carries the flag, the root comes second without it. *)
Definition misflagged_module : list Json.binding :=
  [ record (url "a") true true [];
    record structure_u false false [url "a"] ].

(** The markup form: a binding with its properties and its container. *)
Definition xbinding (about : string) (heading : bool) (kids : list element) : element :=
  Element Binding_tag [("rdf:about", about)] None
    [ Element isHeading_tag [] (Some (if heading then "true" else "false")) [];
      Element "oslc_config:component" [("rdf:resource", url "component")] None [];
      Element boundArtifact_tag [("rdf:resource", about +:+ "/artifact")] None [];
      Element "rm_modules:module" [("rdf:resource", url "MD_1")] None [];
      Element childBindings_tag [] None kids ].

Definition xroot (kids : list element) : element :=
  Element Binding_tag [("rdf:about", structure_u)] None
    [ Element childBindings_tag [] None kids ].

Definition xdocument (root : element) : element :=
  Element "rdf:RDF" [] None [root].

(** A module without content: the root binding and its empty container. *)
Definition empty_module_x : element := xdocument (xroot []).

(** A module with one heading that holds one text. *)
Definition heading_module_x : element :=
  xdocument (xroot [xbinding (url "h1") true [xbinding (url "t1") false []]]).

(** The module resource, which names its structure. *)
Definition module_x : element :=
  Element "rdf:RDF" [] None
    [ Element "rdf:Description" [("rdf:about", url "MD_1")] None
        [ Element structure_tag [("rdf:resource", structure_u)] None [] ] ].

Definition no_element : element := Element "" [] None [].

(** Replies of the server. *)
Definition reply_xml (doc : element) (tag : string) : Http.reply :=
  {| Http.xml := doc; Http.json := []; Http.etag := tag;
     Http.status_code := 200; Http.location := None |}.
Definition reply_json (records : list Json.binding) (tag : string) : Http.reply :=
  {| Http.xml := no_element; Http.json := records; Http.etag := tag;
     Http.status_code := 200; Http.location := None |}.
Definition reply_status (code : Z) : Http.reply :=
  {| Http.xml := no_element; Http.json := []; Http.etag := "";
     Http.status_code := code; Http.location := None |}.

(** The namespaces of the sample library. *)
Definition RDF_DEFAULT_PREFIX (prefix : string) : string :=
  if String.eqb prefix "rdf" then "http://www.w3.org/1999/02/22-rdf-syntax-ns#"
  else if String.eqb prefix "dcterms" then "http://purl.org/dc/terms/"
  else if String.eqb prefix "oslc_config" then "http://open-services.net/ns/config#"
  else if String.eqb prefix "rm_modules" then "http://jazz.net/ns/rm/dng/module#"
  else EmptyString.

(** A parser for the text of a new binding whose URLs are plain text: it
    reads each URL up to the closing quote, and refuses a text with an
    ampersand, an opening angle bracket or a character that is not
    printable ASCII in a URL, and every other text. *)
Fixpoint strip (prefix text : string) : option string :=
  match prefix, text with
  | EmptyString, _ => Some text
  | String a prefix', String b text' =>
      if Ascii.eqb a b then strip prefix' text' else None
  | String _ _, EmptyString => None
  end.

Fixpoint read_value (text : string) : option (string * string) :=
  match text with
  | EmptyString => None
  | String c text' =>
      if Ascii.eqb c (Ascii.ascii_of_nat 34) then Some (EmptyString, text')
      else if Ascii.eqb c (Ascii.ascii_of_nat 38)      (* ampersand *)
              || Ascii.eqb c (Ascii.ascii_of_nat 60)   (* opening angle bracket *)
              || (Ascii.nat_of_ascii c <? 32)%nat
              || (126 <? Ascii.nat_of_ascii c)%nat
           then None
      else
        match read_value text' with
        | Some (value, rest) => Some (String c value, rest)
        | None => None
        end
  end.

Definition read_resource_line (tag text : string) : option (string * string) :=
  rest ← strip ("<" +:+ tag +:+ " rdf:resource=" +:+ dq) text;
  '(value, rest) ← read_value rest;
  rest ← strip ("/>" +:+ nl) rest;
  Some (value, rest).

Definition fromstring (text : string) : option element :=
  rest ← strip (binding_open RDF_DEFAULT_PREFIX EmptyString) text;
  '(comp_u, rest) ← read_resource_line "oslc_config:component" rest;
  '(artifact_u, rest) ← read_resource_line boundArtifact_tag rest;
  '(module_u, rest) ← read_resource_line "rm_modules:module" rest;
  '(children_u, rest) ← read_resource_line childBindings_tag rest;
  if String.eqb children_u rdf_nil && String.eqb rest "</rm_modules:Binding>"
  then Some (new_binding_element EmptyString comp_u artifact_u module_u)
  else None.

End Sample.

(** ** Further notions: the shape of walks and the reference numbering *)

Module Walks.
Import Xml Orig.

(** The elements of the events named [ev], in the order they are yielded. *)
Definition elements_of (ev : string) (evs : list walk_event) : list element :=
  map snd (List.filter (fun e => String.eqb (fst e) ev) evs).

(** The elements below [el] in the order their subtrees are left. *)
Fixpoint descendants_post (el : element) : list element :=
  flat_map (fun c => descendants_post c ++ [c]) (children el).

(** Well-bracketed event sequences: every end closes the start of the same
    element, and what lies between is well-bracketed again. *)
Inductive balanced : list walk_event -> Prop :=
| balanced_nil : balanced []
| balanced_node el inner rest :
    balanced inner -> balanced rest ->
    balanced (("start", el) :: inner ++ ("end", el) :: rest).

End Walks.

Module FlatNumbering.

(** The sections of a run of bindings at one level, from the counters
    [hn], [tn] of that level: a heading takes the next heading number, a
    text the next sub-number of the current heading. *)
Fixpoint flat_sections (hn tn : Z) (headings : list bool) : list string :=
  match headings with
  | [] => []
  | true :: rest => fmt_int (hn + 1) :: flat_sections (hn + 1) 0 rest
  | false :: rest =>
      (fmt_int hn +:+ "-" +:+ fmt_int (tn + 1)) :: flat_sections hn (tn + 1) rest
  end.

End FlatNumbering.

(** A module of one level in the flat-list form: the root record, whose
    children are the given bindings, and one record without children for
    each of them, a heading or a text. *)
Module FlatJson.

Definition leaf (it : string * bool) : Json.binding :=
  Sample.record (fst it) false (snd it) [].

Definition records (structure_u : string) (items : list (string * bool))
    : list Json.binding :=
  Sample.record structure_u true false (map fst items) :: map leaf items.

(** The events of the walk for one such binding. *)
Definition leaf_events (it : string * bool) : list Orig.jwalk_event :=
  [ (Orig.start, leaf it); (Orig.startChildren, leaf it);
    (Orig.endChildren, leaf it); (Orig.end_, leaf it) ].

End FlatJson.

Module Tracking.
Import Outline Nesting.

Definition is_visit (e : effect) : bool :=
  match e with Visit => true | _ => false end.

(** A successful step of the loop body did what the effect of its event
    says, and printed a line exactly when the event is a visit. *)
Definition tracks {A} (body : state -> A -> result state) (eff : A -> effect) : Prop :=
  forall st ev st',
    body st ev = OK st' ->
    nesting_step (length (headinglevel st)) (eff ev)
    = Some (length (headinglevel st'))
    /\ level st' - level st
       = Z.of_nat (length (headinglevel st')) - Z.of_nat (length (headinglevel st))
    /\ length (printed st')
       = (length (printed st) + if is_visit (eff ev) then 1 else 0)%nat.

(** What holds of the state in which a loop over [evs] ends. *)
Definition tracked {A} (eff : A -> effect) (evs : list A) (st : state) : Prop :=
  nesting 0 (map eff evs) = Some (length (headinglevel st))
  /\ level st = Z.of_nat (length (headinglevel st))
  /\ length (printed st)
     = length (List.filter (fun ev => is_visit (eff ev)) evs).

End Tracking.

Module Trace.
Import Http.

(** The updates among the calls of a run. *)
Definition is_put (c : call) : bool :=
  match c with
  | PutRdfXml _ _ _ | PutJson _ _ _ => true
  | _ => false
  end.

Definition puts (cs : list call) : list call := List.filter is_put cs.

End Trace.

(** ** The workflow around the binding: creation, lookups, main

    The calls of the elmclient component that the functions below add to
    those of [Http]: folder, factory and query-capability lookups, OSLC
    queries and the POST to the creation factory.  Each call continues with
    an answer of its own kind.  Calls to the logger are left out. *)

Module Workflow.
Import Xml Rdfxml Common.

(** The exceptions of the functions below: those of [exn], and the classes
    V2 and V4 raise besides. *)
Inductive error : Type :=
| Python (e : exn)
| FileNotFoundError (what : string)
| LookupError (artifact_type : string)
| AttributeError.                 (* attribute access on None *)

(** The result of an OSLC query: an ordered dict from resource URL to the
    selected properties. *)
Definition hits : Type := list (string * gmap string string).

(** One term of [whereterms]: property, operator, value as passed. *)
Definition whereterm : Type := (string * string * option string)%type.

Inductive prog (A : Type) : Type :=
| Ret (a : A)
| Raise (e : error)
| Exit (code : Z)
| Base (c : Http.call) (k : Http.reply -> prog A)
| FindFolder (path : string) (k : option string -> prog A)
    (* find_folder( path ): the folder's folderuri, or None *)
| GetFactoryUri (resource_type : string) (k : string * list string -> prog A)
    (* get_factory_uri( type, return_shapes=True ) *)
| GetQueryCapabilityUri (resource_type : string) (k : string -> prog A)
| OslcQuery (qcbase : string) (whereterms : list whereterm)
    (select : option (list string)) (prefixes : option (list (string * string)))
    (k : hits -> prog A)
    (* execute_oslc_query( qcbase, whereterms=, select=, prefixes= ), the
       last two when they are given; [prefixes] maps a URI to its prefix *)
| PostRdfXml (url : string) (data : element) (k : Http.reply -> prog A).
    (* execute_post_rdf_xml( url, data= ) *)
Arguments Ret {A} a.
Arguments Raise {A} e.
Arguments Exit {A} code.
Arguments Base {A} c k.
Arguments FindFolder {A} path k.
Arguments GetFactoryUri {A} resource_type k.
Arguments GetQueryCapabilityUri {A} resource_type k.
Arguments OslcQuery {A} qcbase whereterms select prefixes k.
Arguments PostRdfXml {A} url data k.

Fixpoint pbind {A B} (p : prog A) (f : A -> prog B) : prog B :=
  match p with
  | Ret a => f a
  | Raise e => Raise e
  | Exit c => Exit c
  | Base c k => Base c (fun r => pbind (k r) f)
  | FindFolder path k => FindFolder path (fun r => pbind (k r) f)
  | GetFactoryUri t k => GetFactoryUri t (fun r => pbind (k r) f)
  | GetQueryCapabilityUri t k => GetQueryCapabilityUri t (fun r => pbind (k r) f)
  | OslcQuery q w s p k => OslcQuery q w s p (fun r => pbind (k r) f)
  | PostRdfXml u d k => PostRdfXml u d (fun r => pbind (k r) f)
  end.

(** A program of [Http] as a program here. *)
Fixpoint embed {A} (p : Http.prog A) : prog A :=
  match p with
  | Http.Ret a => Ret a
  | Http.Raise e => Raise (Python e)
  | Http.Exit c => Exit c
  | Http.Call c k => Base c (fun r => embed (k r))
  end.

(** [try: p  except Exception as e: handler( e )]; [sys.exit] passes
    through, SystemExit not being an Exception. *)
Fixpoint catch {A} (p : prog A) (handler : error -> prog A) : prog A :=
  match p with
  | Ret a => Ret a
  | Raise e => handler e
  | Exit c => Exit c
  | Base c k => Base c (fun r => catch (k r) handler)
  | FindFolder path k => FindFolder path (fun r => catch (k r) handler)
  | GetFactoryUri t k => GetFactoryUri t (fun r => catch (k r) handler)
  | GetQueryCapabilityUri t k => GetQueryCapabilityUri t (fun r => catch (k r) handler)
  | OslcQuery q w s p k => OslcQuery q w s p (fun r => catch (k r) handler)
  | PostRdfXml u d k => PostRdfXml u d (fun r => catch (k r) handler)
  end.

(** The answers of the server, and the calls as they were made. *)
Inductive answer : Type :=
| Reply (r : Http.reply)
| Folder (folderuri : option string)
| Factory (factory_u : string) (shapes : list string)
| Capability (qcbase : string)
| Hits (h : hits).

Inductive made : Type :=
| DidBase (c : Http.call)
| DidFindFolder (path : string)
| DidGetFactoryUri (resource_type : string)
| DidGetQueryCapabilityUri (resource_type : string)
| DidOslcQuery (qcbase : string) (whereterms : list whereterm)
    (select : option (list string)) (prefixes : option (list (string * string)))
| DidPostRdfXml (url : string) (data : element).

Inductive outcome (A : Type) : Type :=
| Returned (a : A)
| Raised (e : error)
| Exited (code : Z)
| Stuck.         (* no answer left, or an answer of another kind *)
Arguments Returned {A} a.
Arguments Raised {A} e.
Arguments Exited {A} code.
Arguments Stuck {A}.

Fixpoint run {A} (p : prog A) (answers : list answer) : outcome A * list made :=
  match p with
  | Ret a => (Returned a, [])
  | Raise e => (Raised e, [])
  | Exit c => (Exited c, [])
  | Base c k =>
      match answers with
      | Reply r :: rest => let '(o, cs) := run (k r) rest in (o, DidBase c :: cs)
      | _ => (Stuck, [DidBase c])
      end
  | FindFolder path k =>
      match answers with
      | Folder f :: rest => let '(o, cs) := run (k f) rest in (o, DidFindFolder path :: cs)
      | _ => (Stuck, [DidFindFolder path])
      end
  | GetFactoryUri t k =>
      match answers with
      | Factory f s :: rest =>
          let '(o, cs) := run (k (f, s)) rest in (o, DidGetFactoryUri t :: cs)
      | _ => (Stuck, [DidGetFactoryUri t])
      end
  | GetQueryCapabilityUri t k =>
      match answers with
      | Capability u :: rest =>
          let '(o, cs) := run (k u) rest in (o, DidGetQueryCapabilityUri t :: cs)
      | _ => (Stuck, [DidGetQueryCapabilityUri t])
      end
  | OslcQuery q w s p k =>
      match answers with
      | Hits h :: rest =>
          let '(o, cs) := run (k h) rest in (o, DidOslcQuery q w s p :: cs)
      | _ => (Stuck, [DidOslcQuery q w s p])
      end
  | PostRdfXml u d k =>
      match answers with
      | Reply r :: rest => let '(o, cs) := run (k r) rest in (o, DidPostRdfXml u d :: cs)
      | _ => (Stuck, [DidPostRdfXml u d])
      end
  end.


Notation "'let+' x := p 'in' k" := (pbind p (fun x => k))
  (at level 10, x name, p at level 100, k at level 200).

(** [f"{v}"] for a value that may be None *)
Definition fstr (v : option string) : string :=
  match v with
  | Some s => s
  | None => "None"
  end.

(** First match of ['.//a/b']: the first child tagged [b] of an element
    tagged [a] below [xml]. *)
Definition find_descendant_child (xml : element) (a b : string) : option element :=
  head
    (flat_map
       (fun e => List.filter (fun c => String.eqb (tag c) b) (children e))
       (List.filter (fun e => String.eqb (tag e) a) (descendants xml))).

(** [xmlrdf_get_resource_text( shape_x, ".//oslc:ResourceShape/dcterms:title" )] *)
Definition shape_title (shape_x : element) : option string :=
  match find_descendant_child shape_x "oslc:ResourceShape" "dcterms:title" with
  | Some e => text e
  | None => None
  end.

(** [shape_title == artifact_type] *)
Definition title_is (shape_title : option string) (artifact_type : string) : bool :=
  match shape_title with
  | Some t => String.eqb t artifact_type
  | None => false
  end.

Definition module_type : string := "<http://jazz.net/ns/rm#Module>".

(** [select=['*']] and
    [prefixes={rdfxml.RDF_DEFAULT_PREFIX["dcterms"]:'dcterms'}] *)
Definition select_all : option (list string) := Some ["*"].
Definition dcterms_prefix (RDF_DEFAULT_PREFIX : string -> string)
    : option (list (string * string)) :=
  Some [(RDF_DEFAULT_PREFIX "dcterms", "dcterms")].

(** The calls that create an artifact, and the updates, among the calls
    made. *)
Definition is_post (c : made) : bool :=
  match c with DidPostRdfXml _ _ => true | _ => false end.
Definition is_update (c : made) : bool :=
  match c with DidBase c' => Trace.is_put c' | _ => false end.

End Workflow.

(** *** For_GeminiReturnV4.py: creation, module lookup, main *)

Module V4Flow.
Import Xml Rdfxml Common Workflow.

Section Parser.
(** [ET.fromstring]: the element for a text that parses; and the table
    [RDF_DEFAULT_PREFIX] of elmclient.rdfxml. *)
Variable fromstring : string -> option element.
Variable RDF_DEFAULT_PREFIX : string -> string.

(** The loop of lines 61-68: the first shape whose title is the artifact
    type, [None] when the loop ends without one. *)
Fixpoint find_shape (shapes : list string) (artifact_type : string)
    : prog (option string) :=
  match shapes with
  | [] => Ret None
  | s_uri :: rest =>
      Base (Http.GetRdfXml (Some s_uri)) (fun r =>
        let shape_xml := Http.xml r in
        if title_is (shape_title shape_xml) artifact_type
        then Ret (Some s_uri)                    (* break *)
        else find_shape rest artifact_type)
  end.

(** [create_artifact_in_folder] (lines 49-98): the URL and the identifier
    of the new artifact. *)
Definition create_artifact_in_folder
    (artifact_type artifact_title folder_path : string)
    : prog (option string * option string) :=
  FindFolder folder_path (fun folder =>
  match folder with
  | None => Raise (FileNotFoundError folder_path)
  | Some folderuri =>
  GetFactoryUri "oslc_rm:Requirement" (fun factory =>
  let factory_uri := fst factory in
  let shapes := snd factory in
  let+ shape_uri := find_shape shapes artifact_type in
  match shape_uri with
  | None => Raise (LookupError artifact_type)
  | Some shape_uri =>
  let xml_payload := V4.xml_payload artifact_type artifact_title shape_uri folderuri in
  match fromstring xml_payload with
  | None => Raise (Python XMLSyntaxError)
  | Some data =>
  PostRdfXml factory_uri data (fun response =>
  if negb (Http.status_code response =? 201) then
    Raise (Python (ConnectionError (Http.status_code response)))
  else
    let artifact_uri := Http.location response in
    Base (Http.GetRdfXml artifact_uri) (fun r =>
    let artifact_xml := Http.xml r in
    match find_descendant artifact_xml "dcterms:identifier" with
    | None => Raise AttributeError
    | Some el => Ret (artifact_uri, text el)
    end))
  end
  end)
  end).

(** [find_module_by_name] (lines 100-115). *)
Definition find_module_by_name (module_name : string) : prog string :=
  GetQueryCapabilityUri "oslc_rm:Requirement" (fun qc_base_uri =>
  OslcQuery qc_base_uri
    [ ("dcterms:title", "=", Some (dq +:+ module_name +:+ dq));
      ("rdf:type", "=", Some module_type) ]
    None None
    (fun modules =>
  match modules with
  | [] => Raise (FileNotFoundError module_name)
  | (module_uri, _) :: _ => Ret module_uri     (* list(modules.keys())[0] *)
  end)).

(** [find_artifact_uri_by_id] (lines 117-133). *)
Definition find_artifact_uri_by_id (artifact_id : string) : prog string :=
  GetQueryCapabilityUri "oslc_rm:Requirement" (fun qc_base_uri =>
  OslcQuery qc_base_uri
    [ ("dcterms:identifier", "=", Some (dq +:+ artifact_id +:+ dq)) ]
    select_all None
    (fun artifacts =>
  match artifacts with
  | [] => Raise (FileNotFoundError artifact_id)
  | (artifact_uri, _) :: _ => Ret artifact_uri
  end)).

(** The body of the [try] of [main] from the creation on (lines 218-234);
    [project_uri] is [component.project_uri] of the component the lines
    before have selected. *)
Definition main_steps (project_uri artifact_type artifact_title folder_path
    module_name : string) : prog unit :=
  let+ created := create_artifact_in_folder artifact_type artifact_title folder_path in
  let new_artifact_uri := fst created in
  let+ module_uri := find_module_by_name module_name in
  embed (V4.bind_artifact_to_module fromstring RDF_DEFAULT_PREFIX project_uri
           module_uri (fstr new_artifact_uri)).

(** [main] with its two [except] clauses (lines 239-244): both log and
    call [sys.exit(1)]. *)
Definition main (project_uri artifact_type artifact_title folder_path
    module_name : string) : prog unit :=
  catch (main_steps project_uri artifact_type artifact_title folder_path module_name)
    (fun _ => Exit 1).

End Parser.
End V4Flow.

(** *** For_GeminiReturnV2.py: creation, module lookup, main *)

Module V2Flow.
Import Xml Rdfxml Common Workflow.

Section Parser.
Variable fromstring : string -> option element.
Variable RDF_DEFAULT_PREFIX : string -> string.

(** The loop of lines 90-97, the same as in V4. *)
Fixpoint find_shape (shapes : list string) (artifact_type : string)
    : prog (option string) :=
  match shapes with
  | [] => Ret None
  | shape_u :: rest =>
      Base (Http.GetRdfXml (Some shape_u)) (fun r =>
        let shape_x := Http.xml r in
        if title_is (shape_title shape_x) artifact_type
        then Ret (Some shape_u)                  (* break *)
        else find_shape rest artifact_type)
  end.

(** [create_artifact_in_folder] (lines 79-126). *)
Definition create_artifact_in_folder
    (artifact_type artifact_title folder_path : string)
    : prog (option string * option string) :=
  FindFolder folder_path (fun the_folder =>
  match the_folder with
  | None => Raise (FileNotFoundError folder_path)
  | Some folderuri =>
  GetFactoryUri "oslc_rm:Requirement" (fun factory =>
  let factory_u := fst factory in
  let shapes := snd factory in
  let+ the_shape_u := find_shape shapes artifact_type in
  match the_shape_u with
  | None => Raise (LookupError artifact_type)
  | Some the_shape_u =>
  let xml_payload := V2.xml_payload artifact_type artifact_title the_shape_u folderuri in
  match fromstring xml_payload with
  | None => Raise (Python XMLSyntaxError)
  | Some thexml_x =>
  PostRdfXml factory_u thexml_x (fun response =>
  if negb (Http.status_code response =? 201) then
    Raise (Python (ConnectionError (Http.status_code response)))
  else
    let the_artifact_u := Http.location response in
    Base (Http.GetRdfXml the_artifact_u) (fun r =>
    let the_artifact_x := Http.xml r in
    match find_descendant the_artifact_x "dcterms:identifier" with
    | None => Raise AttributeError
    | Some el => Ret (the_artifact_u, text el)
    end))
  end
  end)
  end).

(** [get_module_uri_by_id] (lines 128-159). *)
Definition get_module_uri_by_id (module_id : string) : prog string :=
  GetQueryCapabilityUri "oslc_rm:Requirement" (fun qcbase =>
  OslcQuery qcbase
    [ ("dcterms:identifier", "=", Some (dq +:+ module_id +:+ dq));
      ("rdf:type", "=", Some module_type) ]
    select_all (dcterms_prefix RDF_DEFAULT_PREFIX)
    (fun modules =>
  match modules with
  | [] => Raise (FileNotFoundError module_id)
  | (module_uri, _) :: _ => Ret module_uri
  end)).

(** The body of the [try] of [main] from the creation on (lines 239-260). *)
Definition main_steps (project_uri artifact_type artifact_title folder_path
    module_id : string) : prog unit :=
  let+ created := create_artifact_in_folder artifact_type artifact_title folder_path in
  let new_artifact_id := snd created in
  let+ module_uri := get_module_uri_by_id module_id in
  GetQueryCapabilityUri "oslc_rm:Requirement" (fun qcbase =>
  OslcQuery qcbase [ ("dcterms:identifier", "=", new_artifact_id) ] None None
    (fun artifacts_to_bind =>
  match artifacts_to_bind with
  | [] => Raise (FileNotFoundError (fstr new_artifact_id))
  | (artifact_to_bind_uri, _) :: _ =>
      embed (V2.bind_artifact_to_module_structure fromstring RDF_DEFAULT_PREFIX
               project_uri module_uri artifact_to_bind_uri)
  end)).

Definition main (project_uri artifact_type artifact_title folder_path
    module_id : string) : prog unit :=
  catch (main_steps project_uri artifact_type artifact_title folder_path module_id)
    (fun _ => Exit 1).

End Parser.
End V2Flow.

(** *** For_Gemini.py: creation and lookups *)

Module OrigFlow.
Import Xml Rdfxml Common Workflow.

Section Parser.
Variable fromstring : string -> option element.
Variable RDF_DEFAULT_PREFIX : string -> string.

(** The loop of lines 266-275: no break, so the last shape whose title is
    the type stays in [theshape_u]. *)
Fixpoint find_shape (shapes : list string) (argv1 : string)
    (theshape_u : option string) : prog (option string) :=
  match shapes with
  | [] => Ret theshape_u
  | shape_u :: rest =>
      Base (Http.GetRdfXml (Some shape_u)) (fun r =>
        let shape_x := Http.xml r in
        find_shape rest argv1
          (if title_is (shape_title shape_x) argv1 then Some shape_u else theshape_u))
  end.

(** Lines 252-365: from the folder lookup to the identifier of the new
    artifact; [argv1], [argv2], [argv3] are type, text and folder. *)
Definition create (argv1 argv2 argv3 : string)
    : prog (option string * option string) :=
  FindFolder argv3 (fun thefolder =>
  match thefolder with
  | None => Raise (Python (PyException ("Folder '" +:+ argv3 +:+ "' not found!")))
  | Some folderuri =>
  GetFactoryUri "oslc_rm:Requirement" (fun factory =>
  let factory_u := fst factory in
  let shapes := snd factory in
  let+ theshape_u := find_shape shapes argv1 None in
  match theshape_u with
  | None => Raise (Python (PyException ("Shape '" +:+ argv1 +:+ "' not found!")))
  | Some theshape_u =>
  let thexml_t := Orig.thexml_t argv1 argv2 theshape_u folderuri in
  match fromstring thexml_t with
  | None => Raise (Python XMLSyntaxError)
  | Some thexml_x =>
  PostRdfXml factory_u thexml_x (fun response =>
  let location := Http.location response in
  if negb (Http.status_code response =? 201) then
    Raise (Python (PyException "POST failed!"))
  else
    let theartifact_u := location in
    Base (Http.GetRdfXml theartifact_u) (fun r =>
    let theartifact_x := Http.xml r in
    match find_descendant theartifact_x "dcterms:identifier" with
    | None => Raise AttributeError                 (* theid.text *)
    | Some theid => Ret (theartifact_u, text theid)
    end))
  end
  end)
  end).

(** The command line besides type, text and folder: project, component,
    configuration ([sys.argv[4..6]]), which the messages name. *)
Variables proj comp conf : string.

Definition in_configuration : string :=
  " in project " +:+ proj +:+ " component " +:+ comp +:+ " configuration " +:+ conf.

(** Lines 393-412: the module of that title, when there is exactly one.
    The second message is no f-string and keeps its braces. *)
Definition find_module (qcbase mod_ : string) : prog string :=
  OslcQuery qcbase
    [ ("dcterms:title", "=", Some (dq +:+ mod_ +:+ dq));
      ("rdf:type", "=", Some module_type) ]
    select_all (dcterms_prefix RDF_DEFAULT_PREFIX)
    (fun modules =>
  match modules with
  | [] =>
      Raise (Python (PyException
        ("No module '" +:+ mod_ +:+ "' with that name" +:+ in_configuration)))
  | [(themodule_u, _)] => Ret themodule_u
  | _ =>
      Raise (Python (PyException
        "More than one module with that name in project {proj} component {comp} configuraition {conf}"))
  end).

(** [v.get("rm_nav:parent") is not None] *)
Definition has_parent (kv : string * gmap string string) : bool :=
  bool_decide (is_Some (snd kv !! "rm_nav:parent")).

(** Lines 434-447: the artifact to insert among the hits of the query. *)
Definition choose_toinsert (theid_text : string) (toinserts : hits) : result string :=
  match toinserts with
  | [] =>
      Err (PyException
        ("No artifact '" +:+ theid_text +:+ "' with that name" +:+ in_configuration))
  | [(k, _)] => OK k
  | _ =>
      (* find the first one with a rm_nav:parent *)
      match List.find has_parent toinserts with
      | Some (k, _) => OK k
      | None => Err (PyException ("No artifact " +:+ theid_text +:+ " found with a folder"))
      end
  end.

(** Lines 423-448: the query for the new artifact, made when its
    identifier is not empty; without it [toinsert_u] stays unbound, and
    nothing reads it. *)
Definition find_toinsert (qcbase theid_text : string) : prog (option string) :=
  if (0 <? String.length theid_text)%nat then
    OslcQuery qcbase [ ("dcterms:identifier", "=", Some theid_text) ]
      select_all (dcterms_prefix RDF_DEFAULT_PREFIX)
      (fun toinserts =>
    match choose_toinsert theid_text toinserts with
    | OK toinsert_u => Ret (Some toinsert_u)
    | Err e => Raise (Python e)
    end)
  else Ret None.

(** The script from line 252 to line 620, with [format = "JSON"]: it
    returns the records of the structure when it goes on to the outline
    of lines 621-694.  [comp_u] is [c.project_uri]. *)
Definition main_steps (comp_u argv1 argv2 argv3 mod_ : string)
    : prog (list Json.binding) :=
  let+ created := create argv1 argv2 argv3 in
  let theid_text := snd created in
  GetQueryCapabilityUri "oslc_rm:Requirement" (fun qcbase =>
  let+ themodule_u := find_module qcbase mod_ in
  Base (Http.GetRdfXml (Some themodule_u)) (fun r =>
  let mod_x := Http.xml r in
  let structure_u := xmlrdf_get_resource_uri_desc mod_x structure_tag in
  match theid_text with
  | None => Raise (Python TypeError)                      (* len( theid.text ) *)
  | Some theid_text =>
      let+ toinsert_u := find_toinsert qcbase theid_text in
      embed (Orig.update_json theid_text structure_u comp_u themodule_u
               (default EmptyString toinsert_u))
  end)).

End Parser.
End OrigFlow.

Module Shapes.
Import Workflow.

(** The shapes, in the order of the factory, whose fetched document has
    the wanted title; [replies] are the answers to the fetches in that
    order. *)
Definition matching (shapes : list string) (replies : list Http.reply)
    (artifact_type : string) : list string :=
  map fst
    (List.filter
       (fun sr => title_is (shape_title (Http.xml (snd sr))) artifact_type)
       (zip shapes replies)).

(** The fetch of a shape. *)
Definition fetch (shape_u : string) : made :=
  DidBase (Http.GetRdfXml (Some shape_u)).

(** An outcome of [Http] as an outcome of [Workflow]. *)
Definition lift_outcome {A} (o : Http.outcome A) : outcome A :=
  match o with
  | Http.Returned a => Returned a
  | Http.Raised e => Raised (Python e)
  | Http.Exited c => Exited c
  | Http.Starved => Stuck
  end.

End Shapes.

(** *** What a run has done *)

Module Creation.
Import Xml Rdfxml Workflow Shapes.

(** The creations and the updates among the calls of a run. *)
Definition posts (cs : list made) : list made := List.filter is_post cs.
Definition updates (cs : list made) : list made := List.filter is_update cs.

(** The answers up to the first that is no reply. *)
Fixpoint replies (answers : list answer) : list Http.reply :=
  match answers with
  | Reply r :: rest => r :: replies rest
  | _ => []
  end.

(** A creation that made the calls [cs] against [answers] and returned
    [(u, i)] has: found the folder; fetched shapes of the factory, [s]
    among them; posted the parsed payload for [s] and the folder to the
    factory and got 201 with Location [u]; fetched [u] and read [i] from
    its identifier element. *)
Definition created (fromstring : string -> option element)
    (payload : string -> string -> string) (folder_path : string)
    (answers : list answer) (cs : list made) (u i : option string) : Prop :=
  exists folderuri factory shapes fetched s data response got el,
    answers !! 0%nat = Some (Folder (Some folderuri))
    /\ answers !! 1%nat = Some (Factory factory shapes)
    /\ fetched `prefix_of` shapes
    /\ s ∈ fetched
    /\ fromstring (payload s folderuri) = Some data
    /\ cs = DidFindFolder folder_path :: DidGetFactoryUri "oslc_rm:Requirement"
             :: map fetch fetched
             ++ [DidPostRdfXml factory data; DidBase (Http.GetRdfXml u)]
    /\ answers !! (2 + length fetched)%nat = Some (Reply response)
    /\ Http.status_code response = 201
    /\ u = Http.location response
    /\ answers !! (3 + length fetched)%nat = Some (Reply got)
    /\ find_descendant (Http.xml got) "dcterms:identifier" = Some el
    /\ i = text el.

(** The exceptions of a creation, by the place that raises them: before
    the POST (folder missing, no shape of that title, payload that does not
    parse) or after it (POST refused, no identifier element in the new
    artifact).  V2 and V4 raise the same ones; For_Gemini.py raises plain
    exceptions with a message. *)
Definition early_V (folder_path artifact_type : string) (e : error) : Prop :=
  e = FileNotFoundError folder_path
  \/ e = LookupError artifact_type
  \/ e = Python XMLSyntaxError.
Definition late_V (e : error) : Prop :=
  (exists status, status <> 201 /\ e = Python (ConnectionError status))
  \/ e = AttributeError.
Definition early_Orig (argv1 argv3 : string) (e : error) : Prop :=
  e = Python (PyException ("Folder '" +:+ argv3 +:+ "' not found!"))
  \/ e = Python (PyException ("Shape '" +:+ argv1 +:+ "' not found!"))
  \/ e = Python XMLSyntaxError.
Definition late_Orig (e : error) : Prop :=
  e = Python (PyException "POST failed!") \/ e = AttributeError.

(** What every run of a creation keeps to: at most one POST and no update;
    a missing folder ends it after the folder lookup; a return only as in
    [created]; no exit; an exception only of the kinds [early] and [late],
    without a POST for the first and after the POST for the second. *)
Definition creates_once (fromstring : string -> option element)
    (payload : string -> string -> string) (folder_path : string)
    (early late : error -> Prop) (answers : list answer)
    (r : outcome (option string * option string) * list made) : Prop :=
  (length (posts (snd r)) <= 1)%nat
  /\ updates (snd r) = []
  /\ (answers !! 0%nat = Some (Folder None) ->
      snd r = [DidFindFolder folder_path] /\ exists e, fst r = Raised e /\ early e)
  /\ match fst r with
     | Returned (u, i) => created fromstring payload folder_path answers (snd r) u i
     | Raised e =>
         (early e \/ late e)
         /\ (early e -> posts (snd r) = [])
         /\ (late e -> length (posts (snd r)) = 1%nat)
     | Exited _ => False
     | Stuck => True
     end.

(** The terms of the module queries: by title (For_Gemini.py, V4) and by
    identifier (V2). *)
Definition module_by_title (name : string) : list whereterm :=
  [ ("dcterms:title", "=", Some (Common.dq +:+ name +:+ Common.dq));
    ("rdf:type", "=", Some module_type) ].
Definition module_by_identifier (module_id : string) : list whereterm :=
  [ ("dcterms:identifier", "=", Some (Common.dq +:+ module_id +:+ Common.dq));
    ("rdf:type", "=", Some module_type) ].

(** The call [c] of a run was answered with [a]: the n-th call of a run
    takes the n-th answer. *)
Definition answered (cs : list made) (answers : list answer)
    (c : made) (a : answer) : Prop :=
  exists n : nat, cs !! n = Some c /\ answers !! n = Some a.

(** Every creation of the run comes before every update. *)
Definition creation_first (cs : list made) : Prop :=
  exists before after,
    cs = before ++ after /\ updates before = [] /\ posts after = [].

(** What the runs of the main functions keep to: at most one creation and
    at most one update, no update without a creation, and the creation
    first. *)
Definition orderly (cs : list made) : Prop :=
  (length (posts cs) <= 1)%nat
  /\ (length (updates cs) <= 1)%nat
  /\ (updates cs = [] \/ length (posts cs) = 1%nat)
  /\ creation_first cs.

(** The update that appends, in the slot [find_slot] gives, what the
    text of the binding of [artifact] in [module_uri] parses to, to some
    fetched structure. *)
Definition binds (fromstring : string -> option element)
    (RDF_DEFAULT_PREFIX : string -> string) (find_slot : element -> result pos)
    (project_uri artifact module_uri : string) (c : made) : Prop :=
  exists structure doc slot etag new_binding_xml,
    find_slot doc = OK slot
    /\ fromstring
         (Common.new_binding_text RDF_DEFAULT_PREFIX EmptyString project_uri
            artifact module_uri) = Some new_binding_xml
    /\ c = DidBase
             (Http.PutRdfXml structure (append_at slot new_binding_xml doc) etag).

End Creation.

(** *** Sample answers *)

Module SampleFlow.
Import Xml Workflow.

(** The document of a shape with the given title. *)
Definition shape_x (title : string) : element :=
  Element "rdf:RDF" [] None
    [ Element "oslc:ResourceShape" [] None
        [ Element "dcterms:title" [] (Some title) [] ] ].

(** The document of an artifact with the given identifier. *)
Definition artifact_x (identifier : string) : element :=
  Element "rdf:RDF" [] None
    [ Element "rdf:Description" [] None
        [ Element "dcterms:identifier" [] (Some identifier) [] ] ].

(** A parser that reads the text of a new binding with plain URLs, and
    takes every other text for a document that holds it. *)
Definition parse_any (text : string) : option element :=
  match Sample.fromstring text with
  | Some el => Some el
  | None => Some (Element "rdf:RDF" [] (Some text) [])
  end.

(** The answer to the POST that creates an artifact. *)
Definition created (location : string) : Http.reply :=
  {| Http.xml := Sample.no_element; Http.json := []; Http.etag := "";
     Http.status_code := 201; Http.location := Some location |}.

Definition no_properties : gmap string string := ∅.

(** The answers up to the identifier of the new artifact, for a factory
    with two shapes of which the second has the title Requirement. *)
Definition creation_answers : list answer :=
  [ Folder (Some (Sample.url "folder"));
    Factory (Sample.url "factory") [Sample.url "s1"; Sample.url "s2"];
    Reply (Sample.reply_xml (shape_x "Heading") "e1");
    Reply (Sample.reply_xml (shape_x "Requirement") "e2");
    Reply (created (Sample.url "new"));
    Reply (Sample.reply_xml (artifact_x "42") "e3") ].

(** A server on which each variant gets to the end. *)
Definition answers_V4 : list answer :=
  creation_answers
  ++ [ Capability (Sample.url "query");
       Hits [(Sample.url "MD_1", no_properties)];
       Reply (Sample.reply_xml Sample.module_x "e4");
       Reply (Sample.reply_xml Sample.heading_module_x "e5");
       Reply (Sample.reply_status 200) ].

Definition answers_V2 : list answer :=
  creation_answers
  ++ [ Capability (Sample.url "query");
       Hits [(Sample.url "MD_1", no_properties)];
       Capability (Sample.url "query");
       Hits [(Sample.url "found", no_properties)];
       Reply (Sample.reply_xml Sample.module_x "e4");
       Reply (Sample.reply_xml Sample.heading_module_x "e5");
       Reply (Sample.reply_status 200) ].

Definition answers_Orig : list answer :=
  creation_answers
  ++ [ Capability (Sample.url "query");
       Hits [(Sample.url "MD_1", no_properties)];
       Reply (Sample.reply_xml Sample.module_x "e4");
       Hits [(Sample.url "found", no_properties)];
       Reply (Sample.reply_json Sample.nested_module "e5");
       Reply (Sample.reply_xml Sample.no_element "e6");
       Reply (Sample.reply_status 200);
       Reply (Sample.reply_json Sample.nested_module "e7") ].

End SampleFlow.

(** * Properties *)

(** ** Lists and strings *)

Section PythonLists.
Context {A : Type}.

Lemma py_last_snoc (l : list A) (x : A) : py_last (l ++ [x]) = OK x.
Proof. unfold py_last. now rewrite last_snoc. Qed.

Lemma set_last_snoc (l : list A) (x y : A) :
  set_last y (l ++ [x]) = OK (l ++ [y]).
Proof.
  unfold set_last. destruct (l ++ [x]) eqn:E.
  - destruct l; discriminate.
  - rewrite <- E, removelast_last. reflexivity.
Qed.

Lemma py_pop_snoc (l : list A) (x : A) : py_pop (l ++ [x]) = OK l.
Proof.
  unfold py_pop. destruct (l ++ [x]) eqn:E.
  - destruct l; discriminate.
  - rewrite <- E, removelast_last. reflexivity.
Qed.

(** Appending keeps what was there, in order, and puts the new item last. *)
Lemma snoc_keeps_order (cs : list A) (x : A) :
  take (length cs) (cs ++ [x]) = cs
  /\ last (cs ++ [x]) = Some x
  /\ length (cs ++ [x]) = S (length cs).
Proof.
  split; [|split].
  - now rewrite take_app_length.
  - apply last_snoc.
  - rewrite length_app. simpl. lia.
Qed.
End PythonLists.

Lemma append_empty_r (s : string) : s +:+ "" = s.
Proof.
  induction s as [|c s IH]; [reflexivity|].
  change (String c (s +:+ "") = String c s). now f_equal.
Qed.

(** ** Section numbers *)

Section NumberingFacts.
Import Numbering.

Lemma getsectionnumber_fold (l : list counters) (acc : list string) :
  fold_left
    (fun hs '(hn, tn) =>
       if negb (tn =? 0)
       then hs ++ [fmt_int hn +:+ "-" +:+ fmt_int tn]
       else hs ++ [fmt_int hn])
    l acc
  = acc ++ map render_level l.
Proof.
  revert acc. induction l as [|[hn tn] l IH]; intros acc; simpl.
  - now rewrite app_nil_r.
  - rewrite IH. unfold render_level at 2; simpl.
    destruct (tn =? 0); simpl.
    + rewrite append_empty_r, <- app_assoc. reflexivity.
    + rewrite <- app_assoc. reflexivity.
Qed.

(** C5: for every stack of counter pairs [getsectionnumber] returns the
    dot-joined sequence, outermost level first, of each level's heading
    count, with a dash and the sub-count appended exactly when the sub-count
    is not zero; the stack [(2,0),(1,3)] renders as 2.1-3. *)
Theorem getsectionnumber_renders_levels :
  (forall headinglevel : list counters,
      getsectionnumber headinglevel = render_levels headinglevel)
  /\ getsectionnumber [(2, 0); (1, 3)] = "2.1-3".
Proof.
  split.
  - intros hl. unfold getsectionnumber, render_levels.
    now rewrite getsectionnumber_fold.
  - reflexivity.
Qed.

End NumberingFacts.

(** ** The counters of the outline *)

Section CounterFacts.
Import Outline Numbering.

Lemma bump_heading hl hn tn :
  bump true (hl ++ [(hn, tn)]) = OK (hl ++ [(hn + 1, 0)]).
Proof.
  unfold bump. rewrite py_last_snoc; simpl.
  rewrite set_last_snoc; simpl. rewrite py_last_snoc; simpl.
  now rewrite set_last_snoc.
Qed.

Lemma bump_text hl hn tn :
  bump false (hl ++ [(hn, tn)]) = OK (hl ++ [(hn, tn + 1)]).
Proof.
  unfold bump. rewrite py_last_snoc; simpl. now rewrite set_last_snoc.
Qed.

Lemma bump_nonempty b hl :
  hl <> [] -> exists hl', bump b hl = OK hl' /\ length hl' = length hl.
Proof.
  intros Hne. destruct (exists_last Hne) as (l & [hn tn] & ->).
  destruct b.
  - eexists. split; [apply bump_heading|]. now rewrite !length_app.
  - eexists. split; [apply bump_text|]. now rewrite !length_app.
Qed.

End CounterFacts.

(** C3: driven by the walk of a root with five children at one level, in
    order a heading, a text, a heading, a text and a text, the numbering
    loop prints the sections 1, 1-1, 2, 2-1, 2-2; a heading adds one to the
    heading counter of the current level and resets its sub-counter to 0, a
    text adds one to the sub-counter only. *)
Theorem single_level_sections :
  (forall hl hn tn,
      Outline.bump true (hl ++ [(hn, tn)]) = OK (hl ++ [(hn + 1, 0)]))
  /\ (forall hl hn tn,
      Outline.bump false (hl ++ [(hn, tn)]) = OK (hl ++ [(hn, tn + 1)]))
  /\ (forall k : nat,
        Outline.sections
          (Orig.outline_json Sample.baseurl Sample.artifact (2 + k)
             Sample.structure_u Sample.flat_module)
        = ["1"; "1-1"; "2"; "2-1"; "2-2"]).
Proof.
  split; [exact bump_heading|]. split; [exact bump_text|].
  intros k. vm_compute. reflexivity.
Qed.

(** C4, as the code has it: for a heading that holds a heading that holds a
    text, the numbering loop prints the sections 1, 1.1 and 1.1.0-1; the
    text is counted at the level its parent heading opens, whose heading
    counter is still 0. *)
Theorem nested_sections (k : nat) :
  Outline.sections
    (Orig.outline_json Sample.baseurl Sample.artifact (4 + k)
       Sample.structure_u Sample.nested_module)
  = ["1"; "1.1"; "1.1.0-1"].
Proof. vm_compute. reflexivity. Qed.

(** C4, as claimed, fails: the third section is not 1.1-1. *)
Lemma nested_sections_not_as_claimed :
  Outline.sections
    (Orig.outline_json Sample.baseurl Sample.artifact 4
       Sample.structure_u Sample.nested_module)
  = ["1"; "1.1"; "1.1.0-1"]
  /\ ["1"; "1.1"; "1.1.0-1"] <> ["1"; "1.1"; "1.1-1"].
Proof. split; [vm_compute; reflexivity | discriminate]. Qed.

(** ** The two tree walkers *)

Section Walkers.
Import Xml Orig Pending.
Variables tags events : list string.

Lemma recursiveiterator_unfold el :
  recursiveiterator tags events el false
  = opening tags events el
    ++ flat_map (subtree_events tags events) (children el)
    ++ closing tags events el.
Proof. destruct el; reflexivity. Qed.

Lemma recursiveiterator_root el :
  recursiveiterator tags events el true
  = flat_map (subtree_events tags events) (children el).
Proof. destruct el; simpl. now rewrite app_nil_r. Qed.

Lemma walk_steps_unfold el : walk_steps el = S (children_steps (children el)).
Proof. destruct el; reflexivity. Qed.

(** With fuel for the iterations it still needs, the loop of [iterwalk]
    yields what is pending on its stack and returns. *)
Lemma iterwalk_iterator_pending (fuel : nat) :
  forall stack, (pending_steps stack < fuel)%nat ->
    iterwalk_iterator fuel tags events stack
    = (pending tags events stack, Exhausted).
Proof.
  induction fuel as [|fuel IH]; intros stack Hlt; [lia|].
  destruct stack as [|[elnow [[|thischild rest]|]] below]; simpl.
  - reflexivity.
  - (* children used up: close the element *)
    rewrite IH by (simpl in Hlt; unfold children_steps in Hlt; simpl in Hlt; lia).
    unfold closing. destruct below as [|e below]; simpl.
    + reflexivity.
    + destruct (wanted tags events "end" elnow); reflexivity.
  - (* next child *)
    rewrite IH.
    + simpl. unfold subtree_events at 3.
      rewrite (recursiveiterator_unfold thischild).
      f_equal. rewrite <- !app_assoc. reflexivity.
    + simpl in *. rewrite walk_steps_unfold. unfold children_steps in *.
      simpl in Hlt. rewrite walk_steps_unfold in Hlt.
      unfold children_steps in Hlt. lia.
  - (* open the element *)
    rewrite IH by (cbn [pending_steps] in *; rewrite walk_steps_unfold in Hlt; lia).
    unfold opening. simpl.
    destruct (wanted tags events "start" elnow); simpl;
      rewrite <- ?app_assoc; reflexivity.
Qed.

End Walkers.

(** C9: on the same root, with the same events filter and the same tags
    filter, the manual-stack walker [iterwalk] (given the fuel for its loop)
    and the recursive walker [iterwalk1] yield the same sequence of (event,
    element) pairs, and both return. *)
Theorem iterwalk_iterwalk1_same_events
    (root : Xml.element) (events : option (list string))
    (tags : Orig.tags_arg) (k : nat) :
  Orig.iterwalk (Orig.walk_steps root + k) root events tags
  = Orig.iterwalk1 root events tags.
Proof.
  unfold Orig.iterwalk, Orig.iterwalk1.
  rewrite iterwalk_iterator_pending.
  - simpl. rewrite recursiveiterator_root, app_nil_r. reflexivity.
  - cbn [Pending.pending_steps]. rewrite walk_steps_unfold. lia.
Qed.

(** ** The counter stack along a walk *)

Section NestingFacts.
Import Outline Nesting.

Lemma nesting_app d es1 es2 :
  nesting d (es1 ++ es2) =
  match nesting d es1 with Some d' => nesting d' es2 | None => None end.
Proof.
  revert d. induction es1 as [|e es1 IH]; intros d; simpl; [reflexivity|].
  destruct (nesting_step d e); [apply IH | reflexivity].
Qed.

Lemma nesting_concat_keep d (ess : list (list effect)) :
  Forall (fun es => nesting d es = Some d) ess -> nesting d (concat ess) = Some d.
Proof.
  induction 1 as [|es ess H _ IH]; simpl; [reflexivity|].
  now rewrite nesting_app, H.
Qed.

Context {A : Type} (body : state -> A -> result state) (eff : A -> effect).

Hypothesis body_follows : follows body eff.


Lemma for_each_nesting evs : forall st d',
  nesting (length (headinglevel st)) (map eff evs) = Some d' ->
  match for_each body evs st with
  | OK st' =>
      length (headinglevel st') = d'
      /\ level st' - level st = Z.of_nat d' - Z.of_nat (length (headinglevel st))
  | Err e => e <> IndexError
  end.
Proof.
  induction evs as [|ev evs IH]; intros st d' H; simpl in *.
  - injection H as <-. split; lia.
  - destruct (nesting_step _ (eff ev)) as [d1|] eqn:E1; [|discriminate].
    pose proof (body_follows st ev d1 E1) as Hb.
    destruct (body st ev) as [st1|e]; simpl; [|exact Hb].
    destruct Hb as [Hlen Hlev]. rewrite <- Hlen in H.
    specialize (IH st1 d' H).
    destruct (for_each body evs st1) as [st2|e]; [|exact IH].
    destruct IH as [Hlen2 Hlev2]. split; [exact Hlen2|]. lia.
Qed.

Lemma nesting_never_empty (is_visit : A -> bool) evs :
  (forall ev, is_visit ev = true -> eff ev = Visit) ->
  nesting 0 (map eff evs) = Some O ->
  never_empty_stack body is_visit evs.
Proof.
  intros Hvisit Hn. repeat split.
  - intros pre ev post st -> Hv Hpre Hnil.
    rewrite map_app, nesting_app in Hn. simpl in Hn.
    destruct (nesting 0 (map eff pre)) as [d|] eqn:Ed; [|discriminate].
    pose proof (for_each_nesting pre initial d Ed) as Hf.
    rewrite Hpre in Hf. destruct Hf as [Hlen _].
    rewrite Hnil in Hlen. simpl in Hlen. subst d.
    rewrite (Hvisit ev Hv) in Hn. discriminate.
  - pose proof (for_each_nesting evs initial O Hn) as Hf.
    intros Heq. rewrite Heq in Hf. congruence.
  - pose proof (for_each_nesting evs initial O Hn) as Hf.
    rewrite H in Hf. destruct Hf as [Hlen _].
    now apply length_zero_iff_nil.
  - pose proof (for_each_nesting evs initial O Hn) as Hf.
    rewrite H in Hf. destruct Hf as [_ Hlev]. simpl in Hlev. lia.
Qed.
End NestingFacts.

(** *** The flat-list walk *)

Section JsonFacts.
Import Orig Outline Nesting JsonShape.

Lemma jvisit_follows baseurl artifact : follows (jvisit baseurl artifact) jeffect.
Proof.
  intros st [event el] d' H. unfold jeffect in H. simpl in H.
  unfold jvisit.
  destruct event; simpl in H.
  - (* start *)
    destruct (headinglevel st) as [|c hl] eqn:Ehl; [discriminate|].
    injection H as <-. simpl.
    destruct (Json.isHeading el) as [isheading|]; simpl; [|discriminate].
    destruct (Json.uri el) as [ba_u|]; simpl; [|discriminate].
    destruct (String.prefix baseurl ba_u); [|discriminate].
    destruct (artifact ba_u) as [summary id]. unfold report.
    destruct (bump_nonempty isheading (headinglevel st)) as (hl' & -> & Hlen);
      [rewrite Ehl; discriminate|].
    simpl. rewrite Hlen, Ehl. simpl. split; [reflexivity | lia].
  - (* startChildren *)
    injection H as <-. simpl.
    destruct (Json.isHeading el); simpl; [|discriminate].
    rewrite length_app. simpl. split; lia.
  - (* endChildren *)
    destruct (headinglevel st) as [|c hl] eqn:Ehl; [discriminate|].
    injection H as <-.
    pose proof (@exists_last _ (c :: hl) ltac:(discriminate)) as (l & x & E).
    assert (Hlen : length l = length hl).
    { apply (f_equal length) in E. rewrite length_app in E. simpl in E. lia. }
    rewrite E in Ehl. unfold leave. rewrite Ehl, py_pop_snoc. simpl.
    destruct (Json.isHeading el); simpl; [|discriminate].
    split; lia.
  - (* end *)
    injection H as <-. simpl.
    destruct (Json.isHeading el); simpl; [|discriminate]. split; lia.
Qed.

Lemma well_formed_lookup entries rank u el :
  well_formed entries rank = true -> entries !! u = Some el ->
  exists cs, Json.childBindings el = Some cs
    /\ Forall (fun c => is_Some (entries !! c) /\ (rank c < rank u)%nat) cs.
Proof.
  unfold well_formed. rewrite forallb_forall. intros Hwf Hu.
  specialize (Hwf (u, el)). simpl in Hwf.
  assert (Hin : In (u, el) (map_to_list entries)).
  { apply list_elem_of_In, elem_of_map_to_list. exact Hu. }
  specialize (Hwf Hin).
  destruct (Json.childBindings el) as [cs|]; [|discriminate].
  exists cs. split; [reflexivity|].
  rewrite forallb_forall in Hwf. apply List.Forall_forall. intros c Hc.
  specialize (Hwf c Hc). apply andb_prop in Hwf as [H1 H2].
  apply bool_decide_eq_true in H1. apply Nat.ltb_lt in H2. now split.
Qed.

Lemma gen_concat_exhausted {A B} (f : B -> gen A) (P : list A -> Prop) (cs : list B) :
  Forall (fun c => exists evs, f c = (evs, Exhausted) /\ P evs) cs ->
  exists evss, gen_concat (map f cs) = (concat evss, Exhausted) /\ Forall P evss.
Proof.
  induction 1 as [|c cs (evs & Hf & HP) _ (evss & IH & HPs)]; simpl.
  - exists []. split; [reflexivity | constructor].
  - exists (evs :: evss). split; [|now constructor].
    rewrite Hf, IH. reflexivity.
Qed.

Section Walk.
Variable entries : gmap string Json.binding.
Variable rank : string -> nat.
Hypothesis Hwf : well_formed entries rank = true.

Lemma keeps_depth_concat evss :
  Forall keeps_depth evss -> keeps_depth (concat evss).
Proof.
  intros H d. rewrite concat_map. apply nesting_concat_keep.
  apply List.Forall_map. eapply List.Forall_impl; [|exact H].
  intros evs Hk. apply Hk.
Qed.

Lemma node_walk fuel : forall u,
  (rank u < fuel)%nat -> is_Some (entries !! u) ->
  exists evs, jrecursiveiterator entries fuel u false = (evs, Exhausted)
              /\ keeps_depth evs.
Proof.
  induction fuel as [|fuel IH]; intros u Hr [el Hu]; [lia|].
  destruct (well_formed_lookup entries rank u el Hwf Hu) as (cs & Hcs & Hall).
  destruct (gen_concat_exhausted
              (fun child => jrecursiveiterator entries fuel child false)
              keeps_depth cs) as (evss & Hg & HP).
  { eapply List.Forall_impl; [|exact Hall]. intros c [Hc Hlt]. apply IH; [lia|exact Hc]. }
  exists ([(start, el); (startChildren, el)] ++ concat evss
          ++ [(endChildren, el); (end_, el)]).
  split.
  - simpl. unfold entry. rewrite Hu, Hcs. simpl. rewrite Hg. reflexivity.
  - intros d. cbn [app map nesting nesting_step jeffect fst].
    rewrite map_app, nesting_app, (keeps_depth_concat evss HP (S d)).
    reflexivity.
Qed.

Lemma root_walk fuel u :
  (rank u < fuel)%nat -> is_Some (entries !! u) ->
  exists evs, json_structure_walk entries fuel u = (evs, Exhausted)
              /\ nesting 0 (map jeffect evs) = Some O.
Proof.
  destruct fuel as [|fuel]; intros Hr [el Hu]; [lia|].
  destruct (well_formed_lookup entries rank u el Hwf Hu) as (cs & Hcs & Hall).
  destruct (gen_concat_exhausted
              (fun child => jrecursiveiterator entries fuel child false)
              keeps_depth cs) as (evss & Hg & HP).
  { eapply List.Forall_impl; [|exact Hall]. intros c [Hc Hlt].
    apply node_walk; [lia|exact Hc]. }
  exists ([(startChildren, el)] ++ concat evss ++ [(endChildren, el)]).
  split.
  - unfold json_structure_walk. simpl. unfold entry. rewrite Hu, Hcs. simpl.
    rewrite Hg. reflexivity.
  - cbn [app map nesting nesting_step jeffect fst].
    rewrite map_app, nesting_app, (keeps_depth_concat evss HP O).
    reflexivity.
Qed.
End Walk.
End JsonFacts.

Section JsonWalkSafe.
Import Orig Outline Nesting JsonShape.

Lemma json_walk_never_empty_stack
    (entries : gmap string Json.binding) (rank : string -> nat)
    (structure_u baseurl : string) (artifact : string -> string * string) (k : nat) :
  well_formed entries rank = true ->
  is_Some (entries !! structure_u) ->
  exists evs,
    json_structure_walk entries (S (rank structure_u) + k) structure_u = (evs, Exhausted)
    /\ never_empty_stack (jvisit baseurl artifact) is_start evs.
Proof.
  intros Hwf Hroot.
  destruct (root_walk entries rank Hwf (S (rank structure_u) + k) structure_u)
    as (evs & Hev & Hn); [lia | exact Hroot |].
  exists evs. split; [exact Hev|].
  apply (nesting_never_empty _ jeffect (jvisit_follows baseurl artifact)); [|exact Hn].
  intros [[] el]; simpl; intros H; try discriminate. reflexivity.
Qed.
End JsonWalkSafe.

(** *** The markup walk *)

Section XmlFacts.
Import Xml Rdfxml Orig Outline Nesting XmlShape.

Lemma xvisit_follows baseurl artifact : follows (xvisit baseurl artifact) xeffect.
Proof.
  intros st [event el] d' H. unfold xeffect in H. unfold xvisit.
  destruct (String.eqb (tag el) childBindings_tag) eqn:Ecb.
  - assert (Enb : String.eqb (tag el) Binding_tag = false).
    { apply String.eqb_eq in Ecb. rewrite Ecb. reflexivity. }
    rewrite Enb.
    destruct (String.eqb event "start") eqn:Es.
    + apply String.eqb_eq in Es. subst event. simpl in H. injection H as <-.
      simpl. rewrite length_app. simpl. split; lia.
    + destruct (String.eqb event "end") eqn:Ee.
      * destruct (headinglevel st) as [|c hl] eqn:Ehl; [discriminate|].
        simpl in H. injection H as <-.
        pose proof (@exists_last _ (c :: hl) ltac:(discriminate)) as (l & x & E).
        assert (Hlen : length l = length hl).
        { apply (f_equal length) in E. rewrite length_app in E. simpl in E. lia. }
        rewrite E in Ehl. unfold leave. rewrite Ehl, py_pop_snoc. simpl.
        split; lia.
      * simpl in H. injection H as <-. simpl. split; lia.
  - simpl.
    destruct (String.eqb (tag el) Binding_tag) eqn:Eb.
    + destruct (String.eqb event "start") eqn:Es.
      * destruct (headinglevel st) as [|c hl] eqn:Ehl; [discriminate|].
        simpl in H. injection H as <-.
        destruct (xmlrdf_get_resource_uri el boundArtifact_tag) as [ba_u|];
          [|discriminate].
        destruct (negb (String.eqb ba_u "") && String.prefix baseurl ba_u);
          [|discriminate].
        destruct (artifact ba_u) as [summary id]. unfold report.
        match goal with |- context [bump ?b (headinglevel st)] =>
          destruct (bump_nonempty b (headinglevel st)) as (hl' & -> & Hlen);
            [rewrite Ehl; discriminate|] end.
        simpl. rewrite Hlen, Ehl. simpl. split; [reflexivity | lia].
      * simpl in H. injection H as <-. split; lia.
    + simpl in H. injection H as <-. split; lia.
Qed.

Lemma xsubtree_unfold el :
  xsubtree el =
  (if wanted structure_tags both_events "start" el then [("start", el)] else [])
  ++ flat_map xsubtree (children el)
  ++ (if wanted structure_tags both_events "end" el then [("end", el)] else []).
Proof. destruct el; reflexivity. Qed.

Lemma wanted_structure ev el :
  tag_in ev both_events = true ->
  wanted structure_tags both_events ev el
  = String.eqb (tag el) childBindings_tag || String.eqb (tag el) Binding_tag.
Proof.
  intros Hev. unfold wanted, structure_tags. rewrite Hev. simpl.
  rewrite orb_false_r, andb_true_r. reflexivity.
Qed.

Lemma nesting_flat_map {B} d (f : B -> list walk_event) (cs : list B) :
  Forall (fun c => nesting d (map xeffect (f c)) = Some d) cs ->
  nesting d (map xeffect (flat_map f cs)) = Some d.
Proof.
  induction 1 as [|c cs H _ IH]; simpl; [reflexivity|].
  now rewrite map_app, nesting_app, H.
Qed.

Lemma xeffect_container el :
  String.eqb (tag el) childBindings_tag = true ->
  xeffect ("start", el) = Push /\ xeffect ("end", el) = Pop.
Proof. intros H. unfold xeffect. rewrite H. split; reflexivity. Qed.

Lemma xeffect_binding el :
  String.eqb (tag el) childBindings_tag = false ->
  String.eqb (tag el) Binding_tag = true ->
  xeffect ("start", el) = Visit /\ xeffect ("end", el) = Skip.
Proof. intros H1 H2. unfold xeffect. rewrite H1, H2. split; reflexivity. Qed.

(** Inside a container the events of a subtree keep the depth. *)
Lemma xsubtree_keeps_depth el :
  forall d, nesting (S d) (map xeffect (xsubtree el)) = Some (S d).
Proof.
  induction el as [t a x cs IH] using element_ind'. intros d.
  rewrite xsubtree_unfold.
  rewrite !wanted_structure by reflexivity.
  set (el := Element t a x cs).
  assert (Hkids : forall n,
             nesting (S n) (map xeffect (flat_map xsubtree (children el))) = Some (S n)).
  { intros n. apply nesting_flat_map.
    eapply List.Forall_impl; [|exact IH]. intros c Hc. apply Hc. }
  destruct (String.eqb (tag el) childBindings_tag) eqn:Ecb; cbn [orb].
  - destruct (xeffect_container el Ecb) as [Hs He].
    rewrite !map_app, !nesting_app. cbn [map nesting]. rewrite Hs.
    cbn [nesting_step]. rewrite nesting_app, Hkids. cbn [nesting]. rewrite He. reflexivity.
  - destruct (String.eqb (tag el) Binding_tag) eqn:Eb.
    + destruct (xeffect_binding el Ecb Eb) as [Hs He].
      rewrite !map_app, !nesting_app. cbn [map nesting]. rewrite Hs.
      cbn [nesting_step]. rewrite nesting_app, Hkids. cbn [nesting]. rewrite He. reflexivity.
    + cbn [app]. rewrite app_nil_r. apply Hkids.
Qed.

(** From the root binding down to the first containers the walk stays at
    depth 0 and yields nothing. *)
Lemma root_keeps_depth el :
  bindings_in_containers el = true ->
  nesting 0 (map xeffect (flat_map xsubtree (children el))) = Some O.
Proof.
  induction el as [t a x cs IH] using element_ind'. intros Hg.
  cbn [children]. simpl in Hg. rewrite forallb_forall in Hg.
  apply nesting_flat_map. apply List.Forall_forall. intros c Hc.
  specialize (Hg c Hc). rewrite List.Forall_forall in IH. specialize (IH c Hc).
  rewrite xsubtree_unfold, !wanted_structure by reflexivity.
  destruct (String.eqb (tag c) Binding_tag) eqn:Eb; [discriminate|].
  destruct (String.eqb (tag c) childBindings_tag) eqn:Ecb; cbn [orb].
  - destruct (xeffect_container c Ecb) as [Hs He].
    rewrite !map_app, !nesting_app. cbn [map nesting]. rewrite Hs.
    cbn [nesting_step].
    rewrite nesting_app, nesting_flat_map.
    + cbn [nesting]. rewrite He. reflexivity.
    + apply List.Forall_forall. intros g _. apply xsubtree_keeps_depth.
  - cbn [app]. rewrite app_nil_r. apply IH, Hg.
Qed.

End XmlFacts.

Section XmlWalkSafe.
Import Xml Rdfxml Orig Outline Nesting XmlShape.

Lemma xml_walk_never_empty_stack
    (modroot_x : element) (baseurl : string) (artifact : string -> string * string) :
  bindings_in_containers modroot_x = true ->
  never_empty_stack (xvisit baseurl artifact) is_binding_start
    (fst (iterwalk1 modroot_x (Some ["start"; "end"])
            (TagsList [childBindings_tag; Binding_tag]))).
Proof.
  intros Hg.
  apply (nesting_never_empty _ xeffect (xvisit_follows baseurl artifact)).
  - intros [event el]. unfold is_binding_start, xeffect. simpl.
    intros H. apply andb_prop in H as [Hb Hs].
    assert (Hcb : String.eqb (tag el) childBindings_tag = false).
    { apply String.eqb_eq in Hb. rewrite Hb. reflexivity. }
    now rewrite Hcb, Hb, Hs.
  - unfold iterwalk1. cbn [fst norm_tags norm_events].
    destruct modroot_x as [t a x cs].
    change (recursiveiterator [childBindings_tag; Binding_tag] ["start"; "end"]
              (Element t a x cs) true)
      with ([] ++ flat_map xsubtree cs ++ []).
    rewrite app_nil_r. cbn [app].
    apply (root_keeps_depth (Element t a x cs) Hg).
Qed.
End XmlWalkSafe.

(** C10: on a well-formed structure the walk from the structure root
    returns, every node visit finds the counter stack non-empty (the level
    of the root's children is entered before the first visit), no step of
    the numbering loop raises IndexError, and pushes and pops balance: the
    stack is empty and the level 0 when the loop completes.  This holds for
    the walk of the flat-list form and for the walk of the markup form. *)
Theorem walks_never_find_counter_stack_empty
    (entries : gmap string Json.binding) (rank : string -> nat)
    (structure_u : string) (modroot_x : Xml.element)
    (baseurl : string) (artifact : string -> string * string) (k : nat) :
  JsonShape.well_formed entries rank = true ->
  is_Some (entries !! structure_u) ->
  XmlShape.bindings_in_containers modroot_x = true ->
  (exists evs,
      Orig.json_structure_walk entries (S (rank structure_u) + k) structure_u
      = (evs, Exhausted)
      /\ Nesting.never_empty_stack (Orig.jvisit baseurl artifact)
           JsonShape.is_start evs)
  /\ Nesting.never_empty_stack (Orig.xvisit baseurl artifact)
       XmlShape.is_binding_start
       (fst (Orig.iterwalk1 modroot_x (Some ["start"; "end"])
               (Orig.TagsList [Rdfxml.childBindings_tag; Rdfxml.Binding_tag]))).
Proof.
  intros Hwf Hroot Hx. split.
  - now apply json_walk_never_empty_stack.
  - now apply xml_walk_never_empty_stack.
Qed.

Lemma walks_never_find_counter_stack_empty_witness :
  JsonShape.well_formed (Sample.table Sample.nested_module) Sample.rank = true
  /\ is_Some (Sample.table Sample.nested_module !! Sample.structure_u)
  /\ XmlShape.bindings_in_containers
       (Sample.xroot [Sample.xbinding (Sample.url "h1") true []]) = true
  /\ (exists evs,
      Orig.json_structure_walk (Sample.table Sample.nested_module)
        (S (Sample.rank Sample.structure_u) + 0) Sample.structure_u
      = (evs, Exhausted)
      /\ Nesting.never_empty_stack (Orig.jvisit Sample.baseurl Sample.artifact)
           JsonShape.is_start evs)
  /\ Nesting.never_empty_stack (Orig.xvisit Sample.baseurl Sample.artifact)
       XmlShape.is_binding_start
       (fst (Orig.iterwalk1
               (Sample.xroot [Sample.xbinding (Sample.url "h1") true []])
               (Some ["start"; "end"])
               (Orig.TagsList [Rdfxml.childBindings_tag; Rdfxml.Binding_tag]))).
Proof.
  assert (H1 : JsonShape.well_formed (Sample.table Sample.nested_module)
                 Sample.rank = true) by (vm_compute; reflexivity).
  assert (H2 : is_Some (Sample.table Sample.nested_module !! Sample.structure_u))
    by (vm_compute; eexists; reflexivity).
  assert (H3 : XmlShape.bindings_in_containers
                 (Sample.xroot [Sample.xbinding (Sample.url "h1") true []]) = true)
    by (vm_compute; reflexivity).
  split; [exact H1|]. split; [exact H2|]. split; [exact H3|].
  exact (walks_never_find_counter_stack_empty
           (Sample.table Sample.nested_module) Sample.rank Sample.structure_u
           (Sample.xroot [Sample.xbinding (Sample.url "h1") true []])
           Sample.baseurl Sample.artifact 0 H1 H2 H3).
Defined.

(** ** Slots *)

Section SlotFacts.
Import Xml Slots.

Lemma subtree_append_at new : forall p doc,
  subtree (append_at p new doc) p
  = (fun s => Element (tag s) (attrib s) (text s) (children s ++ [new]))
      <$> subtree doc p.
Proof.
  induction p as [|i p IH]; intros [t a x cs]; simpl.
  - reflexivity.
  - rewrite list_lookup_alter_eq.
    destruct (cs !! i) as [c|]; simpl; [apply IH | reflexivity].
Qed.

Lemma slot_children_append_at new p doc :
  slot_children (append_at p new doc) p
  = (fun cs => cs ++ [new]) <$> slot_children doc p.
Proof.
  unfold slot_children. rewrite subtree_append_at.
  destruct (subtree doc p); reflexivity.
Qed.

Lemma root_children_append_to_first u modstructure_j :
  match Orig.append_to_first u modstructure_j with
  | OK j' =>
      root_children j' = (fun cs => cs ++ [u]) <$> root_children modstructure_j
      /\ tail j' = tail modstructure_j
  | Err _ => root_children modstructure_j = None
  end.
Proof.
  unfold Orig.append_to_first, root_children.
  destruct modstructure_j as [|first rest]; simpl; [reflexivity|].
  destruct (Json.childBindings first) as [cs|]; simpl; [|reflexivity].
  split; reflexivity.
Qed.

Lemma elem_of_imap_pair {A} (l : list A) i c :
  In (i, c) (imap pair l) <-> l !! i = Some c.
Proof.
  rewrite <- list_elem_of_In, elem_of_lookup_imap. split.
  - intros (j & y & E & H). now inversion E; subst.
  - intros H. now exists i, c.
Qed.

(** [findall] returns exactly the positions the path reaches. *)
Lemma findall_reaches path : forall ctx p,
  In p (findall path ctx) <-> reaches path ctx p.
Proof.
  induction path as [|t path IH]; intros ctx p; simpl.
  - split.
    + intros [<-|[]]. constructor.
    + inversion 1. now left.
  - rewrite in_flat_map. split.
    + intros ([i c] & Hic & Hp). simpl in Hp.
      apply elem_of_imap_pair in Hic.
      destruct (String.eqb (tag c) t) eqn:Et; [|destruct Hp].
      apply in_map_iff in Hp as (q & <- & Hq).
      apply String.eqb_eq in Et. econstructor; eauto. now apply IH.
    + inversion 1 as [|? ? ? i c q Hc Ht Hq]; subst.
      exists (i, c). split; [now apply elem_of_imap_pair|]. simpl.
      rewrite String.eqb_refl. apply in_map. now apply IH.
Qed.

Lemma reaches_subtree path : forall ctx p,
  reaches path ctx p -> is_Some (subtree ctx p) /\ length p = length path.
Proof.
  induction 1 as [|t path ctx i c p Hc Ht _ [IH1 IH2]]; simpl.
  - split; [eauto | reflexivity].
  - rewrite Hc. split; [exact IH1 | now f_equal].
Qed.

(** Lines 146-151 of V4: the lookup fails with the ValueError exactly when
    the two-level path reaches nothing, and otherwise returns the first
    node it reaches. *)
Lemma V4_find_insertion_point_spec structure_xml :
  match V4.find_insertion_point structure_xml with
  | OK slot =>
      reaches Common.two_level_path structure_xml slot
      /\ head (findall Common.two_level_path structure_xml) = Some slot
  | Err e =>
      e = ValueError (Common.xpath_text Common.two_level_path)
      /\ forall p, ~ reaches Common.two_level_path structure_xml p
  end.
Proof.
  unfold V4.find_insertion_point, Rdfxml.xml_find_elements, V4.insertion_point_xpath.
  destruct (findall Common.two_level_path structure_xml) as [|slot rest] eqn:E.
  - split; [reflexivity|]. intros p Hp.
    apply findall_reaches in Hp. rewrite E in Hp. destruct Hp.
  - split; [|reflexivity]. apply findall_reaches. rewrite E. now left.
Qed.

End SlotFacts.

(** C2: appending a binding to the children sequence of a slot keeps every
    sibling that was there, in the same order, and puts the new binding
    last; for the element the markup form appends to (any position of the
    document) and for the child list of the first record of the flat-list
    form. *)
Theorem append_keeps_siblings_new_last
    (doc new : Xml.element) (p : Xml.pos)
    (modstructure_j : list Json.binding) (u : string) :
  match Slots.slot_children doc p with
  | Some cs =>
      exists cs',
        Slots.slot_children (Xml.append_at p new doc) p = Some cs'
        /\ take (length cs) cs' = cs
        /\ last cs' = Some new
        /\ length cs' = S (length cs)
  | None => Slots.slot_children (Xml.append_at p new doc) p = None
  end
  /\ match Slots.root_children modstructure_j with
     | Some cs =>
         exists j' cs',
           Orig.append_to_first u modstructure_j = OK j'
           /\ Slots.root_children j' = Some cs'
           /\ take (length cs) cs' = cs
           /\ last cs' = Some u
           /\ length cs' = S (length cs)
           /\ tail j' = tail modstructure_j
     | None => exists e, Orig.append_to_first u modstructure_j = Err e
     end.
Proof.
  split.
  - rewrite slot_children_append_at.
    destruct (Slots.slot_children doc p) as [cs|]; simpl; [|reflexivity].
    exists (cs ++ [new]). split; [reflexivity|]. apply snoc_keeps_order.
  - pose proof (root_children_append_to_first u modstructure_j) as H.
    destruct (Slots.root_children modstructure_j) as [cs|] eqn:E.
    + destruct (Orig.append_to_first u modstructure_j) as [j'|e];
        [|discriminate].
      destruct H as [H1 H2]. exists j', (cs ++ [u]).
      split; [reflexivity|]. split; [exact H1|].
      destruct (snoc_keeps_order cs u) as (A1 & A2 & A3). repeat split; assumption.
    + unfold Orig.append_to_first, Slots.root_children in *.
      destruct modstructure_j as [|first rest]; simpl in *; [eauto|].
      rewrite E. simpl. eauto.
Qed.

(** ** The update of the structure *)

Section UpdateFacts.
Import Xml Rdfxml Http Common.

(** V4: the run of [bind_artifact_to_module] against any three replies.
    The update carries the ETag of the very reply whose document it
    changed; a status other than 200, 201, 202 raises ConnectionError after
    that one PUT, and nothing is sent after it.  Nothing is sent when the
    slot is missing or the text of the new binding does not parse. *)
Lemma V4_bind_run fromstring RDF_DEFAULT_PREFIX project_uri module_uri artifact_uri
    r0 r1 r2 replies :
  run (V4.bind_artifact_to_module fromstring RDF_DEFAULT_PREFIX project_uri
         module_uri artifact_uri)
      (r0 :: r1 :: r2 :: replies)
  = let structure_uri := xmlrdf_get_resource_uri_desc (xml r0) structure_tag in
    let fetches := [GetRdfXml (Some module_uri); GetRdfXml structure_uri] in
    match V4.find_insertion_point (xml r1) with
    | Err e => (Raised e, fetches)
    | OK slot =>
        match parse fromstring
                (new_binding_text RDF_DEFAULT_PREFIX EmptyString project_uri
                   artifact_uri module_uri) with
        | Err e => (Raised e, fetches)
        | OK new_binding_xml =>
            let put :=
              PutRdfXml structure_uri (append_at slot new_binding_xml (xml r1))
                (etag r1) in
            if rejected (status_code r2)
            then (Raised (ConnectionError (status_code r2)), fetches ++ [put])
            else
              let '(o, cs) := run (wait_if_pending r2 (Ret tt)) replies in
              (o, fetches ++ put :: cs)
        end
    end.
Proof.
  unfold V4.bind_artifact_to_module. cbn [run pbind lift].
  destruct (V4.find_insertion_point (xml r1)) as [slot|e]; cbn [run pbind lift];
    [|reflexivity].
  destruct (parse fromstring _) as [new_binding_xml|e]; cbn [run pbind lift];
    [|reflexivity].
  destruct (rejected (status_code r2)); cbn [run].
  - reflexivity.
  - destruct (run (wait_if_pending r2 (Ret tt)) replies). reflexivity.
Qed.

(** V2: the same for [bind_artifact_to_module_structure], whose slot is the
    first match of the one-level path. *)
Lemma V2_bind_run fromstring RDF_DEFAULT_PREFIX project_uri module_uri artifact_uri
    r0 r1 r2 replies :
  run (V2.bind_artifact_to_module_structure fromstring RDF_DEFAULT_PREFIX
         project_uri module_uri artifact_uri)
      (r0 :: r1 :: r2 :: replies)
  = let structure_u := xmlrdf_get_resource_uri_desc (xml r0) structure_tag in
    let fetches := [GetRdfXml (Some module_uri); GetRdfXml structure_u] in
    match V2.first_child_bindings (xml r1) with
    | Err e => (Raised e, fetches)
    | OK slot =>
        match parse fromstring
                (new_binding_text RDF_DEFAULT_PREFIX EmptyString project_uri
                   artifact_uri module_uri) with
        | Err e => (Raised e, fetches)
        | OK new_binding_xml =>
            let put :=
              PutRdfXml structure_u (append_at slot new_binding_xml (xml r1))
                (etag r1) in
            if rejected (status_code r2)
            then (Raised (ConnectionError (status_code r2)), fetches ++ [put])
            else
              let '(o, cs) := run (wait_if_pending r2 (Ret tt)) replies in
              (o, fetches ++ put :: cs)
        end
    end.
Proof.
  unfold V2.bind_artifact_to_module_structure. cbn [run pbind lift].
  destruct (V2.first_child_bindings (xml r1)) as [slot|e]; cbn [run pbind lift];
    [|reflexivity].
  destruct (parse fromstring _) as [new_binding_xml|e]; cbn [run pbind lift];
    [|reflexivity].
  destruct (rejected (status_code r2)); cbn [run].
  - reflexivity.
  - destruct (run (wait_if_pending r2 (Ret tt)) replies). reflexivity.
Qed.

(** For_Gemini.py, JSON form: when the first record is the flagged root
    and has its child list, the update is sent with the ETag of the second
    reply, a separate request, while its body is built from the first
    reply; and whatever status the update gets, the script fetches the
    structure again and exits with code 0. *)
Lemma Orig_update_json_run theid_text structure_u comp_u themodule_u toinsert_u
    first rest cs r0 r1 r2 r3 replies :
  (0 < String.length theid_text)%nat ->
  json r0 = first :: rest ->
  Json.isStructureRoot first = Some true ->
  Json.childBindings first = Some cs ->
  (status_code r2 =? 202) = false ->
  run (Orig.update_json theid_text structure_u comp_u themodule_u toinsert_u)
      (r0 :: r1 :: r2 :: r3 :: replies)
  = (Exited 0,
     [ GetJson structure_u;
       GetRdfXml structure_u;
       PutJson structure_u
         ((Json.set_childBindings (cs ++ [tempbinding_u]) first :: rest)
            ++ [Orig.newbinding comp_u themodule_u toinsert_u])
         (etag r1);
       GetJson structure_u ]).
Proof.
  intros Hid Hj Hroot Hcs Hst. unfold Orig.update_json. cbn [run].
  apply Nat.ltb_lt in Hid. rewrite Hid, Hj. cbn [py_first lift pbind].
  rewrite Hroot. cbn [getitem lift pbind negb run].
  unfold Orig.append_to_first. cbn [py_first bind].
  rewrite Hcs. cbn [getitem bind lift pbind run tail].
  rewrite Hst. destruct (location r2); reflexivity.
Qed.

End UpdateFacts.

(** C1, failing input: a module without content, whose structure has the
    root binding and its empty container only.  The two-level path reaches
    nothing there and the lookup of V4 fails with its ValueError; the
    lookup of V2 (line 175) returns the container of the root binding, one
    level below the root, and the binding is appended there and sent.  On a
    document without any binding the lookup of V2 ends in an IndexError. *)
Theorem V2_slot_lookup_without_two_level_path :
  Rdfxml.xml_find_elements Sample.empty_module_x Common.two_level_path = []
  /\ V4.find_insertion_point Sample.empty_module_x
     = Err (ValueError
              "rm_modules:Binding/rm_modules:childBindings/rm_modules:Binding/rm_modules:childBindings")
  /\ V2.first_child_bindings Sample.empty_module_x = OK [0%nat; 0%nat]
  /\ Http.run
       (V2.bind_artifact_to_module_structure Sample.fromstring
          Sample.RDF_DEFAULT_PREFIX
          (Sample.url "component") (Sample.url "MD_1") (Sample.url "TX_9"))
       [ Sample.reply_xml Sample.module_x "m1";
         Sample.reply_xml Sample.empty_module_x "s1";
         Sample.reply_status 200 ]
     = (Http.Returned tt,
        [ Http.GetRdfXml (Some (Sample.url "MD_1"));
          Http.GetRdfXml (Some Sample.structure_u);
          Http.PutRdfXml (Some Sample.structure_u)
            (Sample.xdocument
               (Sample.xroot
                  [Common.new_binding_element EmptyString
                     (Sample.url "component") (Sample.url "TX_9")
                     (Sample.url "MD_1")]))
            "s1" ])
  /\ V2.first_child_bindings (Xml.Element "rdf:RDF" [] None []) = Err IndexError.
Proof. repeat split; vm_compute; reflexivity. Qed.

(** C6, failing input: the structure is fetched (reply 1, token v1), the
    ETag is taken from a second request (reply 2, token v2), and the server
    answers the update with 412.  The update carries token v2 with a body
    built from reply 1, and after the 412 the script fetches the structure
    again and exits with code 0.  The RDF-XML form of lines 452-505 sends no
    update at all: after its first fetch the test of line 454 raises
    TypeError, whatever the identifier element is.  V4 on the same answer
    raises ConnectionError after its one PUT, which carries the token of the
    reply whose document it changed. *)
Theorem Orig_update_not_guarded_by_snapshot_token :
  Http.run
    (Orig.update_json "42" (Some Sample.structure_u)
       (Sample.url "component") (Sample.url "MD_1") (Sample.url "TX_9"))
    [ Sample.reply_json Sample.nested_module "v1";
      Sample.reply_xml Sample.heading_module_x "v2";
      Sample.reply_status 412;
      Sample.reply_json Sample.nested_module "v2" ]
  = (Http.Exited 0,
     [ Http.GetJson (Some Sample.structure_u);
       Http.GetRdfXml (Some Sample.structure_u);
       Http.PutJson (Some Sample.structure_u)
         ([ Sample.record Sample.structure_u true false
              [Sample.url "h1"; Common.tempbinding_u];
            Sample.record (Sample.url "h1") false true [Sample.url "h2"];
            Sample.record (Sample.url "h2") false true [Sample.url "leaf"];
            Sample.record (Sample.url "leaf") false false [];
            Orig.newbinding (Sample.url "component") (Sample.url "MD_1")
              (Sample.url "TX_9") ])
         "v2";
       Http.GetJson (Some Sample.structure_u) ])
  /\ (forall theid,
        Http.run
          (Orig.update_rdfxml Sample.fromstring Sample.RDF_DEFAULT_PREFIX theid
             (Some Sample.structure_u)
             (Sample.url "component") (Sample.url "MD_1") (Sample.url "TX_9"))
          [ Sample.reply_xml Sample.heading_module_x "v1";
            Sample.reply_xml Sample.empty_module_x "v2";
            Sample.reply_status 412;
            Sample.reply_xml Sample.empty_module_x "v2" ]
        = (Http.Raised TypeError, [ Http.GetRdfXml (Some Sample.structure_u) ]))
  /\ Http.run
       (V4.bind_artifact_to_module Sample.fromstring Sample.RDF_DEFAULT_PREFIX
          (Sample.url "component") (Sample.url "MD_1") (Sample.url "TX_9"))
       [ Sample.reply_xml Sample.module_x "m1";
         Sample.reply_xml Sample.heading_module_x "v1";
         Sample.reply_status 412 ]
     = (Http.Raised (ConnectionError 412),
        [ Http.GetRdfXml (Some (Sample.url "MD_1"));
          Http.GetRdfXml (Some Sample.structure_u);
          Http.PutRdfXml (Some Sample.structure_u)
            (Xml.append_at [0%nat; 0%nat; 0%nat; 4%nat]
               (Common.new_binding_element EmptyString
                  (Sample.url "component") (Sample.url "TX_9")
                  (Sample.url "MD_1"))
               Sample.heading_module_x)
            "v1" ]).
Proof.
  split; [vm_compute; reflexivity|]. split; [|vm_compute; reflexivity].
  intros theid. reflexivity.
Qed.

(** C7, as the code has it: the check of lines 566-569 looks at the flag of
    the first record and at nothing else.  When there is an artifact to
    insert and the first record of the fetched flat-list structure does not
    carry a true is-structure-root flag, the script raises before it sends
    anything but the first fetch, and no update is made.  A first record
    flagged false gives the exception "Root not at start of structure!", a
    first record without the key a KeyError, an empty list an IndexError. *)
Theorem unflagged_first_record_stops_update
    (theid_text : string) (structure_u : option string)
    (comp_u themodule_u toinsert_u : string)
    (r0 : Http.reply) (replies : list Http.reply) :
  (0 < String.length theid_text)%nat ->
  Slots.root_flag (Http.json r0) <> Some true ->
  Http.run
    (Orig.update_json theid_text structure_u comp_u themodule_u toinsert_u)
    (r0 :: replies)
  = (Http.Raised
       match Http.json r0 with
       | [] => IndexError
       | first :: _ =>
           match Json.isStructureRoot first with
           | None => KeyError "isStructureRoot"
           | Some _ => PyException "Root not at start of structure!"
           end
       end,
     [Http.GetJson structure_u]).
Proof.
  intros Hid Hflag. unfold Orig.update_json. cbn [Http.run].
  apply Nat.ltb_lt in Hid. rewrite Hid.
  unfold Slots.root_flag in Hflag.
  destruct (Http.json r0) as [|first rest]; [reflexivity|].
  simpl in Hflag. cbn [py_first Http.lift Http.pbind].
  destruct (Json.isStructureRoot first) as [[|]|]; cbn; [congruence | reflexivity..].
Qed.

Lemma unflagged_first_record_stops_update_witness :
  (0 < String.length "42")%nat
  /\ Slots.root_flag (Http.json (Sample.reply_json Sample.unflagged_module "v1"))
     <> Some true
  /\ Http.run
       (Orig.update_json "42" (Some Sample.structure_u)
          (Sample.url "component") (Sample.url "MD_1") (Sample.url "TX_9"))
       [Sample.reply_json Sample.unflagged_module "v1"]
     = (Http.Raised (PyException "Root not at start of structure!"),
        [Http.GetJson (Some Sample.structure_u)]).
Proof.
  assert (H1 : (0 < String.length "42")%nat) by (simpl; lia).
  assert (H2 : Slots.root_flag
                 (Http.json (Sample.reply_json Sample.unflagged_module "v1"))
               <> Some true) by (vm_compute; discriminate).
  split; [exact H1|]. split; [exact H2|].
  exact (unflagged_first_record_stops_update "42" (Some Sample.structure_u)
           (Sample.url "component") (Sample.url "MD_1") (Sample.url "TX_9")
           (Sample.reply_json Sample.unflagged_module "v1") [] H1 H2).
Defined.

(** C7, as claimed, fails: in a structure whose flag sits on the wrong
    record, the heading in first place flagged and the root in second place
    unflagged, the first record is taken for the root: the placeholder is
    appended to the children of the heading, the update is sent and the
    script ends with exit code 0. *)
Lemma misflagged_first_record_taken_for_root :
  Http.run
    (Orig.update_json "42" (Some Sample.structure_u)
       (Sample.url "component") (Sample.url "MD_1") (Sample.url "TX_9"))
    [ Sample.reply_json Sample.misflagged_module "v1";
      Sample.reply_xml Sample.no_element "v2";
      Sample.reply_status 200;
      Sample.reply_json Sample.misflagged_module "v3" ]
  = (Http.Exited 0,
     [ Http.GetJson (Some Sample.structure_u);
       Http.GetRdfXml (Some Sample.structure_u);
       Http.PutJson (Some Sample.structure_u)
         [ Sample.record (Sample.url "a") true true [Common.tempbinding_u];
           Sample.record Sample.structure_u false false [Sample.url "a"];
           Orig.newbinding (Sample.url "component") (Sample.url "MD_1")
             (Sample.url "TX_9") ]
         "v2";
       Http.GetJson (Some Sample.structure_u) ])
  /\ Json.uri <$> head Sample.misflagged_module = Some (Some (Sample.url "a"))
  /\ Sample.url "a" <> Sample.structure_u
  /\ @Http.Exited (list Json.binding) 0
     <> Http.Raised (PyException "Root not at start of structure!").
Proof.
  split; [vm_compute; reflexivity|]. split; [reflexivity|].
  split; [vm_compute|]; discriminate.
Qed.

(** ** Creation payloads *)

(** V4 builds its payload without looking at the artifact type. *)
Lemma V4_payload_ignores_type t1 t2 title shape_uri folderuri :
  V4.xml_payload t1 title shape_uri folderuri
  = V4.xml_payload t2 title shape_uri folderuri.
Proof. reflexivity. Qed.

(** For_Gemini.py takes its second template for every type but
    "Requirement". *)
Lemma Orig_payload_other_type argv1 argv2 theshape_u folderuri :
  argv1 <> "Requirement" ->
  Orig.thexml_t argv1 argv2 theshape_u folderuri
  = Orig.thexml_t "Heading" argv2 theshape_u folderuri.
Proof.
  intros Hne. unfold Orig.thexml_t.
  destruct (String.eqb "Requirement" argv1) eqn:E.
  - apply String.eqb_eq in E. congruence.
  - reflexivity.
Qed.

(** C8, failing inputs: For_Gemini.py embeds the two heading markers for
    every artifact type but "Requirement", so also when called with the type
    "Stakeholder Requirement" of its own usage line, and V4 embeds none
    whatever the type, so none for "Heading".  V2 embeds them for "Heading"
    and not for "Stakeholder Requirement". *)
Theorem heading_markers_by_variant :
  Common.embeds_heading_markers
    (Orig.thexml_t "Stakeholder Requirement" "My first requirement"
       (Sample.url "shape") (Sample.url "folder")) = true
  /\ (forall argv1,
        Common.embeds_heading_markers
          (Orig.thexml_t argv1 "My first requirement"
             (Sample.url "shape") (Sample.url "folder"))
        = negb (String.eqb "Requirement" argv1))
  /\ (forall artifact_type,
        Common.embeds_heading_markers
          (V4.xml_payload artifact_type "My first heading"
             (Sample.url "shape") (Sample.url "folder")) = false)
  /\ Common.embeds_heading_markers
       (V2.xml_payload "Heading" "My first heading"
          (Sample.url "shape") (Sample.url "folder")) = true
  /\ Common.embeds_heading_markers
       (V2.xml_payload "Stakeholder Requirement" "My first requirement"
          (Sample.url "shape") (Sample.url "folder")) = false.
Proof.
  split; [vm_compute; reflexivity|].
  split.
  { intros argv1. destruct (String.eqb "Requirement" argv1) eqn:E.
    - apply String.eqb_eq in E. subst argv1. vm_compute. reflexivity.
    - rewrite Orig_payload_other_type.
      + vm_compute. reflexivity.
      + intros ->. rewrite String.eqb_refl in E. discriminate. }
  split.
  { intros t. rewrite (V4_payload_ignores_type t "Heading"). vm_compute. reflexivity. }
  split; vm_compute; reflexivity.
Qed.

(** * Further properties *)

(** ** The events of the walkers *)

Section WalkEvents.
Import Xml Rdfxml Orig Pending Walks.
Variables tags events : list string.

Lemma elements_of_app ev evs1 evs2 :
  elements_of ev (evs1 ++ evs2) = elements_of ev evs1 ++ elements_of ev evs2.
Proof. unfold elements_of. now rewrite List.filter_app, map_app. Qed.

Lemma elements_of_flat_map {B} ev (f : B -> list walk_event) (cs : list B) :
  elements_of ev (flat_map f cs) = flat_map (fun c => elements_of ev (f c)) cs.
Proof.
  induction cs as [|c cs IH]; simpl; [reflexivity|].
  now rewrite elements_of_app, IH.
Qed.

Lemma filter_flat_map {B C} (P : C -> bool) (f : B -> list C) (cs : list B) :
  List.filter P (flat_map f cs) = flat_map (fun c => List.filter P (f c)) cs.
Proof.
  induction cs as [|c cs IH]; simpl; [reflexivity|].
  now rewrite List.filter_app, IH.
Qed.

Lemma flat_map_ext_Forall {B C} (f g : B -> list C) (cs : list B) :
  Forall (fun c => f c = g c) cs -> flat_map f cs = flat_map g cs.
Proof. induction 1 as [|c cs H _ IH]; simpl; [reflexivity | now rewrite H, IH]. Qed.

Lemma elements_of_opening ev el :
  elements_of ev (opening tags events el)
  = if String.eqb "start" ev && wanted tags events "start" el then [el] else [].
Proof.
  unfold opening, elements_of.
  destruct (wanted tags events "start" el); cbn [List.filter fst].
  - rewrite andb_true_r. destruct (String.eqb "start" ev); reflexivity.
  - now rewrite andb_false_r.
Qed.

Lemma elements_of_closing ev el :
  elements_of ev (closing tags events el)
  = if String.eqb "end" ev && wanted tags events "end" el then [el] else [].
Proof.
  unfold closing, elements_of.
  destruct (wanted tags events "end" el); cbn [List.filter fst].
  - rewrite andb_true_r. destruct (String.eqb "end" ev); reflexivity.
  - now rewrite andb_false_r.
Qed.

Lemma descendants_unfold el :
  descendants el = flat_map (fun c => c :: descendants c) (children el).
Proof. destruct el; reflexivity. Qed.

Lemma descendants_post_unfold el :
  descendants_post el = flat_map (fun c => descendants_post c ++ [c]) (children el).
Proof. destruct el; reflexivity. Qed.

Lemma starts_of_subtree el :
  elements_of "start" (subtree_events tags events el)
  = List.filter (wanted tags events "start") (el :: descendants el).
Proof.
  induction el as [t a x cs IH] using element_ind'.
  unfold subtree_events. rewrite recursiveiterator_unfold.
  rewrite !elements_of_app, elements_of_opening, elements_of_closing.
  rewrite elements_of_flat_map, descendants_unfold.
  cbn [children String.eqb Ascii.eqb Bool.eqb andb app List.filter].
  rewrite app_nil_r, filter_flat_map.
  rewrite (flat_map_ext_Forall _ _ cs IH).
  destruct (wanted tags events "start" (Element t a x cs)); reflexivity.
Qed.

Lemma ends_of_subtree el :
  elements_of "end" (subtree_events tags events el)
  = List.filter (wanted tags events "end") (descendants_post el ++ [el]).
Proof.
  induction el as [t a x cs IH] using element_ind'.
  unfold subtree_events. rewrite recursiveiterator_unfold.
  rewrite !elements_of_app, elements_of_opening, elements_of_closing.
  rewrite elements_of_flat_map, descendants_post_unfold.
  cbn [children String.eqb Ascii.eqb Bool.eqb andb app].
  rewrite List.filter_app, filter_flat_map.
  rewrite (flat_map_ext_Forall _ _ cs IH).
  cbn [List.filter].
  destruct (wanted tags events "end" (Element t a x cs)); reflexivity.
Qed.

Lemma event_names_of_subtree el :
  Forall (fun e => fst e = "start" \/ fst e = "end") (subtree_events tags events el).
Proof.
  induction el as [t a x cs IH] using element_ind'.
  unfold subtree_events. rewrite recursiveiterator_unfold.
  apply Forall_app. split; [|apply Forall_app; split].
  - unfold opening. destruct (wanted _ _ _ _); constructor; [now left | constructor].
  - cbn [children]. induction IH as [|c cs H _ IH']; simpl; [constructor|].
    apply Forall_app. split; [exact H | exact IH'].
  - unfold closing. destruct (wanted _ _ _ _); constructor; [now right | constructor].
Qed.

End WalkEvents.

Section WalkersAgree.
Import Xml Rdfxml Orig Pending.

(** Both walkers, restated for the proofs below: the loop of [iterwalk]
    ends with the events of the subtrees of the root's children. *)
Lemma iterwalk_events root events tags k :
  iterwalk (walk_steps root + k) root events tags
  = (flat_map (subtree_events (norm_tags tags) (norm_events events)) (children root),
     Exhausted).
Proof.
  unfold iterwalk. rewrite iterwalk_iterator_pending.
  - simpl. now rewrite app_nil_r.
  - cbn [pending_steps]. rewrite walk_steps_unfold. lia.
Qed.

Lemma iterwalk1_events root events tags :
  iterwalk1 root events tags
  = (flat_map (subtree_events (norm_tags tags) (norm_events events)) (children root),
     Exhausted).
Proof. unfold iterwalk1. now rewrite recursiveiterator_root. Qed.

End WalkersAgree.

(** X1: the start events of either walker name the elements below the
    root that pass the filter, each once, in document order; the end events
    name them in the order their subtrees are left; no other event is
    yielded, so only elements below the root are reported. *)
Theorem walkers_report_descendants_in_order
    (root : Xml.element) (events : option (list string))
    (tags : Orig.tags_arg) (k : nat) :
  let T := Orig.norm_tags tags in
  let E := Orig.norm_events events in
  let evs := fst (Orig.iterwalk (Orig.walk_steps root + k) root events tags) in
  let evs1 := fst (Orig.iterwalk1 root events tags) in
  Walks.elements_of "start" evs
    = List.filter (Orig.wanted T E "start") (Rdfxml.descendants root)
  /\ Walks.elements_of "end" evs
    = List.filter (Orig.wanted T E "end") (Walks.descendants_post root)
  /\ Forall (fun e => fst e = "start" \/ fst e = "end") evs
  /\ evs1 = evs.
Proof.
  cbv zeta. rewrite iterwalk_events, iterwalk1_events. cbn [fst].
  repeat split.
  - rewrite elements_of_flat_map, descendants_unfold, filter_flat_map.
    apply flat_map_ext_Forall, List.Forall_forall. intros c _.
    apply starts_of_subtree.
  - rewrite elements_of_flat_map, descendants_post_unfold, filter_flat_map.
    apply flat_map_ext_Forall, List.Forall_forall. intros c _.
    apply ends_of_subtree.
  - apply List.Forall_forall. intros e He. apply in_flat_map in He as (c & _ & He).
    pose proof (event_names_of_subtree (Orig.norm_tags tags) (Orig.norm_events events) c) as H.
    rewrite List.Forall_forall in H. now apply H.
Qed.

Section Brackets.
Import Xml Rdfxml Orig Pending Walks.

Lemma balanced_app evs1 evs2 :
  balanced evs1 -> balanced evs2 -> balanced (evs1 ++ evs2).
Proof.
  induction 1 as [|el inner rest Hin _ _ IH]; intros H2; [exact H2|].
  cbn [app]. rewrite <- app_assoc. cbn [app].
  constructor; [assumption | now apply IH].
Qed.

Lemma balanced_flat_map {B} (f : B -> list walk_event) (cs : list B) :
  Forall (fun c => balanced (f c)) cs -> balanced (flat_map f cs).
Proof.
  induction 1 as [|c cs H _ IH]; simpl; [constructor | now apply balanced_app].
Qed.

Lemma balanced_subtree tags events el :
  tag_in "start" events = true -> tag_in "end" events = true ->
  balanced (subtree_events tags events el).
Proof.
  intros Hs He. induction el as [t a x cs IH] using element_ind'.
  unfold subtree_events. rewrite recursiveiterator_unfold.
  unfold opening, closing, wanted. rewrite Hs, He, !andb_true_r.
  cbn [children].
  destruct (match tags with [] => true | _ :: _ => tag_in (tag (Element t a x cs)) tags end).
  - cbn [app]. rewrite <- (app_nil_r [("end", Element t a x cs)]).
    change ([("end", Element t a x cs)] ++ [])
      with (("end", Element t a x cs) :: @nil walk_event).
    constructor; [now apply balanced_flat_map | constructor].
  - cbn [app]. rewrite app_nil_r. now apply balanced_flat_map.
Qed.

End Brackets.

(** X2: when both events are asked for, the events of the walkers are
    well-bracketed for every tags filter: each end closes the most recent
    open start, of the same element. *)
Theorem walkers_events_well_bracketed
    (root : Xml.element) (events : option (list string))
    (tags : Orig.tags_arg) (k : nat) :
  Xml.tag_in "start" (Orig.norm_events events) = true ->
  Xml.tag_in "end" (Orig.norm_events events) = true ->
  Walks.balanced (fst (Orig.iterwalk (Orig.walk_steps root + k) root events tags))
  /\ Walks.balanced (fst (Orig.iterwalk1 root events tags)).
Proof.
  intros Hs He. rewrite iterwalk_events, iterwalk1_events. cbn [fst].
  assert (H : Walks.balanced
                (flat_map (Pending.subtree_events (Orig.norm_tags tags)
                             (Orig.norm_events events)) (Xml.children root))).
  { apply balanced_flat_map, List.Forall_forall. intros c _.
    now apply balanced_subtree. }
  now split.
Qed.

Lemma walkers_events_well_bracketed_witness :
  Xml.tag_in "start" (Orig.norm_events None) = true
  /\ Xml.tag_in "end" (Orig.norm_events None) = true
  /\ Walks.balanced
       (fst (Orig.iterwalk (Orig.walk_steps Sample.heading_module_x + 0)
               Sample.heading_module_x None
               (Orig.TagsList [Rdfxml.childBindings_tag; Rdfxml.Binding_tag])))
  /\ Walks.balanced
       (fst (Orig.iterwalk1 Sample.heading_module_x None
               (Orig.TagsList [Rdfxml.childBindings_tag; Rdfxml.Binding_tag]))).
Proof.
  assert (H1 : Xml.tag_in "start" (Orig.norm_events None) = true) by reflexivity.
  assert (H2 : Xml.tag_in "end" (Orig.norm_events None) = true) by reflexivity.
  split; [exact H1|]. split; [exact H2|].
  exact (walkers_events_well_bracketed Sample.heading_module_x None
           (Orig.TagsList [Rdfxml.childBindings_tag; Rdfxml.Binding_tag]) 0 H1 H2).
Defined.

(** ** The slot after the append *)

Section SlotStable.
Import Xml Rdfxml Slots.

Lemma tag_append_at p new doc : tag (append_at p new doc) = tag doc.
Proof. destruct p, doc; reflexivity. Qed.

Lemma findall_step_alter (F : element -> element) (t : string) (path : list string) :
  (forall c, tag (F c) = tag c) ->
  (forall c, findall path (F c) = findall path c) ->
  forall cs i (g : nat -> nat),
    flat_map
      (fun ic : nat * element =>
         if String.eqb (tag (snd ic)) t
         then map (cons (fst ic)) (findall path (snd ic)) else [])
      (imap (fun j c => (g j, c)) (alter F i cs))
    = flat_map
      (fun ic : nat * element =>
         if String.eqb (tag (snd ic)) t
         then map (cons (fst ic)) (findall path (snd ic)) else [])
      (imap (fun j c => (g j, c)) cs).
Proof.
  intros Htag Hfind. induction cs as [|x cs IH]; intros i g; [reflexivity|].
  destruct i as [|i]; cbn [alter list_alter imap flat_map fst snd].
  - now rewrite Htag, Hfind.
  - f_equal. apply (IH i (fun j => g (S j))).
Qed.

(** An append at depth [length path] or below does not change what the
    path finds. *)
Lemma findall_append_at new : forall path p doc,
  (length path <= length p)%nat ->
  findall path (append_at p new doc) = findall path doc.
Proof.
  induction path as [|t path IH]; intros p doc Hlen; [reflexivity|].
  destruct p as [|i p]; [simpl in Hlen; lia|].
  destruct doc as [t0 a x cs]. cbn [append_at findall children].
  apply (findall_step_alter (append_at p new) t path
           (tag_append_at p new)
           (fun c => IH p c ltac:(simpl in Hlen; lia)) cs i (fun j => j)).
Qed.

End SlotStable.

(** X3: the append does not move the slot.  After the new binding has been
    appended at the slot the lookup of V4 found, the same lookup on the
    changed document returns the same position, and a second binding
    lands in the same container, behind the first. *)
Theorem slot_lookup_stable_under_append
    (doc new1 new2 : Xml.element) (slot : Xml.pos) (cs : list Xml.element) :
  V4.find_insertion_point doc = OK slot ->
  Slots.slot_children doc slot = Some cs ->
  V4.find_insertion_point (Xml.append_at slot new1 doc) = OK slot
  /\ Slots.slot_children
       (Xml.append_at slot new2 (Xml.append_at slot new1 doc)) slot
     = Some (cs ++ [new1; new2]).
Proof.
  intros Hfind Hcs. split.
  - pose proof (V4_find_insertion_point_spec doc) as Hspec.
    rewrite Hfind in Hspec. destruct Hspec as [Hreach _].
    apply reaches_subtree in Hreach as [_ Hlen].
    unfold V4.find_insertion_point, Rdfxml.xml_find_elements in *.
    now rewrite findall_append_at by (unfold V4.insertion_point_xpath; lia).
  - rewrite !slot_children_append_at, Hcs. simpl.
    now rewrite <- app_assoc.
Qed.

Lemma slot_lookup_stable_under_append_witness :
  V4.find_insertion_point Sample.heading_module_x = OK [0; 0; 0; 4]%nat
  /\ Slots.slot_children Sample.heading_module_x [0; 0; 0; 4]%nat
     = Some [Sample.xbinding (Sample.url "t1") false []]
  /\ V4.find_insertion_point
       (Xml.append_at [0; 0; 0; 4]%nat
          (Sample.xbinding (Sample.url "n1") false []) Sample.heading_module_x)
     = OK [0; 0; 0; 4]%nat
  /\ Slots.slot_children
       (Xml.append_at [0; 0; 0; 4]%nat (Sample.xbinding (Sample.url "n2") false [])
          (Xml.append_at [0; 0; 0; 4]%nat
             (Sample.xbinding (Sample.url "n1") false []) Sample.heading_module_x))
       [0; 0; 0; 4]%nat
     = Some ([Sample.xbinding (Sample.url "t1") false []]
             ++ [Sample.xbinding (Sample.url "n1") false [];
                 Sample.xbinding (Sample.url "n2") false []]).
Proof.
  assert (H1 : V4.find_insertion_point Sample.heading_module_x
               = OK [0; 0; 0; 4]%nat) by (vm_compute; reflexivity).
  assert (H2 : Slots.slot_children Sample.heading_module_x [0; 0; 0; 4]%nat
               = Some [Sample.xbinding (Sample.url "t1") false []])
    by (vm_compute; reflexivity).
  split; [exact H1|]. split; [exact H2|].
  exact (slot_lookup_stable_under_append Sample.heading_module_x
           (Sample.xbinding (Sample.url "n1") false [])
           (Sample.xbinding (Sample.url "n2") false [])
           [0; 0; 0; 4]%nat _ H1 H2).
Defined.

Section Frame.
Import Xml Slots.

Lemma subtree_append_at_off_path new : forall p q doc,
  ~ p `prefix_of` q -> ~ q `prefix_of` p ->
  subtree (append_at p new doc) q = subtree doc q.
Proof.
  induction p as [|i p IH]; intros q doc Hpq Hqp.
  - exfalso. apply Hpq. apply prefix_nil.
  - destruct q as [|j q]; [exfalso; apply Hqp, prefix_nil|].
    destruct doc as [t a x cs]. cbn [append_at subtree children].
    destruct (decide (i = j)) as [->|Hne].
    + rewrite list_lookup_alter_eq. destruct (cs !! j) as [c|]; [|reflexivity].
      simpl. apply IH.
      * intros H. apply Hpq. now apply prefix_cons.
      * intros H. apply Hqp. now apply prefix_cons.
    + now rewrite list_lookup_alter_ne.
Qed.

Lemma subtree_append_at_below new : forall p doc slot i r,
  subtree doc p = Some slot -> (i < length (children slot))%nat ->
  subtree (append_at p new doc) (p ++ i :: r) = subtree doc (p ++ i :: r).
Proof.
  induction p as [|j p IH]; intros doc slot i r Hs Hi.
  - simpl in Hs. injection Hs as ->. destruct slot as [t a x cs].
    cbn [append_at subtree children app] in *.
    now rewrite lookup_app_l.
  - destruct doc as [t a x cs]. cbn [subtree children] in Hs.
    cbn [append_at subtree children app].
    rewrite list_lookup_alter_eq. destruct (cs !! j) as [c|]; [|discriminate].
    simpl. now apply (IH c slot).
Qed.

Lemma subtree_append_at_new new : forall p doc slot,
  subtree doc p = Some slot ->
  subtree (append_at p new doc) (p ++ [length (children slot)]) = Some new.
Proof.
  induction p as [|j p IH]; intros doc slot Hs.
  - simpl in Hs. injection Hs as ->. destruct slot as [t a x cs].
    cbn [append_at subtree children app].
    rewrite lookup_app_r by lia. now rewrite Nat.sub_diag.
  - destruct doc as [t a x cs]. cbn [subtree children] in Hs.
    cbn [append_at subtree children app].
    rewrite list_lookup_alter_eq. destruct (cs !! j) as [c|]; [|discriminate].
    simpl. now apply (IH c slot).
Qed.

End Frame.

(** X4: the append changes nothing but the slot and its ancestors, for
    every slot, an empty one and the root included.  Afterwards the new
    element sits at the first free index of the slot; every position inside
    one of the children the slot already had holds the same subtree; and so
    does every position that neither lies on the way to the slot nor below
    it. *)
Theorem append_leaves_rest_of_document
    (doc new slot : Xml.element) (p : Xml.pos) :
  Xml.subtree doc p = Some slot ->
  Xml.subtree (Xml.append_at p new doc) (p ++ [length (Xml.children slot)])
  = Some new
  /\ (forall (i : nat) (r : Xml.pos),
        (i < length (Xml.children slot))%nat ->
        Xml.subtree (Xml.append_at p new doc) (p ++ i :: r)
        = Xml.subtree doc (p ++ i :: r))
  /\ (forall q : Xml.pos,
        ~ p `prefix_of` q -> ~ q `prefix_of` p ->
        Xml.subtree (Xml.append_at p new doc) q = Xml.subtree doc q).
Proof.
  intros Hs. split; [|split].
  - now apply subtree_append_at_new.
  - intros i r Hi. now apply (subtree_append_at_below new p doc slot).
  - intros q Hpq Hqp. now apply subtree_append_at_off_path.
Qed.

Lemma append_leaves_rest_of_document_witness :
  Xml.subtree Sample.empty_module_x [0; 0]%nat
  = Some (Xml.Element Rdfxml.childBindings_tag [] None [])
  /\ Xml.subtree
       (Xml.append_at [0; 0]%nat Sample.no_element Sample.empty_module_x)
       ([0; 0]%nat
          ++ [length (Xml.children
                        (Xml.Element Rdfxml.childBindings_tag [] None []))])
     = Some Sample.no_element
  /\ (forall (i : nat) (r : Xml.pos),
        (i < length (Xml.children
                       (Xml.Element Rdfxml.childBindings_tag [] None [])))%nat ->
        Xml.subtree
          (Xml.append_at [0; 0]%nat Sample.no_element Sample.empty_module_x)
          ([0; 0]%nat ++ i :: r)
        = Xml.subtree Sample.empty_module_x ([0; 0]%nat ++ i :: r))
  /\ (forall q : Xml.pos,
        ~ [0; 0]%nat `prefix_of` q -> ~ q `prefix_of` [0; 0]%nat ->
        Xml.subtree
          (Xml.append_at [0; 0]%nat Sample.no_element Sample.empty_module_x) q
        = Xml.subtree Sample.empty_module_x q).
Proof.
  assert (H1 : Xml.subtree Sample.empty_module_x [0; 0]%nat
               = Some (Xml.Element Rdfxml.childBindings_tag [] None []))
    by (vm_compute; reflexivity).
  split; [exact H1|].
  exact (append_leaves_rest_of_document Sample.empty_module_x Sample.no_element _
           [0; 0]%nat H1).
Defined.

(** ** The table of records *)

Section ScanFacts.
Import Orig.

Lemma scan_snoc (j : list Json.binding) (s : Json.binding) :
  scan (j ++ [s])
  = do entries <- scan j;
    do u <- getitem "uri" (Json.uri s);
    OK (<[u := s]> entries).
Proof. unfold scan. now rewrite fold_left_app. Qed.

Lemma scan_spec (j : list Json.binding) :
  match scan j with
  | OK entries =>
      forall u, entries !! u = last (filter (fun s => Json.uri s = Some u) j)
  | Err e =>
      e = KeyError "uri" /\ exists s, s ∈ j /\ Json.uri s = None
  end.
Proof.
  induction j as [|s j IH] using rev_ind.
  - intros u. reflexivity.
  - rewrite scan_snoc. destruct (scan j) as [entries|e]; simpl.
    + destruct (Json.uri s) as [v|] eqn:Ev; simpl.
      * intros u. rewrite filter_app, filter_cons, filter_nil.
        destruct (decide (Json.uri s = Some u)) as [Hu|Hu].
        -- rewrite last_snoc. rewrite Ev in Hu. injection Hu as ->.
           apply lookup_insert_eq.
        -- rewrite app_nil_r, <- IH. apply lookup_insert_ne. congruence.
      * split; [reflexivity|]. exists s. split; [set_solver | exact Ev].
    + destruct IH as [-> (s' & Hin & Hs')]. split; [reflexivity|].
      exists s'. split; [set_solver | exact Hs'].
Qed.

End ScanFacts.

(** X5: the table built from the list of records (lines 622-624) maps
    every URL to the last record of the list that carries it, so a later
    record shadows an earlier one with the same URL and a URL no record
    carries is absent; building the table fails, with KeyError('uri'),
    only when some record has no "uri" key. *)
Theorem scan_maps_url_to_last_record (modstructure_j : list Json.binding) :
  match Orig.scan modstructure_j with
  | OK entries =>
      forall u,
        entries !! u
        = last (filter (fun s => Json.uri s = Some u) modstructure_j)
  | Err e =>
      e = KeyError "uri"
      /\ exists s, s ∈ modstructure_j /\ Json.uri s = None
  end.
Proof. apply scan_spec. Qed.

(** ** What a completed numbering loop implies *)

Section TrackingFacts.
Import Outline Nesting Tracking.

Lemma bump_ok_inv b hl hl' :
  bump b hl = OK hl' -> hl <> [] /\ length hl' = length hl.
Proof.
  intros H. destruct hl as [|c hl].
  - destruct b; discriminate.
  - split; [discriminate|].
    destruct (bump_nonempty b (c :: hl)) as (hl2 & E & Hlen); [discriminate|].
    congruence.
Qed.

Lemma py_pop_ok_inv {A} (l l' : list A) :
  py_pop l = OK l' -> length l = S (length l').
Proof.
  destruct l as [|x l]; [discriminate|].
  destruct (@exists_last _ (x :: l) ltac:(discriminate)) as (l0 & y & E).
  rewrite E, py_pop_snoc. intros [= <-]. rewrite length_app. simpl. lia.
Qed.

Lemma report_ok_inv b id summary st st' :
  report b id summary st = OK st' ->
  headinglevel st <> []
  /\ length (headinglevel st') = length (headinglevel st)
  /\ level st' = level st
  /\ length (printed st') = S (length (printed st)).
Proof.
  unfold report. destruct (bump b (headinglevel st)) as [hl|e] eqn:E; [|discriminate].
  simpl. intros [= <-]. apply bump_ok_inv in E as [Hne Hlen].
  cbn [headinglevel level printed]. rewrite length_app. simpl.
  repeat split; [assumption | assumption | lia].
Qed.

Context {A : Type} (body : state -> A -> result state) (eff : A -> effect).
Hypothesis body_tracks : tracks body eff.

Lemma for_each_tracks evs : forall st st',
  for_each body evs st = OK st' ->
  nesting (length (headinglevel st)) (map eff evs)
  = Some (length (headinglevel st'))
  /\ level st' - level st
     = Z.of_nat (length (headinglevel st')) - Z.of_nat (length (headinglevel st))
  /\ length (printed st')
     = (length (printed st)
        + length (List.filter (fun ev => is_visit (eff ev)) evs))%nat.
Proof.
  induction evs as [|ev evs IH]; intros st st' H; simpl in H.
  - injection H as <-. simpl. repeat split; lia.
  - destruct (body st ev) as [st1|e] eqn:E1; [|discriminate]. simpl in H.
    destruct (body_tracks st ev st1 E1) as (N1 & L1 & P1).
    destruct (IH st1 st' H) as (N2 & L2 & P2).
    cbn [map nesting List.filter]. rewrite N1. split; [exact N2|].
    split; [lia|].
    destruct (is_visit (eff ev)); simpl; lia.
Qed.

Lemma for_each_tracked evs st :
  for_each body evs initial = OK st -> tracked eff evs st.
Proof.
  intros H. destruct (for_each_tracks evs initial st H) as (N & L & P).
  simpl in *. repeat split; [exact N | lia | exact P].
Qed.

End TrackingFacts.

Section LoopsTrack.
Import Xml Rdfxml Orig Outline Nesting Tracking JsonShape XmlShape.

Lemma jvisit_tracks baseurl artifact : tracks (jvisit baseurl artifact) jeffect.
Proof.
  intros st [event el] st' H. unfold jvisit in H. unfold jeffect. cbn [fst].
  destruct event.
  - (* start *)
    simpl in H.
    destruct (Json.isHeading el) as [b|]; [|discriminate]. simpl in H.
    destruct (Json.uri el) as [u|]; [|discriminate]. simpl in H.
    destruct (String.prefix baseurl u); [|discriminate].
    destruct (artifact u) as [summary id].
    apply report_ok_inv in H as (Hne & Hlen & Hlev & Hpr).
    destruct (headinglevel st) as [|c hl] eqn:Ehl; [congruence|].
    cbn [nesting_step is_visit]. rewrite Hlen. simpl length.
    repeat split; lia.
  - (* startChildren *)
    simpl in H. destruct (Json.isHeading el); [|discriminate].
    injection H as <-. cbn. rewrite length_app. simpl.
    repeat split; [f_equal; lia | lia | lia].
  - (* endChildren *)
    cbn [bind] in H. unfold leave in H.
    destruct (py_pop (headinglevel st)) as [hl|e] eqn:Ep; [|discriminate].
    simpl in H. destruct (Json.isHeading el); [|discriminate].
    injection H as <-. apply py_pop_ok_inv in Ep.
    cbn [headinglevel level printed is_visit]. rewrite Ep.
    cbn [nesting_step]. repeat split; lia.
  - (* end *)
    simpl in H. destruct (Json.isHeading el); [|discriminate].
    injection H as <-. cbn [nesting_step is_visit]. repeat split; lia.
Qed.

End LoopsTrack.

Section XmlLoopTracks.
Import Xml Rdfxml Orig Outline Nesting Tracking JsonShape XmlShape.

Lemma xvisit_tracks baseurl artifact : tracks (xvisit baseurl artifact) xeffect.
Proof.
  intros st [event el] st' H. unfold xvisit in H. unfold xeffect.
  destruct (String.eqb (tag el) childBindings_tag) eqn:Ecb.
  - assert (Enb : String.eqb (tag el) Binding_tag = false).
    { apply String.eqb_eq in Ecb. rewrite Ecb. reflexivity. }
    rewrite Enb in H.
    destruct (String.eqb event "start") eqn:Es.
    + apply String.eqb_eq in Es. subst event. simpl in H. injection H as <-.
      cbn. rewrite length_app. simpl. repeat split; [f_equal; lia | lia | lia].
    + destruct (String.eqb event "end") eqn:Ee.
      * unfold leave in H.
        destruct (py_pop (headinglevel st)) as [hl|e] eqn:Ep; [|discriminate].
        simpl in H. injection H as <-. apply py_pop_ok_inv in Ep.
        cbn [headinglevel level printed is_visit]. rewrite Ep.
        cbn [nesting_step]. repeat split; lia.
      * simpl in H. injection H as <-. cbn [nesting_step is_visit].
        repeat split; lia.
  - simpl in H.
    destruct (String.eqb (tag el) Binding_tag) eqn:Eb.
    + destruct (String.eqb event "start") eqn:Es.
      * destruct (xmlrdf_get_resource_uri el boundArtifact_tag) as [ba_u|];
          [|discriminate].
        destruct (negb (String.eqb ba_u "") && String.prefix baseurl ba_u);
          [|discriminate].
        destruct (artifact ba_u) as [summary id].
        apply report_ok_inv in H as (Hne & Hlen & Hlev & Hpr).
        destruct (headinglevel st) as [|c hl] eqn:Ehl; [congruence|].
        cbn [nesting_step is_visit]. rewrite Hlen. simpl length.
        repeat split; lia.
      * injection H as <-. cbn [nesting_step is_visit]. repeat split; lia.
    + injection H as <-. cbn [nesting_step is_visit]. repeat split; lia.
Qed.

End XmlLoopTracks.

(** X6: whatever events it is given, a numbering loop that completes has
    seen properly nested events (no visit and no end of a level on an empty
    counter stack), ends with [level] equal to the depth of the counter
    stack, and has printed exactly one line per visited binding; for the
    loop over the flat-list walk and for the loop over the markup walk. *)
Theorem completed_loop_was_nested
    (baseurl : string) (artifact : string -> string * string)
    (jevs : list Orig.jwalk_event) (xevs : list Orig.walk_event) :
  match Outline.for_each (Orig.jvisit baseurl artifact) jevs Outline.initial with
  | OK st => Tracking.tracked JsonShape.jeffect jevs st
  | Err _ => True
  end
  /\ match Outline.for_each (Orig.xvisit baseurl artifact) xevs Outline.initial with
     | OK st => Tracking.tracked XmlShape.xeffect xevs st
     | Err _ => True
     end.
Proof.
  split.
  - destruct (Outline.for_each _ jevs _) as [st|e] eqn:E; [|exact I].
    exact (for_each_tracked _ _ (jvisit_tracks baseurl artifact) jevs st E).
  - destruct (Outline.for_each _ xevs _) as [st|e] eqn:E; [|exact I].
    exact (for_each_tracked _ _ (xvisit_tracks baseurl artifact) xevs st E).
Qed.

(** ** Numbering a run of bindings at one level *)

Section FlatFacts.
Import Xml Rdfxml Orig Outline Nesting XmlShape Sample FlatNumbering.
Variable baseurl : string.
Variable artifact : string -> string * string.

Lemma artifact_url_not_empty about : String.eqb (about +:+ "/artifact") "" = false.
Proof. destruct about; reflexivity. Qed.

Lemma xsubtree_leaf about h :
  xsubtree (xbinding about h [])
  = [ ("start", xbinding about h []);
      ("start", Element childBindings_tag [] None []);
      ("end", Element childBindings_tag [] None []);
      ("end", xbinding about h []) ].
Proof. reflexivity. Qed.

Lemma xvisit_start_binding about h kids st :
  String.prefix baseurl (about +:+ "/artifact") = true ->
  xvisit baseurl artifact st ("start", xbinding about h kids)
  = report h (snd (artifact (about +:+ "/artifact")))
      (fst (artifact (about +:+ "/artifact"))) st.
Proof.
  intros Hp. unfold xvisit.
  change (String.eqb (tag (xbinding about h kids)) childBindings_tag) with false.
  change (String.eqb (tag (xbinding about h kids)) Binding_tag) with true.
  change (String.eqb "start" "start") with true.
  cbn [bind].
  change (xmlrdf_get_resource_uri (xbinding about h kids) boundArtifact_tag)
    with (Some (about +:+ "/artifact")).
  cbv beta iota.
  rewrite artifact_url_not_empty, Hp. cbn [negb andb].
  change (xmlrdf_get_resource_text (xbinding about h kids) isHeading_tag)
    with (Some (if h then "true" else "false")).
  destruct (artifact (about +:+ "/artifact")) as [summary id]. cbn [fst snd].
  destruct h; reflexivity.
Qed.


Lemma for_each_app {A} (body : state -> A -> result state) (evs1 evs2 : list A) st :
  for_each body (evs1 ++ evs2) st
  = do st1 <- for_each body evs1 st; for_each body evs2 st1.
Proof.
  revert st. induction evs1 as [|e evs1 IH]; intros st; simpl; [reflexivity|].
  destruct (body st e); simpl; [apply IH | reflexivity].
Qed.

Lemma section_of_heading hn : Numbering.getsectionnumber [(hn, 0)] = fmt_int hn.
Proof. reflexivity. Qed.

Lemma section_of_text hn tn :
  tn <> 0 ->
  Numbering.getsectionnumber [(hn, tn)] = fmt_int hn +:+ "-" +:+ fmt_int tn.
Proof.
  intros Hne. unfold Numbering.getsectionnumber. cbn [fold_left].
  apply Z.eqb_neq in Hne. rewrite Hne. reflexivity.
Qed.

(** One binding without children, visited at the top level. *)
Lemma run_leaf about h st hn tn :
  String.prefix baseurl (about +:+ "/artifact") = true ->
  headinglevel st = [(hn, tn)] ->
  exists st',
    for_each (xvisit baseurl artifact) (xsubtree (xbinding about h [])) st = OK st'
    /\ headinglevel st' = [if h then (hn + 1, 0) else (hn, tn + 1)]
    /\ level st' = level st
    /\ map line_section (printed st')
       = map line_section (printed st)
         ++ [Numbering.getsectionnumber [if h then (hn + 1, 0) else (hn, tn + 1)]].
Proof.
  intros Hp Hhl. rewrite xsubtree_leaf. cbn [for_each].
  rewrite (xvisit_start_binding about h [] st Hp).
  unfold report. rewrite Hhl.
  assert (Hb : bump h [(hn, tn)] = OK [if h then (hn + 1, 0) else (hn, tn + 1)]).
  { destruct h; [apply (bump_heading []) | apply (bump_text [])]. }
  rewrite Hb. cbn [bind].
  set (c := if h then (hn + 1, 0) else (hn, tn + 1)).
  match goal with |- context [xvisit baseurl artifact ?s1 ("start", Element childBindings_tag [] None [])] =>
    change (xvisit baseurl artifact s1 ("start", Element childBindings_tag [] None []))
      with (OK (enter s1));
    cbn [bind];
    change (xvisit baseurl artifact (enter s1) ("end", Element childBindings_tag [] None []))
      with (do st2 <- leave (enter s1); OK st2)
  end.
  unfold leave. cbn [enter headinglevel app].
  change (py_pop [c; (0, 0)]) with (OK [c]). cbn [bind level printed].
  match goal with |- context [xvisit baseurl artifact ?s2 ("end", xbinding about h [])] =>
    change (xvisit baseurl artifact s2 ("end", xbinding about h [])) with (OK s2)
  end.
  cbn [bind]. eexists. split; [reflexivity|].
  cbn [headinglevel level printed enter].
  rewrite map_app. split; [reflexivity|]. split; [lia | reflexivity].
Qed.

Lemma run_leaves (items : list (string * bool)) : forall st hn tn,
  0 <= tn ->
  Forall (fun it => String.prefix baseurl (fst it +:+ "/artifact") = true) items ->
  headinglevel st = [(hn, tn)] ->
  exists st',
    for_each (xvisit baseurl artifact)
      (flat_map xsubtree (map (fun it => xbinding (fst it) (snd it) []) items)) st
    = OK st'
    /\ length (headinglevel st') = 1%nat
    /\ level st' = level st
    /\ map line_section (printed st')
       = map line_section (printed st) ++ flat_sections hn tn (map snd items).
Proof.
  induction items as [|[about h] items IH]; intros st hn tn Htn Hall Hhl.
  - exists st. simpl. rewrite Hhl, app_nil_r. repeat split; reflexivity.
  - inversion Hall as [|? ? Hp Hrest]; subst. cbn [fst snd] in Hp.
    cbn [map flat_map fst snd]. rewrite for_each_app.
    destruct (run_leaf about h st hn tn Hp Hhl) as (st1 & E1 & Hhl1 & Hlev1 & Hpr1).
    rewrite E1. cbn [bind].
    destruct h.
    + destruct (IH st1 (hn + 1) 0 ltac:(lia) Hrest Hhl1)
        as (st' & E' & Hlen & Hlev & Hpr).
      exists st'. split; [exact E'|]. split; [exact Hlen|]. split; [congruence|].
      rewrite Hpr, Hpr1, section_of_heading, <- app_assoc. reflexivity.
    + destruct (IH st1 hn (tn + 1) ltac:(lia) Hrest Hhl1)
        as (st' & E' & Hlen & Hlev & Hpr).
      exists st'. split; [exact E'|]. split; [exact Hlen|]. split; [congruence|].
      rewrite Hpr, Hpr1, section_of_text by lia. rewrite <- app_assoc. reflexivity.
Qed.

End FlatFacts.

(** X7: for a root whose container holds any run of bindings without
    children, the outline of the markup form prints, in order, the next
    heading number for each heading and, for each text, the number of the
    last heading before it (0 when there is none) followed by a dash and
    its rank among the texts since that heading. *)
Theorem flat_module_sections
    (baseurl : string) (artifact : string -> string * string)
    (items : list (string * bool)) :
  Forall (fun it => String.prefix baseurl (fst it +:+ "/artifact") = true) items ->
  Outline.sections
    (Orig.outline_xml baseurl artifact
       (Sample.xroot (map (fun it => Sample.xbinding (fst it) (snd it) []) items)))
  = FlatNumbering.flat_sections 0 0 (map snd items).
Proof.
  intros Hall. unfold Orig.outline_xml, Outline.for_gen.
  rewrite iterwalk1_events. cbn [fst snd].
  set (kids := map _ items).
  set (container := Xml.Element Rdfxml.childBindings_tag [] None kids).
  change (Xml.children (Sample.xroot kids)) with [container].
  cbn [flat_map]. rewrite app_nil_r.
  unfold Pending.subtree_events at 1. rewrite recursiveiterator_unfold.
  change (Pending.opening _ _ container) with [("start", container)].
  change (Pending.closing _ _ container) with [("end", container)].
  change (Pending.subtree_events _ _) with XmlShape.xsubtree.
  change (Xml.children container) with kids.
  rewrite !for_each_app.
  change (Outline.for_each (Orig.xvisit baseurl artifact)
            [("start", container)] Outline.initial)
    with (OK (Outline.enter Outline.initial)).
  cbn [bind].
  destruct (run_leaves baseurl artifact items (Outline.enter Outline.initial) 0 0
              ltac:(lia) Hall eq_refl) as (st' & E & Hlen & Hlev & Hpr).
  subst kids. rewrite for_each_app, E. cbn [bind Outline.for_each].
  destruct (Outline.headinglevel st') as [|c [|? ?]] eqn:Ehl; try discriminate.
  change (Orig.xvisit baseurl artifact st' ("end", container))
    with (do st2 <- Outline.leave st'; OK st2).
  unfold Outline.leave. rewrite Ehl. cbn. exact Hpr.
Qed.

Lemma flat_module_sections_witness :
  Forall (fun it => String.prefix Sample.baseurl (fst it +:+ "/artifact") = true)
    [(Sample.url "t0", false); (Sample.url "h1", true); (Sample.url "t1", false)]
  /\ Outline.sections
       (Orig.outline_xml Sample.baseurl Sample.artifact
          (Sample.xroot
             (map (fun it => Sample.xbinding (fst it) (snd it) [])
                [(Sample.url "t0", false); (Sample.url "h1", true);
                 (Sample.url "t1", false)])))
     = FlatNumbering.flat_sections 0 0
         (map snd [(Sample.url "t0", false); (Sample.url "h1", true);
                   (Sample.url "t1", false)]).
Proof.
  assert (H : Forall (fun it => String.prefix Sample.baseurl (fst it +:+ "/artifact") = true)
                [(Sample.url "t0", false); (Sample.url "h1", true);
                 (Sample.url "t1", false)])
    by (repeat constructor).
  split; [exact H|].
  exact (flat_module_sections Sample.baseurl Sample.artifact _ H).
Defined.

(** ** Binding: what the server is asked *)

Section BindTraces.
Import Xml Rdfxml Http Common Trace.

Lemma run_wait_if_pending {A} (response : reply) (a : A) replies :
  exists tail,
    run (wait_if_pending response (Ret a)) replies = (Returned a, tail) /\ puts tail = []
    \/ run (wait_if_pending response (Ret a)) replies = (Starved, tail) /\ puts tail = [].
Proof.
  unfold wait_if_pending.
  destruct (location response) as [loc|]; [|exists []; left; split; reflexivity].
  destruct ((status_code response =? 202) && negb (String.eqb loc ""));
    [|exists []; left; split; reflexivity].
  destruct replies as [|r replies]; simpl.
  - exists [WaitForTracker loc]. right. split; reflexivity.
  - exists [WaitForTracker loc]. left. split; reflexivity.
Qed.

End BindTraces.

(** The updates of a run of [bind_artifact_to_module] of V4. *)
Lemma V4_bind_updates
    (fromstring : string -> option Xml.element)
    (RDF_DEFAULT_PREFIX : string -> string)
    (project_uri module_uri artifact_uri : string) (replies : list Http.reply) :
  let run := Http.run (V4.bind_artifact_to_module fromstring RDF_DEFAULT_PREFIX project_uri
                         module_uri artifact_uri) replies in
  (length (Trace.puts (snd run)) <= 1)%nat
  /\ match fst run with
     | Http.Returned _ =>
         exists r0 r1 r2 rest slot new_binding_xml,
           replies = r0 :: r1 :: r2 :: rest
           /\ V4.find_insertion_point (Http.xml r1) = OK slot
           /\ fromstring
                (Common.new_binding_text RDF_DEFAULT_PREFIX EmptyString project_uri
                   artifact_uri module_uri) = Some new_binding_xml
           /\ Common.rejected (Http.status_code r2) = false
           /\ Trace.puts (snd run)
              = [Http.PutRdfXml
                   (Rdfxml.xmlrdf_get_resource_uri_desc (Http.xml r0) Rdfxml.structure_tag)
                   (Xml.append_at slot new_binding_xml (Http.xml r1))
                   (Http.etag r1)]
     | Http.Raised (ValueError _) | Http.Raised XMLSyntaxError =>
         Trace.puts (snd run) = []
     | Http.Exited _ => False
     | _ => True
     end.
Proof.
  cbv zeta.
  destruct replies as [|r0 [|r1 [|r2 rest]]].
  - split; [simpl; lia | exact I].
  - split; [simpl; lia | exact I].
  - unfold V4.bind_artifact_to_module. cbn [Http.run Http.pbind Http.lift].
    destruct (V4.find_insertion_point (Http.xml r1)) as [slot|e] eqn:Ef;
      cbn [Http.run Http.pbind Http.lift fst snd].
    + unfold Common.parse. destruct (fromstring _) as [new_binding_xml|];
        cbn [Http.run Http.pbind Http.lift fst snd].
      * split; [simpl; lia | exact I].
      * split; [simpl; lia | reflexivity].
    + split; [simpl; lia|]. destruct e; try exact I; reflexivity.
  - rewrite V4_bind_run. cbv zeta.
    destruct (V4.find_insertion_point (Http.xml r1)) as [slot|e] eqn:Ef.
    + unfold Common.parse.
      destruct (fromstring _) as [new_binding_xml|] eqn:Ep.
      * destruct (Common.rejected (Http.status_code r2)) eqn:Er.
        -- cbn [fst snd]. split; [simpl; lia|]. exact I.
        -- destruct (run_wait_if_pending r2 tt rest) as (tail & [[E Hp]|[E Hp]]);
             rewrite E; cbn [fst snd].
           ++ unfold Trace.puts in *. cbn [List.filter app Trace.is_put].
              rewrite Hp. split; [simpl; lia|].
              exists r0, r1, r2, rest, slot, new_binding_xml.
              repeat split; assumption.
           ++ unfold Trace.puts in *. cbn [List.filter app Trace.is_put].
              rewrite Hp. split; [simpl; lia | exact I].
      * cbn [fst snd]. split; [simpl; lia | reflexivity].
    + cbn [fst snd]. split; [simpl; lia|]. destruct e; try exact I; reflexivity.
Qed.

(** The same for [bind_artifact_to_module_structure] of V2, whose lookup
    of the slot fails with IndexError. *)
Lemma V2_bind_updates
    (fromstring : string -> option Xml.element)
    (RDF_DEFAULT_PREFIX : string -> string)
    (project_uri module_uri artifact_uri : string) (replies : list Http.reply) :
  let run := Http.run (V2.bind_artifact_to_module_structure fromstring RDF_DEFAULT_PREFIX project_uri
                         module_uri artifact_uri) replies in
  (length (Trace.puts (snd run)) <= 1)%nat
  /\ match fst run with
     | Http.Returned _ =>
         exists r0 r1 r2 rest slot new_binding_xml,
           replies = r0 :: r1 :: r2 :: rest
           /\ V2.first_child_bindings (Http.xml r1) = OK slot
           /\ fromstring
                (Common.new_binding_text RDF_DEFAULT_PREFIX EmptyString project_uri
                   artifact_uri module_uri) = Some new_binding_xml
           /\ Common.rejected (Http.status_code r2) = false
           /\ Trace.puts (snd run)
              = [Http.PutRdfXml
                   (Rdfxml.xmlrdf_get_resource_uri_desc (Http.xml r0) Rdfxml.structure_tag)
                   (Xml.append_at slot new_binding_xml (Http.xml r1))
                   (Http.etag r1)]
     | Http.Raised IndexError | Http.Raised XMLSyntaxError =>
         Trace.puts (snd run) = []
     | Http.Exited _ => False
     | _ => True
     end.
Proof.
  cbv zeta.
  destruct replies as [|r0 [|r1 [|r2 rest]]].
  - split; [simpl; lia | exact I].
  - split; [simpl; lia | exact I].
  - unfold V2.bind_artifact_to_module_structure. cbn [Http.run Http.pbind Http.lift].
    destruct (V2.first_child_bindings (Http.xml r1)) as [slot|e] eqn:Ef;
      cbn [Http.run Http.pbind Http.lift fst snd].
    + unfold Common.parse. destruct (fromstring _) as [new_binding_xml|];
        cbn [Http.run Http.pbind Http.lift fst snd].
      * split; [simpl; lia | exact I].
      * split; [simpl; lia | reflexivity].
    + split; [simpl; lia|]. destruct e; try exact I; reflexivity.
  - rewrite V2_bind_run. cbv zeta.
    destruct (V2.first_child_bindings (Http.xml r1)) as [slot|e] eqn:Ef.
    + unfold Common.parse.
      destruct (fromstring _) as [new_binding_xml|] eqn:Ep.
      * destruct (Common.rejected (Http.status_code r2)) eqn:Er.
        -- cbn [fst snd]. split; [simpl; lia|]. exact I.
        -- destruct (run_wait_if_pending r2 tt rest) as (tail & [[E Hp]|[E Hp]]);
             rewrite E; cbn [fst snd].
           ++ unfold Trace.puts in *. cbn [List.filter app Trace.is_put].
              rewrite Hp. split; [simpl; lia|].
              exists r0, r1, r2, rest, slot, new_binding_xml.
              repeat split; assumption.
           ++ unfold Trace.puts in *. cbn [List.filter app Trace.is_put].
              rewrite Hp. split; [simpl; lia | exact I].
      * cbn [fst snd]. split; [simpl; lia | reflexivity].
    + cbn [fst snd]. split; [simpl; lia|]. destruct e; try exact I; reflexivity.
Qed.

(** X8: whatever the server answers, however many answers there are, and
    whatever the parser makes of the text of the new binding,
    [bind_artifact_to_module] of V4 sends at most one update; it sends none
    when the slot is missing or when the text, into which the three URLs
    are spliced as they are, does not parse; it never exits; and when it
    returns normally it has sent exactly one PUT, to the URL read from the
    first answer, of the document of the second answer with the parsed
    binding appended in the slot, under that answer's ETag, and the server
    has answered it with 200, 201 or 202. *)
Theorem V4_bind_sends_one_accepted_update
    (fromstring : string -> option Xml.element)
    (RDF_DEFAULT_PREFIX : string -> string)
    (project_uri module_uri artifact_uri : string) (replies : list Http.reply) :
  let run := Http.run (V4.bind_artifact_to_module fromstring RDF_DEFAULT_PREFIX project_uri
                         module_uri artifact_uri) replies in
  (length (Trace.puts (snd run)) <= 1)%nat
  /\ match fst run with
     | Http.Returned _ =>
         exists r0 r1 r2 rest slot new_binding_xml,
           replies = r0 :: r1 :: r2 :: rest
           /\ V4.find_insertion_point (Http.xml r1) = OK slot
           /\ fromstring
                (Common.new_binding_text RDF_DEFAULT_PREFIX EmptyString project_uri
                   artifact_uri module_uri) = Some new_binding_xml
           /\ Common.rejected (Http.status_code r2) = false
           /\ Trace.puts (snd run)
              = [Http.PutRdfXml
                   (Rdfxml.xmlrdf_get_resource_uri_desc (Http.xml r0) Rdfxml.structure_tag)
                   (Xml.append_at slot new_binding_xml (Http.xml r1))
                   (Http.etag r1)]
     | Http.Raised (ValueError _) | Http.Raised XMLSyntaxError =>
         Trace.puts (snd run) = []
     | Http.Exited _ => False
     | _ => True
     end.
Proof. apply V4_bind_updates. Qed.

(** ** Runs of the workflow *)

Section RunFacts.
Import Workflow Shapes.

Lemma run_pbind {A B} (p : prog A) (f : A -> prog B) : forall answers,
  run (pbind p f) answers
  = match run p answers with
    | (Returned a, cs) =>
        let '(o, cs') := run (f a) (drop (length cs) answers) in (o, cs ++ cs')
    | (Raised e, cs) => (Raised e, cs)
    | (Exited c, cs) => (Exited c, cs)
    | (Stuck, cs) => (Stuck, cs)
    end.
Proof.
  induction p as [a|e|c|c k IH|path k IH|t k IH|t k IH|q w sel pfx k IH|u d k IH];
    intros answers; cbn [pbind run].
  - cbn [length]. rewrite drop_0. destruct (run (f a) answers); reflexivity.
  - reflexivity.
  - reflexivity.
  - destruct answers as [|[r|?|? ?|?|?] rest]; try reflexivity.
    rewrite IH. destruct (run (k r) rest) as [[a|e|c'|] cs]; try reflexivity.
    simpl. destruct (run (f a) (drop (length cs) rest)); reflexivity.
  - destruct answers as [|[?|r|? ?|?|?] rest]; try reflexivity.
    rewrite IH. destruct (run (k r) rest) as [[a|e|c'|] cs]; try reflexivity.
    simpl. destruct (run (f a) (drop (length cs) rest)); reflexivity.
  - destruct answers as [|[?|?|f0 s0|?|?] rest]; try reflexivity.
    rewrite IH. destruct (run (k (f0, s0)) rest) as [[a|e|c'|] cs]; try reflexivity.
    simpl. destruct (run (f a) (drop (length cs) rest)); reflexivity.
  - destruct answers as [|[?|?|? ?|r|?] rest]; try reflexivity.
    rewrite IH. destruct (run (k r) rest) as [[a|e|c'|] cs]; try reflexivity.
    simpl. destruct (run (f a) (drop (length cs) rest)); reflexivity.
  - destruct answers as [|[?|?|? ?|?|r] rest]; try reflexivity.
    rewrite IH. destruct (run (k r) rest) as [[a|e|c'|] cs]; try reflexivity.
    simpl. destruct (run (f a) (drop (length cs) rest)); reflexivity.
  - destruct answers as [|[r|?|? ?|?|?] rest]; try reflexivity.
    rewrite IH. destruct (run (k r) rest) as [[a|e|c'|] cs]; try reflexivity.
    simpl. destruct (run (f a) (drop (length cs) rest)); reflexivity.
Qed.

(** A handler that exits turns every exception into that exit and leaves
    every other run as it is. *)
Lemma run_catch_exit {A} (p : prog A) (code : Z) : forall answers,
  run (catch p (fun _ => Exit code)) answers
  = match run p answers with
    | (Raised _, cs) => (Exited code, cs)
    | r => r
    end.
Proof.
  induction p as [a|e|c|c k IH|path k IH|t k IH|t k IH|q w sel pfx k IH|u d k IH];
    intros answers; cbn [catch run]; try reflexivity.
  - destruct answers as [|[r|?|? ?|?|?] rest]; try reflexivity.
    rewrite IH. destruct (run (k r) rest) as [[a|e|c'|] cs]; reflexivity.
  - destruct answers as [|[?|r|? ?|?|?] rest]; try reflexivity.
    rewrite IH. destruct (run (k r) rest) as [[a|e|c'|] cs]; reflexivity.
  - destruct answers as [|[?|?|f0 s0|?|?] rest]; try reflexivity.
    rewrite IH. destruct (run (k (f0, s0)) rest) as [[a|e|c'|] cs]; reflexivity.
  - destruct answers as [|[?|?|? ?|r|?] rest]; try reflexivity.
    rewrite IH. destruct (run (k r) rest) as [[a|e|c'|] cs]; reflexivity.
  - destruct answers as [|[?|?|? ?|?|r] rest]; try reflexivity.
    rewrite IH. destruct (run (k r) rest) as [[a|e|c'|] cs]; reflexivity.
  - destruct answers as [|[r|?|? ?|?|?] rest]; try reflexivity.
    rewrite IH. destruct (run (k r) rest) as [[a|e|c'|] cs]; reflexivity.
Qed.

End RunFacts.

(** ** Choosing the shape *)

Section ShapeLoops.
Import Workflow Shapes.
Variable artifact_type : string.

Lemma matching_cons s shapes r rs :
  matching (s :: shapes) (r :: rs) artifact_type
  = (if title_is (shape_title (Http.xml r)) artifact_type then [s] else [])
    ++ matching shapes rs artifact_type.
Proof.
  unfold matching. cbn [zip zip_with List.filter snd].
  destruct (title_is _ _); reflexivity.
Qed.

Lemma V4_find_shape_run : forall shapes rs,
  length rs = length shapes ->
  exists fetched,
    run (V4Flow.find_shape shapes artifact_type) (map Reply rs)
    = (Returned (head (matching shapes rs artifact_type)), map fetch fetched)
    /\ fetched `prefix_of` shapes
    /\ match head (matching shapes rs artifact_type) with
       | Some s => last fetched = Some s
       | None => fetched = shapes
       end.
Proof.
  induction shapes as [|s shapes IH]; intros rs Hlen.
  - destruct rs; [|discriminate]. exists [].
    split; [reflexivity|]. split; [apply prefix_nil | reflexivity].
  - destruct rs as [|r rs]; [discriminate|]. injection Hlen as Hlen.
    cbn [V4Flow.find_shape map run]. rewrite matching_cons.
    destruct (title_is (shape_title (Http.xml r)) artifact_type).
    + exists [s]. split; [reflexivity|].
      split; [now apply prefix_cons, prefix_nil | reflexivity].
    + destruct (IH rs Hlen) as (fetched & E & Hp & Hl). rewrite E.
      exists (s :: fetched). split; [reflexivity|].
      split; [now apply prefix_cons|]. cbn [app].
      destruct (head (matching shapes rs artifact_type)) as [m|].
      * rewrite last_cons, Hl. reflexivity.
      * now rewrite Hl.
Qed.

Lemma V2_find_shape_eq shapes :
  V2Flow.find_shape shapes artifact_type = V4Flow.find_shape shapes artifact_type.
Proof. induction shapes as [|s shapes IH]; simpl; [reflexivity|]. now rewrite IH. Qed.

Lemma Orig_find_shape_run : forall shapes rs theshape_u,
  length rs = length shapes ->
  run (OrigFlow.find_shape shapes artifact_type theshape_u) (map Reply rs)
  = (Returned
       match last (matching shapes rs artifact_type) with
       | Some s => Some s
       | None => theshape_u
       end,
     map fetch shapes).
Proof.
  induction shapes as [|s shapes IH]; intros rs acc Hlen.
  - destruct rs; [|discriminate]. reflexivity.
  - destruct rs as [|r rs]; [discriminate|]. injection Hlen as Hlen.
    cbn [OrigFlow.find_shape map run]. rewrite IH by exact Hlen.
    rewrite matching_cons. cbn [map fetch]. f_equal. f_equal.
    destruct (title_is (shape_title (Http.xml r)) artifact_type); cbn [app].
    + rewrite last_cons. destruct (last (matching shapes rs artifact_type)); reflexivity.
    + reflexivity.
Qed.

End ShapeLoops.

(** X9: given one answer per shape, the loops of V2 and V4 return the
    first shape of the factory whose title is the artifact type and fetch
    no shape after it, while the loop of For_Gemini.py fetches every shape
    and returns the last one with that title; all return None when no
    title is the type.  Where several shapes share the title the variants
    create the artifact with different shapes. *)
Theorem shape_choice_first_or_last
    (shapes : list string) (replies : list Http.reply) (artifact_type : string) :
  length replies = length shapes ->
  let found := Shapes.matching shapes replies artifact_type in
  (exists fetched,
      Workflow.run (V4Flow.find_shape shapes artifact_type)
        (map Workflow.Reply replies)
      = (Workflow.Returned (head found), map Shapes.fetch fetched)
      /\ fetched `prefix_of` shapes
      /\ match head found with
         | Some s => last fetched = Some s
         | None => fetched = shapes
         end)
  /\ V2Flow.find_shape shapes artifact_type = V4Flow.find_shape shapes artifact_type
  /\ Workflow.run (OrigFlow.find_shape shapes artifact_type None)
       (map Workflow.Reply replies)
     = (Workflow.Returned (last found), map Shapes.fetch shapes).
Proof.
  intros Hlen. cbv zeta. split; [|split].
  - now apply V4_find_shape_run.
  - apply V2_find_shape_eq.
  - rewrite Orig_find_shape_run by exact Hlen.
    destruct (last (Shapes.matching shapes replies artifact_type)); reflexivity.
Qed.

Lemma shape_choice_first_or_last_witness :
  length [Sample.reply_xml (SampleFlow.shape_x "Heading") "e1";
          Sample.reply_xml (SampleFlow.shape_x "Requirement") "e2";
          Sample.reply_xml (SampleFlow.shape_x "Requirement") "e3"]
  = length [Sample.url "s1"; Sample.url "s2"; Sample.url "s3"]
  /\ Workflow.run
       (V4Flow.find_shape [Sample.url "s1"; Sample.url "s2"; Sample.url "s3"]
          "Requirement")
       (map Workflow.Reply
          [Sample.reply_xml (SampleFlow.shape_x "Heading") "e1";
           Sample.reply_xml (SampleFlow.shape_x "Requirement") "e2";
           Sample.reply_xml (SampleFlow.shape_x "Requirement") "e3"])
     = (Workflow.Returned (Some (Sample.url "s2")),
        map Shapes.fetch [Sample.url "s1"; Sample.url "s2"])
  /\ Workflow.run
       (OrigFlow.find_shape [Sample.url "s1"; Sample.url "s2"; Sample.url "s3"]
          "Requirement" None)
       (map Workflow.Reply
          [Sample.reply_xml (SampleFlow.shape_x "Heading") "e1";
           Sample.reply_xml (SampleFlow.shape_x "Requirement") "e2";
           Sample.reply_xml (SampleFlow.shape_x "Requirement") "e3"])
     = (Workflow.Returned (Some (Sample.url "s3")),
        map Shapes.fetch [Sample.url "s1"; Sample.url "s2"; Sample.url "s3"]).
Proof.
  assert (H : length [Sample.reply_xml (SampleFlow.shape_x "Heading") "e1";
          Sample.reply_xml (SampleFlow.shape_x "Requirement") "e2";
          Sample.reply_xml (SampleFlow.shape_x "Requirement") "e3"]
      = length [Sample.url "s1"; Sample.url "s2"; Sample.url "s3"]) by reflexivity.
  split; [exact H|].
  destruct (shape_choice_first_or_last
              [Sample.url "s1"; Sample.url "s2"; Sample.url "s3"]
              [Sample.reply_xml (SampleFlow.shape_x "Heading") "e1";
               Sample.reply_xml (SampleFlow.shape_x "Requirement") "e2";
               Sample.reply_xml (SampleFlow.shape_x "Requirement") "e3"]
              "Requirement" H) as (_ & _ & HO).
  split; [vm_compute; reflexivity | exact HO].
Defined.

(** ** Creating the artifact *)

Section CreationFacts.
Import Xml Rdfxml Workflow Shapes Creation.

Lemma posts_fetches l : posts (map fetch l) = [].
Proof. induction l; [reflexivity | assumption]. Qed.

Lemma updates_fetches l : updates (map fetch l) = [].
Proof. induction l; [reflexivity | assumption]. Qed.

Lemma posts_app cs1 cs2 : posts (cs1 ++ cs2) = posts cs1 ++ posts cs2.
Proof. apply List.filter_app. Qed.

Lemma updates_app cs1 cs2 : updates (cs1 ++ cs2) = updates cs1 ++ updates cs2.
Proof. apply List.filter_app. Qed.

(** The loop of V2 and V4, whatever the answers: it fetches shapes of the
    list in order, and the shape it returns is one it fetched. *)
Lemma V4_find_shape_any t : forall shapes answers,
  exists fetched,
    snd (run (V4Flow.find_shape shapes t) answers) = map fetch fetched
    /\ fetched `prefix_of` shapes
    /\ match fst (run (V4Flow.find_shape shapes t) answers) with
       | Returned (Some s) => s ∈ fetched
       | Returned None | Stuck => True
       | _ => False
       end.
Proof.
  induction shapes as [|s shapes IH]; intros answers.
  - exists []. split; [reflexivity|]. split; [apply prefix_nil | exact I].
  - cbn [V4Flow.find_shape run].
    destruct answers as [|[r|?|? ?|?|?] rest];
      try (exists [s]; split; [reflexivity|];
           split; [apply prefix_cons, prefix_nil | exact I]).
    destruct (title_is (shape_title (Http.xml r)) t).
    + exists [s]. split; [reflexivity|].
      split; [apply prefix_cons, prefix_nil | cbn; set_solver].
    + destruct (IH rest) as (fetched & Htr & Hp & Ho).
      destruct (run (V4Flow.find_shape shapes t) rest) as [o cs].
      cbn [fst snd] in *. subst cs.
      exists (s :: fetched). split; [reflexivity|].
      split; [now apply prefix_cons|].
      destruct o as [[s'|]|e|c|]; try exact Ho. set_solver.
Qed.

(** The loop of For_Gemini.py: the shape it returns is one it fetched, or
    the one it started with. *)
Lemma Orig_find_shape_any t : forall shapes answers acc,
  exists fetched,
    snd (run (OrigFlow.find_shape shapes t acc) answers) = map fetch fetched
    /\ fetched `prefix_of` shapes
    /\ match fst (run (OrigFlow.find_shape shapes t acc) answers) with
       | Returned (Some s) => s ∈ fetched \/ acc = Some s
       | Returned None | Stuck => True
       | _ => False
       end.
Proof.
  induction shapes as [|s shapes IH]; intros answers acc.
  - exists []. split; [reflexivity|]. split; [apply prefix_nil|].
    cbn. destruct acc; [now right | exact I].
  - cbn [OrigFlow.find_shape run].
    destruct answers as [|[r|?|? ?|?|?] rest];
      try (exists [s]; split; [reflexivity|];
           split; [apply prefix_cons, prefix_nil | exact I]).
    destruct (IH rest (if title_is (shape_title (Http.xml r)) t then Some s else acc))
      as (fetched & Htr & Hp & Ho).
    destruct (run (OrigFlow.find_shape shapes t _) rest) as [o cs].
    cbn [fst snd] in *. subst cs.
    exists (s :: fetched). split; [reflexivity|].
    split; [now apply prefix_cons|].
    destruct o as [[s'|]|e|c|]; try exact Ho.
    destruct Ho as [Ho|Ho]; [left; set_solver|].
    destruct (title_is (shape_title (Http.xml r)) t); [|now right].
    injection Ho as <-. left. set_solver.
Qed.

End CreationFacts.

Section CreateRuns.
Import Xml Rdfxml Workflow Shapes Creation.
Variable fromstring : string -> option element.

Lemma posts_create_prefix path rt fetched tail :
  posts (DidFindFolder path :: DidGetFactoryUri rt :: map fetch fetched ++ tail)
  = posts tail.
Proof.
  change (posts (map fetch fetched ++ tail) = posts tail).
  now rewrite posts_app, posts_fetches.
Qed.

Lemma updates_create_prefix path rt fetched tail :
  updates (DidFindFolder path :: DidGetFactoryUri rt :: map fetch fetched ++ tail)
  = updates tail.
Proof.
  change (updates (map fetch fetched ++ tail) = updates tail).
  now rewrite updates_app, updates_fetches.
Qed.

Lemma posts_create_calls path rt fetched :
  posts (DidFindFolder path :: DidGetFactoryUri rt :: map fetch fetched) = [].
Proof. apply posts_fetches. Qed.

Lemma updates_create_calls path rt fetched :
  updates (DidFindFolder path :: DidGetFactoryUri rt :: map fetch fetched) = [].
Proof. apply updates_fetches. Qed.

Lemma lookup_drop_head {A} (l : list A) n x rest :
  drop n l = x :: rest -> l !! n = Some x /\ drop (S n) l = rest.
Proof.
  intros H. split.
  - rewrite <- (Nat.add_0_r n), <- lookup_drop, H. reflexivity.
  - replace (S n) with (n + 1)%nat by lia.
    rewrite <- drop_drop, H. reflexivity.
Qed.

Ltac refute H :=
  unfold early_V, late_V, early_Orig, late_Orig in H;
  decompose [or ex and] H;
  try discriminate;
  match goal with
  | E : Python (PyException _) = Python (PyException _) |- _ =>
      vm_compute in E; discriminate E
  end.

(** A run that ended before the POST, with an exception of the first kind. *)
Ltac raised_early :=
  split; [left; unfold early_V, early_Orig; tauto|];
  split; [intros _; reflexivity | intros H; exfalso; refute H].

(** A run that ended after the POST, with an exception of the second kind. *)
Ltac raised_late :=
  split; [right; unfold late_V, late_Orig; tauto|];
  split; [intros H; exfalso; refute H | intros _; reflexivity].

Ltac count_calls :=
  cbn [fst snd];
  rewrite ?posts_create_prefix, ?updates_create_prefix,
    ?posts_create_calls, ?updates_create_calls;
  split; [simpl; lia|];
  split; [reflexivity|];
  split; [intros H; discriminate H|];
  first [exact I | raised_early | raised_late].

(** The end of a run whose folder is missing. *)
Ltac folder_missing :=
  cbn [fst snd];
  split; [simpl; lia|];
  split; [reflexivity|];
  split; [intros _; split; [reflexivity|];
          eexists; split; [reflexivity | unfold early_V, early_Orig; tauto]|];
  raised_early.

(** The end of a run that got no answer, or an answer of another kind. *)
Ltac no_answer :=
  cbn [fst snd];
  split; [simpl; lia|];
  split; [reflexivity|];
  split; [intros H; discriminate H | exact I].

Lemma refused_status status :
  negb (status =? 201) = true -> status <> 201.
Proof. intros H. apply Bool.negb_true_iff, Z.eqb_neq in H. exact H. Qed.

Lemma V4_creates_once t title path answers :
  creates_once fromstring (V4.xml_payload t title) path
    (early_V path t) late_V answers
    (run (V4Flow.create_artifact_in_folder fromstring t title path) answers).
Proof.
  unfold creates_once, V4Flow.create_artifact_in_folder.
  destruct answers as [|[r|[f|]|fu shapes|q|h] rest]; cbn [run fst snd];
    try no_answer; try folder_missing.
  destruct rest as [|[r|fo|fu shapes|q|h] rest]; cbn [run fst snd];
    try count_calls.
  rewrite run_pbind.
  destruct (V4_find_shape_any t shapes rest) as (fetched & Htr & Hp & Ho).
  destruct (run (V4Flow.find_shape shapes t) rest) as [o cs].
  cbn [fst snd] in *. subst cs. rewrite length_map.
  destruct o as [[s|]|e|c|]; try contradiction; cbn [run]; try count_calls.
  destruct (fromstring (V4.xml_payload t title s f)) as [data|] eqn:Efs;
    cbn [run]; try count_calls.
  destruct (drop (length fetched) rest) as [|[response|?|? ?|?|?] rest1] eqn:Ed1;
    try count_calls.
  apply lookup_drop_head in Ed1 as [Hl1 Ed2].
  destruct (negb (Http.status_code response =? 201)) eqn:Est; cbn [run].
  { cbn [fst snd]. rewrite posts_create_prefix, updates_create_prefix.
    split; [simpl; lia|]. split; [reflexivity|].
    split; [intros H; discriminate H|].
    split; [right; left; exists (Http.status_code response);
            split; [now apply refused_status | reflexivity]|].
    split; [intros H; exfalso; refute H | intros _; reflexivity]. }
  destruct rest1 as [|[got|?|? ?|?|?] rest2]; try count_calls.
  destruct (find_descendant (Http.xml got) "dcterms:identifier") as [el|] eqn:Eid;
    cbn [run]; try count_calls.
  cbn [fst snd]. rewrite posts_create_prefix, updates_create_prefix.
  split; [simpl; lia|]. split; [reflexivity|]. split; [intros H; discriminate H|].
  apply Bool.negb_false_iff, Z.eqb_eq in Est.
  exists f, fu, shapes, fetched, s, data, response, got, el.
  apply lookup_drop_head in Ed2 as [Hl2 _].
  repeat split; try assumption; try reflexivity.
Qed.

Lemma V2_creates_once t title path answers :
  creates_once fromstring (V2.xml_payload t title) path
    (early_V path t) late_V answers
    (run (V2Flow.create_artifact_in_folder fromstring t title path) answers).
Proof.
  unfold creates_once, V2Flow.create_artifact_in_folder.
  destruct answers as [|[r|[f|]|fu shapes|q|h] rest]; cbn [run fst snd];
    try no_answer; try folder_missing.
  destruct rest as [|[r|fo|fu shapes|q|h] rest]; cbn [run fst snd];
    try count_calls.
  rewrite run_pbind, V2_find_shape_eq.
  destruct (V4_find_shape_any t shapes rest) as (fetched & Htr & Hp & Ho).
  destruct (run (V4Flow.find_shape shapes t) rest) as [o cs].
  cbn [fst snd] in *. subst cs. rewrite length_map.
  destruct o as [[s|]|e|c|]; try contradiction; cbn [run]; try count_calls.
  destruct (fromstring (V2.xml_payload t title s f)) as [data|] eqn:Efs;
    cbn [run]; try count_calls.
  destruct (drop (length fetched) rest) as [|[response|?|? ?|?|?] rest1] eqn:Ed1;
    try count_calls.
  apply lookup_drop_head in Ed1 as [Hl1 Ed2].
  destruct (negb (Http.status_code response =? 201)) eqn:Est; cbn [run].
  { cbn [fst snd]. rewrite posts_create_prefix, updates_create_prefix.
    split; [simpl; lia|]. split; [reflexivity|].
    split; [intros H; discriminate H|].
    split; [right; left; exists (Http.status_code response);
            split; [now apply refused_status | reflexivity]|].
    split; [intros H; exfalso; refute H | intros _; reflexivity]. }
  destruct rest1 as [|[got|?|? ?|?|?] rest2]; try count_calls.
  destruct (find_descendant (Http.xml got) "dcterms:identifier") as [el|] eqn:Eid;
    cbn [run]; try count_calls.
  cbn [fst snd]. rewrite posts_create_prefix, updates_create_prefix.
  split; [simpl; lia|]. split; [reflexivity|]. split; [intros H; discriminate H|].
  apply Bool.negb_false_iff, Z.eqb_eq in Est.
  exists f, fu, shapes, fetched, s, data, response, got, el.
  apply lookup_drop_head in Ed2 as [Hl2 _].
  repeat split; try assumption; try reflexivity.
Qed.

Lemma Orig_creates_once argv1 argv2 argv3 answers :
  creates_once fromstring (Orig.thexml_t argv1 argv2) argv3
    (early_Orig argv1 argv3) late_Orig answers
    (run (OrigFlow.create fromstring argv1 argv2 argv3) answers).
Proof.
  unfold creates_once, OrigFlow.create.
  destruct answers as [|[r|[f|]|fu shapes|q|h] rest]; cbn [run fst snd];
    try no_answer; try folder_missing.
  destruct rest as [|[r|fo|fu shapes|q|h] rest]; cbn [run fst snd];
    try count_calls.
  rewrite run_pbind.
  destruct (Orig_find_shape_any argv1 shapes rest None) as (fetched & Htr & Hp & Ho).
  destruct (run (OrigFlow.find_shape shapes argv1 None) rest) as [o cs].
  cbn [fst snd] in *. subst cs. rewrite length_map.
  destruct o as [[s|]|e|c|]; try contradiction; cbn [run]; try count_calls.
  destruct Ho as [Ho|Ho]; [|discriminate].
  destruct (fromstring (Orig.thexml_t argv1 argv2 s f)) as [data|] eqn:Efs;
    cbn [run]; try count_calls.
  destruct (drop (length fetched) rest) as [|[response|?|? ?|?|?] rest1] eqn:Ed1;
    try count_calls.
  apply lookup_drop_head in Ed1 as [Hl1 Ed2].
  destruct (negb (Http.status_code response =? 201)) eqn:Est; cbn [run];
    try count_calls.
  destruct rest1 as [|[got|?|? ?|?|?] rest2]; try count_calls.
  destruct (find_descendant (Http.xml got) "dcterms:identifier") as [el|] eqn:Eid;
    cbn [run]; try count_calls.
  cbn [fst snd]. rewrite posts_create_prefix, updates_create_prefix.
  split; [simpl; lia|]. split; [reflexivity|]. split; [intros H; discriminate H|].
  apply Bool.negb_false_iff, Z.eqb_eq in Est.
  exists f, fu, shapes, fetched, s, data, response, got, el.
  apply lookup_drop_head in Ed2 as [Hl2 _].
  repeat split; try assumption; try reflexivity.
Qed.

End CreateRuns.

(** X10: whatever the server answers, the creation of each variant sends
    at most one POST and no update, and never exits.  A missing folder ends
    it after the folder lookup.  It raises only the exceptions listed for
    the variant: those for a missing folder, for no shape of that title
    and for a payload that does not parse, without a POST; those for a
    refused POST and for a new artifact without identifier element, after
    the one POST.  When it returns, it has found the folder, fetched shapes
    of the factory in their order, posted the parsed payload for one of
    them to the factory, received 201, and fetched the Location of that
    answer, which it returns with the text of the identifier element. *)
Theorem creation_posts_once_and_returns_what_it_created
    (fromstring : string -> option Xml.element)
    (artifact_type artifact_title folder_path : string)
    (answers : list Workflow.answer) :
  Creation.creates_once fromstring (V4.xml_payload artifact_type artifact_title)
    folder_path (Creation.early_V folder_path artifact_type) Creation.late_V
    answers
    (Workflow.run
       (V4Flow.create_artifact_in_folder fromstring artifact_type artifact_title
          folder_path) answers)
  /\ Creation.creates_once fromstring (V2.xml_payload artifact_type artifact_title)
       folder_path (Creation.early_V folder_path artifact_type) Creation.late_V
       answers
       (Workflow.run
          (V2Flow.create_artifact_in_folder fromstring artifact_type artifact_title
             folder_path) answers)
  /\ Creation.creates_once fromstring (Orig.thexml_t artifact_type artifact_title)
       folder_path (Creation.early_Orig artifact_type folder_path)
       Creation.late_Orig answers
       (Workflow.run
          (OrigFlow.create fromstring artifact_type artifact_title folder_path)
          answers).
Proof.
  split; [apply V4_creates_once|].
  split; [apply V2_creates_once | apply Orig_creates_once].
Qed.


(** ** The artifact to bind in For_Gemini.py *)

Section Lookups.
Import Xml Rdfxml Workflow Shapes Creation.



End Lookups.


(** ** From the creation to the binding: V4 and V2 *)

Section MainFacts.
Import Xml Rdfxml Workflow Shapes Creation.

(** A program of [Http] run as a program of the workflow takes the replies
    up to the first answer of another kind. *)
Lemma run_embed {A} (p : Http.prog A) : forall answers,
  run (embed p) answers
  = (lift_outcome (fst (Http.run p (replies answers))),
     map DidBase (snd (Http.run p (replies answers)))).
Proof.
  induction p as [a|e|c|c k IH]; intros answers; cbn [embed run]; try reflexivity.
  destruct answers as [|[r|?|? ?|?|?] rest]; try reflexivity.
  cbn [replies Http.run]. rewrite IH.
  destruct (Http.run (k r) (replies rest)). reflexivity.
Qed.

Lemma posts_base cs : posts (map DidBase cs) = [].
Proof. induction cs; [reflexivity | assumption]. Qed.

Lemma updates_base cs : updates (map DidBase cs) = map DidBase (Trace.puts cs).
Proof.
  induction cs as [|c cs IH]; [reflexivity|].
  cbn [map]. unfold updates, Trace.puts in *. cbn [List.filter is_update].
  destruct (Trace.is_put c); cbn [map]; now rewrite IH.
Qed.

Lemma answered_app_l cs cs' answers c a :
  answered cs answers c a -> answered (cs ++ cs') answers c a.
Proof.
  intros (n & Hc & Ha). exists n. split; [|exact Ha].
  now apply lookup_app_l_Some.
Qed.

Lemma answered_app_r cs cs' answers c a :
  answered cs' (drop (length cs) answers) c a -> answered (cs ++ cs') answers c a.
Proof.
  intros (n & Hc & Ha). exists (length cs + n)%nat. split.
  - now rewrite lookup_app_r, Nat.add_comm, Nat.add_sub by lia.
  - now rewrite lookup_drop in Ha.
Qed.

Lemma created_post_answered fromstring payload path answers cs u i :
  created fromstring payload path answers cs u i ->
  length (posts cs) = 1%nat
  /\ exists factory data response,
       answered cs answers (DidPostRdfXml factory data) (Reply response)
       /\ Http.status_code response = 201
       /\ u = Http.location response.
Proof.
  intros (folderuri & factory & shapes & fetched & s & data & response & got & el
          & _ & _ & _ & _ & _ & -> & Hr & Hs & Hu & _).
  split.
  - rewrite posts_create_prefix. reflexivity.
  - exists factory, data, response. split; [|split; assumption].
    exists (2 + length fetched)%nat. split; [|exact Hr].
    change ((map fetch fetched
             ++ [DidPostRdfXml factory data;
                 DidBase (Http.GetRdfXml u)])
            !! length fetched = Some (DidPostRdfXml factory data)).
    rewrite lookup_app_r by (rewrite length_map; lia).
    rewrite length_map, Nat.sub_diag. reflexivity.
Qed.

(** The module lookups of V4 and V2: no creation, no update, and a result
    is the first hit of the query. *)
Lemma V4_find_module_run name answers :
  let r := run (V4Flow.find_module_by_name name) answers in
  posts (snd r) = [] /\ updates (snd r) = []
  /\ match fst r with
     | Returned u =>
         exists q props others,
           answered (snd r) answers (DidOslcQuery q (module_by_title name) None None)
             (Hits ((u, props) :: others))
     | Exited _ => False
     | _ => True
     end.
Proof.
  cbv zeta. unfold V4Flow.find_module_by_name.
  destruct answers as [|[?|?|? ?|q|?] rest]; cbn [run fst snd];
    try (repeat split; reflexivity).
  destruct rest as [|[?|?|? ?|?|h] rest]; cbn [run fst snd];
    try (repeat split; reflexivity).
  destruct h as [|[u props] others]; cbn [run fst snd];
    try (repeat split; reflexivity).
  repeat split. exists q, props, others, 1%nat. split; reflexivity.
Qed.

Lemma V2_get_module_run RDF_DEFAULT_PREFIX module_id answers :
  let r := run (V2Flow.get_module_uri_by_id RDF_DEFAULT_PREFIX module_id) answers in
  posts (snd r) = [] /\ updates (snd r) = []
  /\ match fst r with
     | Returned u =>
         exists q props others,
           answered (snd r) answers
             (DidOslcQuery q (module_by_identifier module_id) select_all
                (dcterms_prefix RDF_DEFAULT_PREFIX))
             (Hits ((u, props) :: others))
     | Exited _ => False
     | _ => True
     end.
Proof.
  cbv zeta. unfold V2Flow.get_module_uri_by_id.
  destruct answers as [|[?|?|? ?|q|?] rest]; cbn [run fst snd];
    try (repeat split; reflexivity).
  destruct rest as [|[?|?|? ?|?|h] rest]; cbn [run fst snd];
    try (repeat split; reflexivity).
  destruct h as [|[u props] others]; cbn [run fst snd];
    try (repeat split; reflexivity).
  repeat split. exists q, props, others, 1%nat. split; reflexivity.
Qed.

Lemma orderly_without_update cs :
  (length (posts cs) <= 1)%nat -> updates cs = [] -> orderly cs.
Proof.
  intros Hp Hu. unfold orderly. rewrite Hu.
  repeat split; [assumption | simpl; lia | now left |].
  exists cs, []. rewrite app_nil_r. repeat split; assumption.
Qed.

Lemma orderly_after_creation cs cs' :
  length (posts cs) = 1%nat -> updates cs = [] ->
  posts cs' = [] -> (length (updates cs') <= 1)%nat ->
  orderly (cs ++ cs').
Proof.
  intros Hp Hu Hp' Hu'. unfold orderly.
  rewrite posts_app, updates_app, Hp', Hu, app_nil_r. cbn [app].
  repeat split; [lia | assumption | now right |].
  exists cs, cs'. repeat split; assumption.
Qed.

Section V4Main.
Variable fromstring : string -> option element.
Variable RDF_DEFAULT_PREFIX : string -> string.
Variables project_uri artifact_type artifact_title folder_path module_name : string.

Lemma V4_main_steps_run answers :
  let r := run (V4Flow.main_steps fromstring RDF_DEFAULT_PREFIX project_uri
                  artifact_type artifact_title folder_path module_name) answers in
  orderly (snd r)
  /\ match fst r with
     | Returned _ =>
         exists factory data response q module_uri props others update,
           answered (snd r) answers (DidPostRdfXml factory data) (Reply response)
           /\ Http.status_code response = 201
           /\ answered (snd r) answers
                (DidOslcQuery q (module_by_title module_name) None None)
                (Hits ((module_uri, props) :: others))
           /\ updates (snd r) = [update]
           /\ binds fromstring RDF_DEFAULT_PREFIX V4.find_insertion_point project_uri
                (fstr (Http.location response)) module_uri update
     | Exited _ => False
     | _ => True
     end.
Proof.
  cbv zeta. unfold V4Flow.main_steps. rewrite run_pbind.
  pose proof (V4_creates_once fromstring artifact_type artifact_title folder_path
                answers) as (Hp & Hu & _ & Ho).
  destruct (run (V4Flow.create_artifact_in_folder _ _ _ _) answers) as [o cs].
  cbn [fst snd] in Hp, Hu, Ho.
  destruct o as [[u i]|e|c|]; cbn [fst snd];
    try (split; [now apply orderly_without_update | try exact I; try exact Ho]).
  apply created_post_answered in Ho as (Hp1 & factory & data & response & Hans & Hst & ->).
  rewrite run_pbind.
  pose proof (V4_find_module_run module_name (drop (length cs) answers))
    as (Hp2 & Hu2 & Ho2). cbv zeta in Hp2, Hu2, Ho2.
  destruct (run (V4Flow.find_module_by_name module_name) (drop (length cs) answers))
    as [o2 cs2]. cbn [fst snd] in Hp2, Hu2, Ho2.
  destruct o2 as [module_uri|e|c|]; cbn [fst snd];
    try (split; [apply orderly_after_creation; try assumption; rewrite Hu2; simpl; lia
                | try exact I; try exact Ho2]).
  destruct Ho2 as (q & props & others & Hq).
  rewrite run_embed.
  pose proof (V4_bind_updates fromstring RDF_DEFAULT_PREFIX project_uri module_uri
                (fstr (Http.location response))
                (replies (drop (length cs2) (drop (length cs) answers))))
    as (Hb1 & Hb2). cbv zeta in Hb1, Hb2.
  destruct (Http.run (V4.bind_artifact_to_module _ _ _ _ _) _) as [o3 cs3].
  cbn [fst snd] in Hb1, Hb2 |- *.
  split.
  - apply orderly_after_creation; try assumption.
    + now rewrite posts_app, Hp2, posts_base.
    + rewrite updates_app, Hu2, updates_base. cbn [app]. now rewrite length_map.
  - destruct o3 as [[]|e|c|]; cbn [lift_outcome]; try exact I; try exact Hb2.
    destruct Hb2 as (r0 & r1 & r2 & rest & slot & new_binding_xml
                     & _ & Hslot & Hparse & _ & Hputs).
    exists factory, data, response, q, module_uri, props, others.
    eexists. split; [now apply answered_app_l|]. split; [exact Hst|].
    split; [now apply answered_app_r, answered_app_l|].
    split.
    + rewrite !updates_app, Hu, Hu2, updates_base, Hputs. reflexivity.
    + eexists _, _, slot, _, new_binding_xml.
      split; [exact Hslot|]. split; [exact Hparse | reflexivity].
Qed.

End V4Main.
Lemma created_fetch_answered fromstring payload path answers cs u i :
  created fromstring payload path answers cs u i ->
  exists got el,
    answered cs answers (DidBase (Http.GetRdfXml u)) (Reply got)
    /\ find_descendant (Http.xml got) "dcterms:identifier" = Some el
    /\ i = text el.
Proof.
  intros (folderuri & factory & shapes & fetched & s & data & response & got & el
          & _ & _ & _ & _ & _ & -> & _ & _ & _ & Hg & Hel & Hi).
  exists got, el. split; [|split; assumption].
  exists (3 + length fetched)%nat. split; [|exact Hg].
  change ((map fetch fetched
           ++ [DidPostRdfXml factory data; DidBase (Http.GetRdfXml u)])
          !! S (length fetched) = Some (DidBase (Http.GetRdfXml u))).
  rewrite lookup_app_r by (rewrite length_map; lia).
  rewrite length_map.
  replace (S (length fetched) - length fetched)%nat with 1%nat by lia.
  reflexivity.
Qed.

Section V2Main.
Variable fromstring : string -> option element.
Variable RDF_DEFAULT_PREFIX : string -> string.
Variables project_uri artifact_type artifact_title folder_path module_id : string.

Lemma V2_main_steps_run answers :
  let r := run (V2Flow.main_steps fromstring RDF_DEFAULT_PREFIX project_uri
                  artifact_type artifact_title folder_path module_id) answers in
  orderly (snd r)
  /\ match fst r with
     | Returned _ =>
         exists factory data response got el q module_uri props others
                q' artifact_uri props' others' update,
           answered (snd r) answers (DidPostRdfXml factory data) (Reply response)
           /\ Http.status_code response = 201
           /\ answered (snd r) answers
                (DidBase (Http.GetRdfXml (Http.location response))) (Reply got)
           /\ find_descendant (Http.xml got) "dcterms:identifier" = Some el
           /\ answered (snd r) answers
                (DidOslcQuery q (module_by_identifier module_id) select_all
                   (dcterms_prefix RDF_DEFAULT_PREFIX))
                (Hits ((module_uri, props) :: others))
           /\ answered (snd r) answers
                (DidOslcQuery q' [("dcterms:identifier", "=", text el)] None None)
                (Hits ((artifact_uri, props') :: others'))
           /\ updates (snd r) = [update]
           /\ binds fromstring RDF_DEFAULT_PREFIX V2.first_child_bindings project_uri
                artifact_uri module_uri update
     | Exited _ => False
     | _ => True
     end.
Proof.
  cbv zeta. unfold V2Flow.main_steps. rewrite run_pbind.
  pose proof (V2_creates_once fromstring artifact_type artifact_title folder_path
                answers) as (Hp & Hu & _ & Ho).
  destruct (run (V2Flow.create_artifact_in_folder _ _ _ _) answers) as [o cs].
  cbn [fst snd] in Hp, Hu, Ho.
  destruct o as [[u i]|e|c|]; cbn [fst snd];
    try (split; [now apply orderly_without_update | try exact I; try exact Ho]).
  pose proof (created_fetch_answered _ _ _ _ _ _ _ Ho) as (got & el & Hgot & Hel & ->).
  apply created_post_answered in Ho as (Hp1 & factory & data & response & Hans & Hst & ->).
  rewrite run_pbind.
  pose proof (V2_get_module_run RDF_DEFAULT_PREFIX module_id
                (drop (length cs) answers))
    as (Hp2 & Hu2 & Ho2). cbv zeta in Hp2, Hu2, Ho2.
  destruct (run (V2Flow.get_module_uri_by_id _ module_id) (drop (length cs) answers))
    as [o2 cs2]. cbn [fst snd] in Hp2, Hu2, Ho2.
  destruct o2 as [module_uri|e|c|]; cbn [fst snd];
    try (split; [apply orderly_after_creation; try assumption; rewrite Hu2; simpl; lia
                | try exact I; try exact Ho2]).
  destruct Ho2 as (q & props & others & Hq).
  assert (Hshift : forall cs3 c a,
             answered cs3 (drop (length cs2) (drop (length cs) answers)) c a ->
             answered (cs ++ cs2 ++ cs3) answers c a).
  { intros cs3 c a H. now apply answered_app_r, answered_app_r. }
  destruct (drop (length cs2) (drop (length cs) answers))
    as [|[?|?|? ?|q'|?] rest]; cbn [run fst snd];
    try (split; [apply orderly_after_creation; try assumption;
                   [now rewrite posts_app, Hp2 | rewrite updates_app, Hu2; simpl; lia]
                | exact I]).
  destruct rest as [|[?|?|? ?|?|h] rest]; cbn [run fst snd];
    try (split; [apply orderly_after_creation; try assumption;
                   [now rewrite posts_app, Hp2 | rewrite updates_app, Hu2; simpl; lia]
                | exact I]).
  destruct h as [|[artifact_uri props'] others']; cbn [run fst snd];
    try (split; [apply orderly_after_creation; try assumption;
                   [now rewrite posts_app, Hp2 | rewrite updates_app, Hu2; simpl; lia]
                | exact I]).
  rewrite run_embed.
  pose proof (V2_bind_updates fromstring RDF_DEFAULT_PREFIX project_uri module_uri
                artifact_uri (replies rest))
    as (Hb1 & Hb2). cbv zeta in Hb1, Hb2.
  destruct (Http.run (V2.bind_artifact_to_module_structure _ _ _ _ _) _) as [o3 cs3].
  cbn [fst snd] in Hb1, Hb2 |- *.
  split.
  - apply orderly_after_creation; try assumption.
    + rewrite posts_app, Hp2. cbn [app]. apply posts_base.
    + rewrite updates_app, Hu2. cbn [app].
      change (length (updates (map DidBase cs3)) <= 1)%nat.
      now rewrite updates_base, length_map.
  - destruct o3 as [[]|e|c|]; cbn [lift_outcome]; try exact I; try exact Hb2.
    destruct Hb2 as (r0 & r1 & r2 & rest' & slot & new_binding_xml
                     & _ & Hslot & Hparse & _ & Hputs).
    exists factory, data, response, got, el, q, module_uri, props, others,
      q', artifact_uri, props', others'.
    exists (DidBase
              (Http.PutRdfXml
                 (xmlrdf_get_resource_uri_desc (Http.xml r0) structure_tag)
                 (append_at slot new_binding_xml (Http.xml r1))
                 (Http.etag r1))).
    split; [now apply answered_app_l|]. split; [exact Hst|].
    split; [now apply answered_app_l|]. split; [exact Hel|].
    split; [now apply answered_app_r, answered_app_l|].
    split; [apply Hshift; exists 1%nat; split; reflexivity|].
    split.
    + rewrite !updates_app, Hu, Hu2. cbn [app].
      change (updates (map DidBase cs3) = [DidBase
              (Http.PutRdfXml
                 (xmlrdf_get_resource_uri_desc (Http.xml r0) structure_tag)
                 (append_at slot new_binding_xml (Http.xml r1))
                 (Http.etag r1))]).
      rewrite updates_base, Hputs. reflexivity.
    + eexists _, _, slot, _, new_binding_xml.
      split; [exact Hslot|]. split; [exact Hparse | reflexivity].
Qed.

End V2Main.
End MainFacts.

(** ** From the creation to the update: For_Gemini.py *)

Section OrigUpdate.
Import Xml Rdfxml Http Common Trace.

(** The JSON update of For_Gemini.py, whatever the replies: it returns
    only for an empty identifier, without an update; it fails only before
    the update; and it exits, with 0, only after exactly one update. *)
Lemma Orig_update_json_updates theid_text structure_u comp_u themodule_u toinsert_u
    replies :
  let r := run (Orig.update_json theid_text structure_u comp_u themodule_u toinsert_u)
             replies in
  (length (puts (snd r)) <= 1)%nat
  /\ match fst r with
     | Returned j =>
         String.length theid_text = 0%nat /\ puts (snd r) = []
     | Raised _ => puts (snd r) = []
     | Exited code =>
         code = 0 /\ (0 < String.length theid_text)%nat
         /\ exists doc etag, puts (snd r) = [PutJson structure_u doc etag]
     | Starved => True
     end.
Proof.
  cbv zeta. unfold Orig.update_json.
  destruct replies as [|r0 replies]; cbn [run fst snd]; [split; [simpl; lia | exact I]|].
  destruct (0 <? String.length theid_text)%nat eqn:El.
  2: { apply Nat.ltb_ge in El. cbn [run fst snd].
       split; [simpl; lia|]. split; [lia | reflexivity]. }
  apply Nat.ltb_lt in El.
  destruct (py_first (json r0)) as [first|e]; cbn [lift pbind run fst snd];
    [|split; [simpl; lia | reflexivity]].
  destruct (getitem "isStructureRoot" (Json.isStructureRoot first)) as [isroot|e];
    cbn [lift pbind run fst snd]; [|split; [simpl; lia | reflexivity]].
  destruct (negb isroot); cbn [run fst snd]; [split; [simpl; lia | reflexivity]|].
  destruct replies as [|r1 replies]; cbn [run fst snd]; [split; [simpl; lia | exact I]|].
  destruct (Orig.append_to_first tempbinding_u (json r0)) as [j1|e];
    cbn [lift pbind run fst snd]; [|split; [simpl; lia | reflexivity]].
  destruct replies as [|r2 replies]; cbn [run fst snd]; [split; [simpl; lia | exact I]|].
  destruct (location r2) as [loc|]; [destruct (status_code r2 =? 202)|];
    cbn [run fst snd].
  - destruct replies as [|r3 [|r4 replies]]; cbn [run fst snd];
      try (split; [simpl; lia | exact I]).
    split; [simpl; lia|]. split; [reflexivity|]. split; [exact El|].
    eexists _, _. reflexivity.
  - destruct replies as [|r3 replies]; cbn [run fst snd];
      try (split; [simpl; lia | exact I]).
    split; [simpl; lia|]. split; [reflexivity|]. split; [exact El|].
    eexists _, _. reflexivity.
  - destruct replies as [|r3 replies]; cbn [run fst snd];
      try (split; [simpl; lia | exact I]).
    split; [simpl; lia|]. split; [reflexivity|]. split; [exact El|].
    eexists _, _. reflexivity.
Qed.

End OrigUpdate.

Section OrigMain.
Import Xml Rdfxml Workflow Shapes Creation.
Variable fromstring : string -> option element.
Variable RDF_DEFAULT_PREFIX : string -> string.
Variables proj comp conf comp_u argv1 argv2 argv3 mod_ : string.

Lemma posts_cons_other c cs : is_post c = false -> posts (c :: cs) = posts cs.
Proof. intros H. unfold posts. cbn [List.filter]. now rewrite H. Qed.

Lemma updates_cons_other c cs : is_update c = false -> updates (c :: cs) = updates cs.
Proof. intros H. unfold updates. cbn [List.filter]. now rewrite H. Qed.

Lemma Orig_find_module_run qcbase answers :
  let r := run (OrigFlow.find_module RDF_DEFAULT_PREFIX proj comp conf qcbase mod_)
             answers in
  posts (snd r) = [] /\ updates (snd r) = []
  /\ match fst r with
     | Returned u =>
         exists props,
           answered (snd r) answers
             (DidOslcQuery qcbase (module_by_title mod_) select_all
                (dcterms_prefix RDF_DEFAULT_PREFIX))
             (Hits [(u, props)])
     | Exited _ => False
     | _ => True
     end.
Proof.
  cbv zeta. unfold OrigFlow.find_module.
  destruct answers as [|[?|?|? ?|?|h] rest]; cbn [run fst snd];
    try (repeat split; reflexivity).
  destruct h as [|[u props] [|kv others]]; cbn [run fst snd];
    try (repeat split; reflexivity).
  repeat split. exists props, 0%nat. split; reflexivity.
Qed.

Lemma Orig_find_toinsert_run qcbase theid_text answers :
  let r := run (OrigFlow.find_toinsert RDF_DEFAULT_PREFIX proj comp conf qcbase
                  theid_text) answers in
  posts (snd r) = [] /\ updates (snd r) = []
  /\ match fst r with
     | Returned None => String.length theid_text = 0%nat
     | Returned (Some _) => (0 < String.length theid_text)%nat
     | Exited _ => False
     | _ => True
     end.
Proof.
  cbv zeta. unfold OrigFlow.find_toinsert.
  destruct (0 <? String.length theid_text)%nat eqn:El.
  - apply Nat.ltb_lt in El.
    destruct answers as [|[?|?|? ?|?|h] rest]; cbn [run fst snd];
      try (repeat split; reflexivity).
    destruct (OrigFlow.choose_toinsert _ _ _ _ _); cbn [run fst snd];
      repeat split; assumption.
  - apply Nat.ltb_ge in El. cbn [run fst snd]. repeat split. lia.
Qed.

Lemma Orig_main_steps_run answers :
  let r := run (OrigFlow.main_steps fromstring RDF_DEFAULT_PREFIX proj comp conf
                  comp_u argv1 argv2 argv3 mod_) answers in
  orderly (snd r)
  /\ match fst r with
     | Returned _ =>
         updates (snd r) = []
         /\ exists u got el,
              answered (snd r) answers (DidBase (Http.GetRdfXml u)) (Reply got)
              /\ find_descendant (Http.xml got) "dcterms:identifier" = Some el
              /\ text el = Some EmptyString
     | Exited code =>
         code = 0
         /\ length (posts (snd r)) = 1%nat
         /\ exists structure_u doc etag,
              updates (snd r) = [DidBase (Http.PutJson structure_u doc etag)]
     | _ => True
     end.
Proof.
  cbv zeta. unfold OrigFlow.main_steps. rewrite run_pbind.
  pose proof (Orig_creates_once fromstring argv1 argv2 argv3 answers) as (Hp & Hu & _ & Ho).
  destruct (run (OrigFlow.create _ _ _ _) answers) as [o cs].
  cbn [fst snd] in Hp, Hu, Ho.
  destruct o as [[u i]|e|c|]; cbn [fst snd];
    try (split; [now apply orderly_without_update | try exact I; try contradiction]).
  pose proof (created_fetch_answered _ _ _ _ _ _ _ Ho) as (got & el & Hgot & Hel & ->).
  apply created_post_answered in Ho as (Hp1 & _).
  destruct (drop (length cs) answers) as [|[?|?|? ?|qcbase|?] rest1]; cbn [run fst snd];
    try (split; [apply orderly_after_creation; try assumption; [reflexivity | simpl; lia]
                | exact I]).
  rewrite run_pbind.
  pose proof (Orig_find_module_run qcbase rest1) as (Hp2 & Hu2 & Ho2).
  cbv zeta in Hp2, Hu2, Ho2.
  destruct (run (OrigFlow.find_module _ _ _ _ _ _) rest1) as [o2 cs2].
  cbn [fst snd] in Hp2, Hu2, Ho2.
  assert (Hp2' : forall tail, posts tail = [] ->
            posts (DidGetQueryCapabilityUri "oslc_rm:Requirement" :: cs2 ++ tail) = []).
  { intros tail Ht. rewrite posts_cons_other by reflexivity.
    now rewrite posts_app, Hp2, Ht. }
  assert (Hu2' : forall tail,
            updates (DidGetQueryCapabilityUri "oslc_rm:Requirement" :: cs2 ++ tail)
            = updates tail).
  { intros tail. rewrite updates_cons_other by reflexivity.
    now rewrite updates_app, Hu2. }
  assert (Hp2n : posts (DidGetQueryCapabilityUri "oslc_rm:Requirement" :: cs2) = []).
  { rewrite <- (app_nil_r cs2). now apply Hp2'. }
  assert (Hu2n : updates (DidGetQueryCapabilityUri "oslc_rm:Requirement" :: cs2) = []).
  { rewrite <- (app_nil_r cs2). now rewrite Hu2'. }
  destruct o2 as [themodule_u|e|c|]; cbn [fst snd];
    try (split; [apply orderly_after_creation; try assumption;
                   rewrite Hu2n; simpl; lia
                | try exact I; try contradiction]).
  clear Ho2.
  destruct (drop (length cs2) rest1) as [|[r|?|? ?|?|?] rest2]; cbn [run fst snd];
    try (split; [apply orderly_after_creation; try assumption;
                   [now apply Hp2' | rewrite Hu2'; simpl; lia]
                | exact I]).
  destruct (text el) as [theid_text|] eqn:Etext; cbn [run fst snd];
    try (split; [apply orderly_after_creation; try assumption;
                   [now apply Hp2' | rewrite Hu2'; simpl; lia]
                | exact I]).
  rewrite run_pbind.
  pose proof (Orig_find_toinsert_run qcbase theid_text rest2) as (Hp3 & Hu3 & Ho3).
  cbv zeta in Hp3, Hu3, Ho3.
  destruct (run (OrigFlow.find_toinsert _ _ _ _ _ _) rest2) as [o3 cs3].
  cbn [fst snd] in Hp3, Hu3, Ho3.
  destruct o3 as [toinsert_u|e|c|]; cbn [fst snd];
    try (split; [apply orderly_after_creation; try assumption;
                   [apply Hp2'; now rewrite posts_cons_other by reflexivity
                   | rewrite Hu2', updates_cons_other, Hu3 by reflexivity; simpl; lia]
                | try exact I; try contradiction]).
  rewrite run_embed.
  pose proof (Orig_update_json_updates theid_text
                (xmlrdf_get_resource_uri_desc (Http.xml r) structure_tag)
                comp_u themodule_u (default EmptyString toinsert_u)
                (replies (drop (length cs3) rest2))) as (Hb1 & Hb2).
  cbv zeta in Hb1, Hb2.
  destruct (Http.run (Orig.update_json _ _ _ _ _) _) as [o4 cs4].
  cbn [fst snd] in Hb1, Hb2 |- *.
  assert (Hposts : posts (DidGetQueryCapabilityUri "oslc_rm:Requirement"
                     :: cs2 ++ DidBase (Http.GetRdfXml (Some themodule_u))
                     :: cs3 ++ map DidBase cs4) = []).
  { apply Hp2'. rewrite posts_cons_other by reflexivity.
    now rewrite posts_app, Hp3, posts_base. }
  assert (Hupdates : updates (DidGetQueryCapabilityUri "oslc_rm:Requirement"
                     :: cs2 ++ DidBase (Http.GetRdfXml (Some themodule_u))
                     :: cs3 ++ map DidBase cs4) = map DidBase (Trace.puts cs4)).
  { rewrite Hu2', updates_cons_other by reflexivity.
    now rewrite updates_app, Hu3, updates_base. }
  split.
  - apply orderly_after_creation; try assumption.
    now rewrite Hupdates, length_map.
  - destruct o4 as [j|e|c|]; cbn [lift_outcome]; try exact I.
    + destruct Hb2 as (Hlen & Hputs). split.
      * now rewrite updates_app, Hu, Hupdates, Hputs.
      * exists u, got, el.
        split; [now apply answered_app_l|]. split; [exact Hel|].
        rewrite Etext. f_equal. now destruct theid_text.
    + destruct Hb2 as (-> & _ & doc & etag & Hputs).
      split; [reflexivity|]. split.
      * now rewrite posts_app, Hposts, app_nil_r.
      * eexists _, doc, etag. rewrite updates_app, Hu, Hupdates, Hputs. reflexivity.
Qed.

End OrigMain.

(** ** Lookups, main functions, refused updates *)

(** X12: the lookups by query, given the answer to the query.  Those of V4
    and V2, for the module and for an artifact by its identifier, take the
    first hit and fail with FileNotFoundError without one.  For_Gemini.py
    asks for the module with the same terms as V4, and besides selects
    every property and names the dcterms prefix, as V2 does; it returns
    only when there is exactly one hit, and then the variants agree; with
    several hits it fails where V2 and V4 go on with the first. *)
Theorem module_lookup_first_hit_or_only_hit
    (RDF_DEFAULT_PREFIX : string -> string)
    (proj comp conf name q : string) (h : Workflow.hits)
    (rest : list Workflow.answer) :
  let v4 := Workflow.run (V4Flow.find_module_by_name name)
              (Workflow.Capability q :: Workflow.Hits h :: rest) in
  let v2 := Workflow.run (V2Flow.get_module_uri_by_id RDF_DEFAULT_PREFIX name)
              (Workflow.Capability q :: Workflow.Hits h :: rest) in
  let by_id := Workflow.run (V4Flow.find_artifact_uri_by_id name)
                 (Workflow.Capability q :: Workflow.Hits h :: rest) in
  let orig := Workflow.run
                (OrigFlow.find_module RDF_DEFAULT_PREFIX proj comp conf q name)
                (Workflow.Hits h :: rest) in
  fst v4 = match h with
           | [] => Workflow.Raised (Workflow.FileNotFoundError name)
           | (module_uri, _) :: _ => Workflow.Returned module_uri
           end
  /\ fst v2 = fst v4
  /\ fst by_id = fst v4
  /\ snd v4
     = [ Workflow.DidGetQueryCapabilityUri "oslc_rm:Requirement";
         Workflow.DidOslcQuery q (Creation.module_by_title name) None None ]
  /\ snd v2
     = [ Workflow.DidGetQueryCapabilityUri "oslc_rm:Requirement";
         Workflow.DidOslcQuery q (Creation.module_by_identifier name)
           Workflow.select_all (Workflow.dcterms_prefix RDF_DEFAULT_PREFIX) ]
  /\ snd orig
     = [ Workflow.DidOslcQuery q (Creation.module_by_title name)
           Workflow.select_all (Workflow.dcterms_prefix RDF_DEFAULT_PREFIX) ]
  /\ match fst orig with
     | Workflow.Returned module_uri =>
         (exists props, h = [(module_uri, props)])
         /\ fst v4 = Workflow.Returned module_uri
     | Workflow.Raised _ => h = [] \/ (2 <= length h)%nat
     | _ => False
     end.
Proof.
  cbv zeta.
  destruct h as [|[u props] [|kv others]]; cbn.
  - repeat split. now left.
  - repeat split. now exists props.
  - repeat split. right. lia.
Qed.

(** X13: [main] of V4, whatever the server answers and whatever the
    parser makes of its texts.  It sends at most one POST and at most one
    update, no update without the POST, and the POST first.  No exception
    leaves it: it ends with exit code 1, or returns.  When it returns, the
    POST was answered with 201, and the one update appends, in the slot of
    the two-level path, what the text of the new binding parses to: the
    text into which the Location of that answer and the first module the
    query by title has found are spliced as they are. *)
Theorem V4_main_binds_the_created_artifact
    (fromstring : string -> option Xml.element)
    (RDF_DEFAULT_PREFIX : string -> string)
    (project_uri artifact_type artifact_title folder_path module_name : string)
    (answers : list Workflow.answer) :
  let r := Workflow.run
             (V4Flow.main fromstring RDF_DEFAULT_PREFIX project_uri artifact_type
                artifact_title folder_path module_name) answers in
  Creation.orderly (snd r)
  /\ match fst r with
     | Workflow.Returned _ =>
         exists factory data response q module_uri props others update,
           Creation.answered (snd r) answers
             (Workflow.DidPostRdfXml factory data) (Workflow.Reply response)
           /\ Http.status_code response = 201
           /\ Creation.answered (snd r) answers
                (Workflow.DidOslcQuery q (Creation.module_by_title module_name)
                   None None)
                (Workflow.Hits ((module_uri, props) :: others))
           /\ Creation.updates (snd r) = [update]
           /\ Creation.binds fromstring RDF_DEFAULT_PREFIX V4.find_insertion_point
                project_uri
                (Workflow.fstr (Http.location response)) module_uri update
     | Workflow.Exited code => code = 1
     | Workflow.Raised _ => False
     | Workflow.Stuck => True
     end.
Proof.
  cbv zeta. unfold V4Flow.main. rewrite run_catch_exit.
  pose proof (V4_main_steps_run fromstring RDF_DEFAULT_PREFIX project_uri
                artifact_type artifact_title folder_path module_name answers)
    as (Hord & Hout).
  cbv zeta in Hord, Hout.
  destruct (Workflow.run (V4Flow.main_steps _ _ _ _ _ _ _) answers)
    as [[[]|e|c|] cs];
    cbv beta iota; cbn [fst snd] in *; split; try assumption; try reflexivity;
    try contradiction.
Qed.

(** X14: [main] of V2, whatever the server answers and whatever the
    parser makes of its texts.  The same order of calls and the same ends
    as in V4.  When it returns, the one update appends, in the slot of the
    one-level path, what the text of the new binding parses to: the text
    into which are spliced, as they are, the first hit of a query for the
    identifier read from the created artifact and the first module the
    query by identifier has found; the value of the first of these queries
    is the identifier as read, without quotes. *)
Theorem V2_main_binds_the_artifact_it_finds_by_identifier
    (fromstring : string -> option Xml.element)
    (RDF_DEFAULT_PREFIX : string -> string)
    (project_uri artifact_type artifact_title folder_path module_id : string)
    (answers : list Workflow.answer) :
  let r := Workflow.run
             (V2Flow.main fromstring RDF_DEFAULT_PREFIX project_uri artifact_type
                artifact_title folder_path module_id) answers in
  Creation.orderly (snd r)
  /\ match fst r with
     | Workflow.Returned _ =>
         exists factory data response got el q module_uri props others
                q' artifact_uri props' others' update,
           Creation.answered (snd r) answers
             (Workflow.DidPostRdfXml factory data) (Workflow.Reply response)
           /\ Http.status_code response = 201
           /\ Creation.answered (snd r) answers
                (Workflow.DidBase (Http.GetRdfXml (Http.location response)))
                (Workflow.Reply got)
           /\ Rdfxml.find_descendant (Http.xml got) "dcterms:identifier" = Some el
           /\ Creation.answered (snd r) answers
                (Workflow.DidOslcQuery q (Creation.module_by_identifier module_id)
                   Workflow.select_all (Workflow.dcterms_prefix RDF_DEFAULT_PREFIX))
                (Workflow.Hits ((module_uri, props) :: others))
           /\ Creation.answered (snd r) answers
                (Workflow.DidOslcQuery q' [("dcterms:identifier", "=", Xml.text el)]
                   None None)
                (Workflow.Hits ((artifact_uri, props') :: others'))
           /\ Creation.updates (snd r) = [update]
           /\ Creation.binds fromstring RDF_DEFAULT_PREFIX V2.first_child_bindings
                project_uri artifact_uri module_uri update
     | Workflow.Exited code => code = 1
     | Workflow.Raised _ => False
     | Workflow.Stuck => True
     end.
Proof.
  cbv zeta. unfold V2Flow.main. rewrite run_catch_exit.
  pose proof (V2_main_steps_run fromstring RDF_DEFAULT_PREFIX project_uri
                artifact_type artifact_title folder_path module_id answers)
    as (Hord & Hout).
  cbv zeta in Hord, Hout.
  destruct (Workflow.run (V2Flow.main_steps _ _ _ _ _ _ _) answers)
    as [[[]|e|c|] cs];
    cbv beta iota; cbn [fst snd] in *; split; try assumption; try reflexivity;
    try contradiction.
Qed.

(** X15: For_Gemini.py from the folder lookup to the end of the JSON
    update (lines 252-620), whatever the server answers.  The calls are in
    the same order as in V2 and V4.  The script goes on to the outline of
    lines 621-694 only when the identifier of the new artifact is the
    empty string, and then without an update.  It exits only with code 0,
    after the POST and exactly one update, a PUT of the JSON structure. *)
Theorem Orig_outline_only_without_update
    (fromstring : string -> option Xml.element)
    (RDF_DEFAULT_PREFIX : string -> string)
    (proj comp conf comp_u argv1 argv2 argv3 mod_ : string)
    (answers : list Workflow.answer) :
  let r := Workflow.run
             (OrigFlow.main_steps fromstring RDF_DEFAULT_PREFIX proj comp conf comp_u
                argv1 argv2 argv3 mod_) answers in
  Creation.orderly (snd r)
  /\ match fst r with
     | Workflow.Returned _ =>
         Creation.updates (snd r) = []
         /\ exists u got el,
              Creation.answered (snd r) answers
                (Workflow.DidBase (Http.GetRdfXml u)) (Workflow.Reply got)
              /\ Rdfxml.find_descendant (Http.xml got) "dcterms:identifier" = Some el
              /\ Xml.text el = Some EmptyString
     | Workflow.Exited code =>
         code = 0
         /\ length (Creation.posts (snd r)) = 1%nat
         /\ exists structure_u doc etag,
              Creation.updates (snd r)
              = [Workflow.DidBase (Http.PutJson structure_u doc etag)]
     | _ => True
     end.
Proof. apply Orig_main_steps_run. Qed.

(** X16: an update the server refuses.  For_Gemini.py does not look at the
    status of its PUT: with a structure whose first record is the flagged
    root it ends with exit code 0 though the answer is none of 200, 201,
    202.  V4 and V2, when they have found their slot and the text of the
    new binding parses, send their PUT and, given the same answer to it,
    raise ConnectionError with that status. *)
Theorem refused_update_exit_0_or_ConnectionError
    (fromstring : string -> option Xml.element)
    (RDF_DEFAULT_PREFIX : string -> string)
    (theid_text comp_u themodule_u toinsert_u project_uri module_uri artifact_uri
       : string)
    (structure_u : option string)
    (first : Json.binding) (rest : list Json.binding) (cs : list string)
    (r0 r1 r3 x0 x1 refusal : Http.reply) (replies replies' : list Http.reply)
    (slot4 slot2 : Xml.pos) (new_binding_xml : Xml.element) :
  Common.rejected (Http.status_code refusal) = true ->
  (0 < String.length theid_text)%nat ->
  Http.json r0 = first :: rest ->
  Json.isStructureRoot first = Some true ->
  Json.childBindings first = Some cs ->
  V4.find_insertion_point (Http.xml x1) = OK slot4 ->
  V2.first_child_bindings (Http.xml x1) = OK slot2 ->
  fromstring
    (Common.new_binding_text RDF_DEFAULT_PREFIX EmptyString project_uri artifact_uri
       module_uri) = Some new_binding_xml ->
  fst (Http.run (Orig.update_json theid_text structure_u comp_u themodule_u toinsert_u)
         (r0 :: r1 :: refusal :: r3 :: replies))
  = Http.Exited 0
  /\ Http.run
       (V4.bind_artifact_to_module fromstring RDF_DEFAULT_PREFIX project_uri
          module_uri artifact_uri)
       (x0 :: x1 :: refusal :: replies')
     = (Http.Raised (ConnectionError (Http.status_code refusal)),
        [ Http.GetRdfXml (Some module_uri);
          Http.GetRdfXml
            (Rdfxml.xmlrdf_get_resource_uri_desc (Http.xml x0) Rdfxml.structure_tag);
          Http.PutRdfXml
            (Rdfxml.xmlrdf_get_resource_uri_desc (Http.xml x0) Rdfxml.structure_tag)
            (Xml.append_at slot4 new_binding_xml (Http.xml x1)) (Http.etag x1) ])
  /\ Http.run
       (V2.bind_artifact_to_module_structure fromstring RDF_DEFAULT_PREFIX
          project_uri module_uri artifact_uri)
       (x0 :: x1 :: refusal :: replies')
     = (Http.Raised (ConnectionError (Http.status_code refusal)),
        [ Http.GetRdfXml (Some module_uri);
          Http.GetRdfXml
            (Rdfxml.xmlrdf_get_resource_uri_desc (Http.xml x0) Rdfxml.structure_tag);
          Http.PutRdfXml
            (Rdfxml.xmlrdf_get_resource_uri_desc (Http.xml x0) Rdfxml.structure_tag)
            (Xml.append_at slot2 new_binding_xml (Http.xml x1)) (Http.etag x1) ]).
Proof.
  intros Hrej Hid Hj Hroot Hcs H4 H2 Hparse.
  assert (H202 : (Http.status_code refusal =? 202) = false).
  { unfold Common.rejected in Hrej. apply Bool.negb_true_iff in Hrej.
    apply Bool.orb_false_iff in Hrej as [_ H]. exact H. }
  split; [|split].
  - rewrite (Orig_update_json_run _ _ _ _ _ first rest cs); try assumption.
    reflexivity.
  - rewrite V4_bind_run. cbv zeta. unfold Common.parse.
    rewrite H4, Hparse, Hrej. reflexivity.
  - rewrite V2_bind_run. cbv zeta. unfold Common.parse.
    rewrite H2, Hparse, Hrej. reflexivity.
Qed.

Lemma refused_update_exit_0_or_ConnectionError_witness :
  fst (Http.run
         (Orig.update_json "42" (Some Sample.structure_u) (Sample.url "component")
            (Sample.url "MD_1") (Sample.url "new"))
         [Sample.reply_json Sample.nested_module "e0";
          Sample.reply_xml Sample.no_element "e1";
          Sample.reply_status 412;
          Sample.reply_json Sample.nested_module "e3"])
  = Http.Exited 0
  /\ Http.run
       (V4.bind_artifact_to_module Sample.fromstring Sample.RDF_DEFAULT_PREFIX
          (Sample.url "component") (Sample.url "MD_1") (Sample.url "new"))
       [Sample.reply_xml Sample.module_x "e0";
        Sample.reply_xml Sample.heading_module_x "e1";
        Sample.reply_status 412]
     = (Http.Raised (ConnectionError 412),
        [ Http.GetRdfXml (Some (Sample.url "MD_1"));
          Http.GetRdfXml (Some Sample.structure_u);
          Http.PutRdfXml (Some Sample.structure_u)
            (Xml.append_at [0; 0; 0; 4]%nat
               (Common.new_binding_element EmptyString (Sample.url "component")
                  (Sample.url "new") (Sample.url "MD_1"))
               Sample.heading_module_x) "e1" ])
  /\ Http.run
       (V2.bind_artifact_to_module_structure Sample.fromstring
          Sample.RDF_DEFAULT_PREFIX (Sample.url "component") (Sample.url "MD_1")
          (Sample.url "new"))
       [Sample.reply_xml Sample.module_x "e0";
        Sample.reply_xml Sample.heading_module_x "e1";
        Sample.reply_status 412]
     = (Http.Raised (ConnectionError 412),
        [ Http.GetRdfXml (Some (Sample.url "MD_1"));
          Http.GetRdfXml (Some Sample.structure_u);
          Http.PutRdfXml (Some Sample.structure_u)
            (Xml.append_at [0; 0]%nat
               (Common.new_binding_element EmptyString (Sample.url "component")
                  (Sample.url "new") (Sample.url "MD_1"))
               Sample.heading_module_x) "e1" ]).
Proof.
  apply (refused_update_exit_0_or_ConnectionError
           Sample.fromstring Sample.RDF_DEFAULT_PREFIX
           "42" (Sample.url "component") (Sample.url "MD_1") (Sample.url "new")
           (Sample.url "component") (Sample.url "MD_1") (Sample.url "new")
           (Some Sample.structure_u)
           (Sample.record Sample.structure_u true false [Sample.url "h1"])
           [Sample.record (Sample.url "h1") false true [Sample.url "h2"];
            Sample.record (Sample.url "h2") false true [Sample.url "leaf"];
            Sample.record (Sample.url "leaf") false false []]
           [Sample.url "h1"]
           (Sample.reply_json Sample.nested_module "e0")
           (Sample.reply_xml Sample.no_element "e1")
           (Sample.reply_json Sample.nested_module "e3")
           (Sample.reply_xml Sample.module_x "e0")
           (Sample.reply_xml Sample.heading_module_x "e1")
           (Sample.reply_status 412) [] [] [0; 0; 0; 4]%nat [0; 0]%nat
           (Common.new_binding_element EmptyString (Sample.url "component")
              (Sample.url "new") (Sample.url "MD_1")));
    try reflexivity.
  vm_compute. lia.
Defined.

(** ** The outline of a flat module, JSON form *)

Section JsonFlatFacts.
Import Orig Outline FlatNumbering FlatJson.
Variable baseurl : string.
Variable artifact : string -> string * string.

Lemma filter_leaves_other u (items : list (string * bool)) :
  u ∉ map fst items ->
  filter (fun s => Json.uri s = Some u) (map leaf items) = [].
Proof.
  induction items as [|it items IH]; intros Hu; [reflexivity|].
  cbn [map]. rewrite filter_cons.
  destruct (decide (Json.uri (leaf it) = Some u)) as [E|E].
  - exfalso. apply Hu. cbn [map].
    assert (fst it = u) as <- by (unfold leaf in E; cbn in E; congruence).
    constructor.
  - apply IH. intros H. apply Hu. cbn [map]. now constructor.
Qed.

Lemma filter_leaves_one it (items : list (string * bool)) :
  NoDup (map fst items) -> it ∈ items ->
  filter (fun s => Json.uri s = Some (fst it)) (map leaf items) = [leaf it].
Proof.
  induction items as [|it' items IH]; intros Hnd Hin; [set_solver|].
  cbn [map] in *. apply NoDup_cons in Hnd as [Hnot Hnd].
  rewrite filter_cons.
  destruct (decide (Json.uri (leaf it') = Some (fst it))) as [E|E].
  - injection E as E.
    assert (it = it') as ->.
    { apply elem_of_cons in Hin as [H|H]; [exact H|].
      exfalso. apply Hnot. rewrite E. apply list_elem_of_fmap. now exists it. }
    now rewrite filter_leaves_other.
  - apply IH; [exact Hnd|].
    apply elem_of_cons in Hin as [->|H]; [|exact H]. now contradiction E.
Qed.

(** The table of the records of a flat module. *)
Lemma scan_records structure_u (items : list (string * bool)) :
  NoDup (structure_u :: map fst items) ->
  exists entries,
    scan (records structure_u items) = OK entries
    /\ entries !! structure_u
       = Some (Sample.record structure_u true false (map fst items))
    /\ forall it, it ∈ items -> entries !! fst it = Some (leaf it).
Proof.
  intros Hnd. apply NoDup_cons in Hnd as [Hroot Hnd].
  pose proof (scan_spec (records structure_u items)) as Hs.
  destruct (scan (records structure_u items)) as [entries|e].
  - exists entries. split; [reflexivity|]. split.
    + rewrite Hs. unfold records. rewrite filter_cons.
      destruct (decide _) as [_|E]; [|now contradiction E].
      now rewrite filter_leaves_other.
    + intros it Hin. rewrite Hs. unfold records. rewrite filter_cons.
      destruct (decide _) as [E|_].
      * injection E as E. exfalso. apply Hroot. rewrite E.
        apply list_elem_of_fmap. now exists it.
      * now rewrite filter_leaves_one.
  - exfalso. destruct Hs as (_ & s & Hin & Hnone).
    unfold records in Hin. apply elem_of_cons in Hin as [->|Hin]; [discriminate|].
    apply list_elem_of_fmap in Hin as (it & -> & _). discriminate.
Qed.

Lemma gen_concat_flat_map {A B} (f : B -> gen A) (g : B -> list A) (cs : list B) :
  Forall (fun c => f c = (g c, Exhausted)) cs ->
  gen_concat (map f cs) = (flat_map g cs, Exhausted).
Proof.
  induction 1 as [|c cs Hc _ IH]; [reflexivity|].
  cbn [map gen_concat fold_right flat_map]. fold (gen_concat (map f cs)).
  rewrite Hc, IH. reflexivity.
Qed.

Lemma flat_walk entries structure_u (items : list (string * bool)) k :
  entries !! structure_u = Some (Sample.record structure_u true false (map fst items)) ->
  (forall it, it ∈ items -> entries !! fst it = Some (leaf it)) ->
  json_structure_walk entries (2 + k) structure_u
  = ((startChildren, Sample.record structure_u true false (map fst items))
       :: flat_map leaf_events items
       ++ [(endChildren, Sample.record structure_u true false (map fst items))],
     Exhausted).
Proof.
  intros Hroot Hleaf. unfold json_structure_walk.
  change (2 + k)%nat with (S (S k)). cbn [jrecursiveiterator].
  unfold entry at 1. rewrite Hroot.
  cbn [Sample.record Json.childBindings getitem].
  rewrite map_map.
  rewrite (gen_concat_flat_map _ leaf_events).
  - reflexivity.
  - apply List.Forall_forall. intros it Hin. apply list_elem_of_In in Hin.
    cbn [jrecursiveiterator]. unfold entry. rewrite (Hleaf it Hin). reflexivity.
Qed.

Lemma jvisit_leaf it st hn tn :
  String.prefix baseurl (fst it) = true ->
  headinglevel st = [(hn, tn)] ->
  exists st',
    for_each (jvisit baseurl artifact) (leaf_events it) st = OK st'
    /\ headinglevel st' = [if snd it then (hn + 1, 0) else (hn, tn + 1)]
    /\ level st' = level st
    /\ map line_section (printed st')
       = map line_section (printed st)
         ++ [Numbering.getsectionnumber
               [if snd it then (hn + 1, 0) else (hn, tn + 1)]].
Proof.
  intros Hp Hhl. destruct it as [u h]. cbn [fst snd] in *.
  unfold leaf_events, leaf. cbn [fst snd for_each].
  unfold jvisit at 1.
  cbn [Sample.record Json.isHeading Json.uri getitem bind].
  rewrite Hp. destruct (artifact u) as [summary id].
  unfold report. rewrite Hhl.
  assert (Hb : bump h [(hn, tn)] = OK [if h then (hn + 1, 0) else (hn, tn + 1)]).
  { destruct h; [apply (bump_heading []) | apply (bump_text [])]. }
  rewrite Hb. cbn [bind].
  set (c := if h then (hn + 1, 0) else (hn, tn + 1)).
  unfold jvisit.
  cbn [Sample.record Json.isHeading getitem bind enter leave headinglevel level
       printed app].
  change (py_pop [c; (0, 0)]) with (OK [c]). cbn [bind headinglevel level printed].
  eexists. split; [reflexivity|].
  unfold enter. cbn [headinglevel level printed app removelast].
  rewrite map_app. split; [reflexivity|]. split; [lia | reflexivity].
Qed.

Lemma jvisit_leaves (items : list (string * bool)) : forall st hn tn,
  0 <= tn ->
  Forall (fun it => String.prefix baseurl (fst it) = true) items ->
  headinglevel st = [(hn, tn)] ->
  exists st',
    for_each (jvisit baseurl artifact) (flat_map leaf_events items) st = OK st'
    /\ length (headinglevel st') = 1%nat
    /\ map line_section (printed st')
       = map line_section (printed st) ++ flat_sections hn tn (map snd items).
Proof.
  induction items as [|[u h] items IH]; intros st hn tn Htn Hall Hhl.
  - exists st. simpl. rewrite Hhl, app_nil_r. repeat split; reflexivity.
  - inversion Hall as [|? ? Hp Hrest]; subst. cbn [fst snd] in Hp.
    cbn [map flat_map fst snd]. rewrite for_each_app.
    destruct (jvisit_leaf (u, h) st hn tn Hp Hhl) as (st1 & E1 & Hhl1 & _ & Hpr1).
    rewrite E1. cbn [bind fst snd] in *.
    destruct h.
    + destruct (IH st1 (hn + 1) 0 ltac:(lia) Hrest Hhl1) as (st' & E' & Hlen & Hpr).
      exists st'. split; [exact E'|]. split; [exact Hlen|].
      rewrite Hpr, Hpr1, section_of_heading, <- app_assoc. reflexivity.
    + destruct (IH st1 hn (tn + 1) ltac:(lia) Hrest Hhl1) as (st' & E' & Hlen & Hpr).
      exists st'. split; [exact E'|]. split; [exact Hlen|].
      rewrite Hpr, Hpr1, section_of_text by lia. rewrite <- app_assoc. reflexivity.
Qed.

End JsonFlatFacts.

(** X17: the outline of the JSON form, for every module of one level.  For
    a root record whose children are any run of records without children,
    with URLs that differ from each other and from the root's and start
    with the base URL, the loop of lines 651-694 completes and prints, in
    order, the next heading number for each heading and, for each text,
    the number of the last heading before it (0 when there is none), a
    dash and its rank among the texts since that heading. *)
Theorem json_outline_of_flat_module
    (baseurl : string) (artifact : string -> string * string)
    (structure_u : string) (items : list (string * bool)) (k : nat) :
  NoDup (structure_u :: map fst items) ->
  Forall (fun it => String.prefix baseurl (fst it) = true) items ->
  exists st,
    Orig.outline_json baseurl artifact (2 + k) structure_u
      (FlatJson.records structure_u items)
    = Outline.Completed st
    /\ map Outline.line_section (Outline.printed st)
       = FlatNumbering.flat_sections 0 0 (map snd items).
Proof.
  intros Hnd Hall.
  destruct (scan_records structure_u items Hnd) as (entries & Hscan & Hroot & Hleaf).
  unfold Orig.outline_json. rewrite Hscan.
  unfold Orig.entry at 1. rewrite Hroot.
  rewrite (flat_walk entries structure_u items k Hroot Hleaf).
  unfold Outline.for_gen. cbn [fst snd].
  set (root := Sample.record structure_u true false (map fst items)).
  change ((Orig.startChildren, root)
            :: flat_map FlatJson.leaf_events items ++ [(Orig.endChildren, root)])
    with ([(Orig.startChildren, root)]
            ++ flat_map FlatJson.leaf_events items ++ [(Orig.endChildren, root)]).
  rewrite !for_each_app.
  change (Outline.for_each (Orig.jvisit baseurl artifact)
            [(Orig.startChildren, root)] Outline.initial)
    with (OK (Outline.enter Outline.initial)).
  cbn [bind].
  destruct (jvisit_leaves baseurl artifact items (Outline.enter Outline.initial) 0 0
              ltac:(lia) Hall eq_refl) as (st' & E & Hlen & Hpr).
  rewrite for_each_app, E. cbn [bind Outline.for_each].
  destruct (Outline.headinglevel st') as [|c [|? ?]] eqn:Ehl; try discriminate.
  unfold Orig.jvisit. cbn [Outline.leave]. unfold Outline.leave. rewrite Ehl.
  cbn. eexists. split; [reflexivity|]. exact Hpr.
Qed.


Lemma json_outline_of_flat_module_witness :
  NoDup (Sample.structure_u
           :: map fst [(Sample.url "t0", false); (Sample.url "h1", true);
                       (Sample.url "t1", false)])
  /\ Forall (fun it => String.prefix Sample.baseurl (fst it) = true)
       [(Sample.url "t0", false); (Sample.url "h1", true); (Sample.url "t1", false)]
  /\ exists st,
       Orig.outline_json Sample.baseurl Sample.artifact (2 + 0) Sample.structure_u
         (FlatJson.records Sample.structure_u
            [(Sample.url "t0", false); (Sample.url "h1", true);
             (Sample.url "t1", false)])
       = Outline.Completed st
       /\ map Outline.line_section (Outline.printed st)
          = FlatNumbering.flat_sections 0 0
              (map snd [(Sample.url "t0", false); (Sample.url "h1", true);
                        (Sample.url "t1", false)]).
Proof.
  assert (Hnd : NoDup (Sample.structure_u
           :: map fst [(Sample.url "t0", false); (Sample.url "h1", true);
                       (Sample.url "t1", false)]))
    by (apply (bool_decide_unpack _); vm_compute; exact I).
  assert (H : Forall (fun it => String.prefix Sample.baseurl (fst it) = true)
                [(Sample.url "t0", false); (Sample.url "h1", true);
                 (Sample.url "t1", false)])
    by (repeat constructor).
  split; [exact Hnd|]. split; [exact H|].
  exact (json_outline_of_flat_module Sample.baseurl Sample.artifact _ _ 0%nat Hnd H).
Defined.

(** ** Sample runs

    On the sample server each variant gets to its end: V4 and V2 return
    after the POST and one update, For_Gemini.py exits with 0 after the
    POST and one update.  V4 binds the Location of the POST, V2 and
    For_Gemini.py the artifact their query has found. *)

Section SampleRuns.
Import Workflow Creation SampleFlow.

Lemma V4_sample_run :
  let r := run (V4Flow.main parse_any Sample.RDF_DEFAULT_PREFIX
                  (Sample.url "component") "Requirement" "Title" "folder" "Module")
             answers_V4 in
  fst r = Returned tt
  /\ length (snd r) = length answers_V4
  /\ exists structure doc etag,
       updates (snd r) = [DidBase (Http.PutRdfXml structure doc etag)]
       /\ Xml.subtree doc [0; 0; 0; 4; 1]%nat
          = Some (Common.new_binding_element EmptyString (Sample.url "component")
                    (Sample.url "new") (Sample.url "MD_1")).
Proof.
  cbv zeta. split; [vm_compute; reflexivity|]. split; [vm_compute; reflexivity|].
  eexists _, _, _. split; vm_compute; reflexivity.
Qed.

Lemma V2_sample_run :
  let r := run (V2Flow.main parse_any Sample.RDF_DEFAULT_PREFIX
                  (Sample.url "component") "Requirement" "Title" "folder" "17")
             answers_V2 in
  fst r = Returned tt
  /\ length (snd r) = length answers_V2
  /\ exists structure doc etag,
       updates (snd r) = [DidBase (Http.PutRdfXml structure doc etag)]
       /\ Xml.subtree doc [0; 0; 1]%nat
          = Some (Common.new_binding_element EmptyString (Sample.url "component")
                    (Sample.url "found") (Sample.url "MD_1")).
Proof.
  cbv zeta. split; [vm_compute; reflexivity|]. split; [vm_compute; reflexivity|].
  eexists _, _, _. split; vm_compute; reflexivity.
Qed.

Lemma Orig_sample_run :
  let r := run (OrigFlow.main_steps parse_any Sample.RDF_DEFAULT_PREFIX "project"
                  "component" "stream" (Sample.url "component") "Requirement"
                  "Title" "folder" "Module")
             answers_Orig in
  fst r = Exited 0
  /\ length (snd r) = length answers_Orig
  /\ exists structure doc etag,
       updates (snd r) = [DidBase (Http.PutJson structure doc etag)]
       /\ last doc
          = Some (Orig.newbinding (Sample.url "component") (Sample.url "MD_1")
                    (Sample.url "found")).
Proof.
  cbv zeta. split; [vm_compute; reflexivity|]. split; [vm_compute; reflexivity|].
  eexists _, _, _. split; vm_compute; reflexivity.
Qed.

End SampleRuns.
